(** * Payment gateway backend: signature checks, webhook handlers, token cache

    A shallow embedding of the gateway adapters of the backend and of
    the amount validator:
    - the OAuth PhonePe adapter (src/unnamed/part_000, lines 1-312),
    - the Razorpay adapter (src/unnamed/part_000, lines 313-517),
    - the salt-based PhonePe adapter (the JavaScript module at the end
      of src/backend/README.md, lines 1029-1301),
    - the validators of src/backend/utils/validators.js,
    - the Razorpay and PhonePe routes of src/backend/routes/webhooks.js,
    together with the parts of the Node.js runtime they call: SHA-256
    and HMAC-SHA256 digests, base64, JSON text conversion and IEEE-754
    binary64 numbers.

    Conventions.
    - A JavaScript string is modelled by the sequence of its UTF-8 bytes
      (a Rocq [string]); this is the sequence [Hash.update] and
      [Buffer.from] feed to the digest and to base64.
    - A JavaScript number is a binary64 float ([PrimFloat.float]).
    - An [async] function is modelled by the outcome its promise settles
      with: [Returned v] for a fulfilled promise, [Thrown e] for a
      rejected one.  The only suspension point that matters here, the
      token request of [getAccessToken], is modelled by splitting that
      function at its [await].
    - Conversions throw where JavaScript throws: [ToString] and
      [ToNumber] give a TypeError for an object that has an own
      [toString] property, which in a JSON value is never callable.
    - Calls of the logger are left out, except for the property reads
      in their arguments that can throw. *)

From Stdlib Require Import ZArith List String Ascii Bool Lia Floats.
Import ListNotations.

Set Warnings "-register-all".

(** ** Bytes and hexadecimal text *)

Module Bytes.
Local Open Scope Z_scope.

Definition byte_of_ascii (c : ascii) : Z := Z.of_N (N_of_ascii c).
Definition ascii_of_byte (b : Z) : ascii := ascii_of_N (Z.to_N (b mod 256)).

Fixpoint bytes_of_string (s : string) : list Z :=
  match s with
  | EmptyString => []
  | String c s' => byte_of_ascii c :: bytes_of_string s'
  end.

Fixpoint string_of_bytes (l : list Z) : string :=
  match l with
  | [] => EmptyString
  | b :: l' => String (ascii_of_byte b) (string_of_bytes l')
  end.

(** One lowercase hexadecimal digit, as [digest('hex')] prints it. *)
Definition hex_digit (n : Z) : ascii :=
  if n <? 10 then ascii_of_byte (48 + n) else ascii_of_byte (87 + n).

Definition hex_byte (b : Z) : string :=
  String (hex_digit (Z.shiftr b 4 mod 16)) (String (hex_digit (b mod 16)) EmptyString).

Fixpoint hex_of_bytes (l : list Z) : string :=
  match l with
  | [] => EmptyString
  | b :: l' => (hex_byte b ++ hex_of_bytes l')%string
  end.

(** A character of [0-9a-f]. *)
Definition lower_hex (c : ascii) : bool :=
  let b := byte_of_ascii c in
  ((48 <=? b) && (b <=? 57)) || ((97 <=? b) && (b <=? 102)).

Fixpoint all_lower_hex (s : string) : bool :=
  match s with
  | EmptyString => true
  | String c s' => lower_hex c && all_lower_hex s'
  end.

End Bytes.

(** ** SHA-256 (FIPS 180-4) and HMAC (RFC 2104)

    [crypto.createHash('sha256')] and [crypto.createHmac('sha256', key)].
    Words are 32-bit integers carried in [Z], with the wrap-around
    written out. *)

Module SHA256.
Import Bytes.
Local Open Scope Z_scope.

Definition w32 (x : Z) : Z := Z.land x 0xFFFFFFFF.
Definition add32 (x y : Z) : Z := w32 (x + y).
Definition rotr (n x : Z) : Z := Z.lor (Z.shiftr x n) (w32 (Z.shiftl x (32 - n))).
Definition not32 (x : Z) : Z := Z.lxor x 0xFFFFFFFF.

Definition Ch (x y z : Z) : Z := Z.lxor (Z.land x y) (Z.land (not32 x) z).
Definition Maj (x y z : Z) : Z :=
  Z.lxor (Z.lxor (Z.land x y) (Z.land x z)) (Z.land y z).
Definition Sigma0 (x : Z) : Z := Z.lxor (Z.lxor (rotr 2 x) (rotr 13 x)) (rotr 22 x).
Definition Sigma1 (x : Z) : Z := Z.lxor (Z.lxor (rotr 6 x) (rotr 11 x)) (rotr 25 x).
Definition sigma0 (x : Z) : Z := Z.lxor (Z.lxor (rotr 7 x) (rotr 18 x)) (Z.shiftr x 3).
Definition sigma1 (x : Z) : Z := Z.lxor (Z.lxor (rotr 17 x) (rotr 19 x)) (Z.shiftr x 10).

(** The constants of FIPS 180-4 are taken from the first sixty-four
    primes: the first 32 bits of the fractional part of the cube root
    of each prime for the round constants, of the square root of the
    first eight for the initial chaining value. *)
Definition is_prime (n : nat) : bool :=
  forallb (fun d => negb (Nat.eqb (n mod d) 0)) (seq 2 (n - 2)).

Definition primes : list Z :=
  Eval vm_compute in map Z.of_nat (filter is_prime (seq 2 310)).

(** The integer part of the cube root, one bit at a time. *)
Definition cube_root (n : Z) : Z :=
  fold_left (fun r b => let c := r + 2 ^ Z.of_nat b in if c * c * c <=? n then c else r)
            (rev (seq 0 40)) 0.

Definition K : list Z :=
  Eval vm_compute in map (fun p => w32 (cube_root (p * 2 ^ 96))) primes.

(** The eight working variables / the chaining value. *)
Record state : Type := State
  { ha : Z; hb : Z; hc : Z; hd : Z; he : Z; hf : Z; hg : Z; hh : Z }.

Definition fractional_sqrt (p : Z) : Z := w32 (Z.sqrt (p * 2 ^ 64)).

Definition H0 : state :=
  Eval vm_compute in
    State (fractional_sqrt 2) (fractional_sqrt 3) (fractional_sqrt 5) (fractional_sqrt 7)
          (fractional_sqrt 11) (fractional_sqrt 13) (fractional_sqrt 17) (fractional_sqrt 19).

(** Padding: a 1 bit, zeros up to 56 mod 64 bytes, the bit length on 64 bits. *)
Definition be_bytes (n : nat) (x : Z) : list Z :=
  map (fun i => Z.shiftr x (8 * Z.of_nat i) mod 256) (rev (seq 0 n)).

Definition pad (msg : list Z) : list Z :=
  let len := Z.of_nat (List.length msg) in
  (msg ++ [0x80] ++ repeat 0 (Z.to_nat ((55 - len) mod 64)) ++ be_bytes 8 (8 * len))%list.

Fixpoint words_of_bytes (l : list Z) : list Z :=
  match l with
  | b0 :: b1 :: b2 :: b3 :: l' =>
      (Z.shiftl b0 24 + Z.shiftl b1 16 + Z.shiftl b2 8 + b3) :: words_of_bytes l'
  | _ => []
  end.

(** Message schedule: sixteen words of the block, extended to sixty-four. *)
Fixpoint extend (n : nat) (w : list Z) : list Z :=
  match n with
  | O => w
  | S n' =>
      let l := List.length w in
      let at_ (k : nat) := nth (l - k) w 0 in
      extend n' (w ++ [add32 (add32 (sigma1 (at_ 2%nat)) (at_ 7%nat))
                             (add32 (sigma0 (at_ 15%nat)) (at_ 16%nat))])%list
  end.

Definition schedule (block : list Z) : list Z := extend 48 (words_of_bytes block).

Definition round (s : state) (kw : Z * Z) : state :=
  let t1 := add32 (add32 (add32 (hh s) (Sigma1 (he s))) (Ch (he s) (hf s) (hg s)))
                  (add32 (fst kw) (snd kw)) in
  let t2 := add32 (Sigma0 (ha s)) (Maj (ha s) (hb s) (hc s)) in
  State (add32 t1 t2) (ha s) (hb s) (hc s) (add32 (hd s) t1) (he s) (hf s) (hg s).

Definition compress (h : state) (block : list Z) : state :=
  let s := fold_left round (combine K (schedule block)) h in
  State (add32 (ha h) (ha s)) (add32 (hb h) (hb s)) (add32 (hc h) (hc s))
        (add32 (hd h) (hd s)) (add32 (he h) (he s)) (add32 (hf h) (hf s))
        (add32 (hg h) (hg s)) (add32 (hh h) (hh s)).

Fixpoint blocks (fuel : nat) (h : state) (l : list Z) : state :=
  match fuel, l with
  | S fuel', _ :: _ => blocks fuel' (compress h (firstn 64 l)) (skipn 64 l)
  | _, _ => h
  end.

Definition digest_bytes (h : state) : list Z :=
  (be_bytes 4 (ha h) ++ be_bytes 4 (hb h) ++ be_bytes 4 (hc h) ++ be_bytes 4 (hd h) ++
   be_bytes 4 (he h) ++ be_bytes 4 (hf h) ++ be_bytes 4 (hg h) ++ be_bytes 4 (hh h))%list.

Definition sha256 (msg : list Z) : list Z :=
  let p := pad msg in digest_bytes (blocks (List.length p) H0 p).

(** [createHash('sha256').update(s).digest('hex')]. *)
Definition sha256_hex (s : string) : string :=
  hex_of_bytes (sha256 (bytes_of_string s)).

(** HMAC: keys longer than the 64-byte block are hashed first, shorter
    ones are padded with zeros. *)
Definition hmac_key (key : list Z) : list Z :=
  let k := if (64 <? Z.of_nat (List.length key)) then sha256 key else key in
  (k ++ repeat 0 (64 - List.length k)%nat)%list.

Definition hmac_sha256 (key msg : list Z) : list Z :=
  let k := hmac_key key in
  sha256 (map (Z.lxor 0x5c) k ++ sha256 (map (Z.lxor 0x36) k ++ msg))%list.

(** [createHmac('sha256', key).update(s).digest('hex')]. *)
Definition hmac_sha256_hex (key s : string) : string :=
  hex_of_bytes (hmac_sha256 (bytes_of_string key) (bytes_of_string s)).

End SHA256.


(** ** Base64 ([Buffer.from(s).toString('base64')]) *)

Module Base64.
Import Bytes.
Local Open Scope Z_scope.

Definition alphabet : string :=
  "ABCDEFGHIJKLMNOPQRSTUVWXYZabcdefghijklmnopqrstuvwxyz0123456789+/".

Definition digit (n : Z) : ascii :=
  match String.get (Z.to_nat n) alphabet with
  | Some c => c
  | None => "="%char
  end.

Fixpoint encode_bytes (l : list Z) : string :=
  match l with
  | [] => EmptyString
  | [b0] =>
      String (digit (Z.shiftr b0 2))
        (String (digit (Z.shiftl (b0 mod 4) 4)) "==")
  | [b0; b1] =>
      String (digit (Z.shiftr b0 2))
        (String (digit (Z.shiftl (b0 mod 4) 4 + Z.shiftr b1 4))
           (String (digit (Z.shiftl (b1 mod 16) 2)) "="))
  | b0 :: b1 :: b2 :: l' =>
      String (digit (Z.shiftr b0 2))
        (String (digit (Z.shiftl (b0 mod 4) 4 + Z.shiftr b1 4))
           (String (digit (Z.shiftl (b1 mod 16) 2 + Z.shiftr b2 6))
              (String (digit (b2 mod 64)) (encode_bytes l'))))
  end.

Definition encode (s : string) : string := encode_bytes (bytes_of_string s).

End Base64.

(** ** JavaScript values, exceptions and the runtime interface *)

Module JS.
Local Open Scope string_scope.

(** The values a parsed JSON request can hold, and [undefined]. An object
    is the list of its own properties in enumeration order. *)
Inductive value : Type :=
| JUndefined
| JNull
| JBool (b : bool)
| JNum (x : float)
| JStr (s : string)
| JArr (items : list value)
| JObj (fields : list (string * value)).

(** What a [throw] carries. [Failure m e] is the object literal
    [{ message: m, error: e.message }] the OAuth client throws. *)
Inductive exn : Type :=
| TypeError
| SyntaxError
| Error (message : string)
| Failure (message : string) (cause : exn).

Inductive outcome (A : Type) : Type :=
| Returned (a : A)
| Thrown (e : exn).
Arguments Returned {A} a.
Arguments Thrown {A} e.

Definition bind {A B : Type} (m : outcome A) (k : A -> outcome B) : outcome B :=
  match m with
  | Returned a => k a
  | Thrown e => Thrown e
  end.

(** [try { m } catch (error) { ...; throw error; }] *)
Definition rethrow {A : Type} (m : outcome A) : outcome A :=
  match m with
  | Returned a => Returned a
  | Thrown e => Thrown e
  end.

Definition nullish (v : value) : bool :=
  match v with
  | JUndefined | JNull => true
  | _ => false
  end.

(** ToBoolean. *)
Definition truthy (v : value) : bool :=
  match v with
  | JUndefined | JNull => false
  | JBool b => b
  | JNum x => negb (PrimFloat.eqb x PrimFloat.zero || PrimFloat.is_nan x)
  | JStr s => negb (String.eqb s "")
  | JArr _ | JObj _ => true
  end.

Fixpoint lookup (k : string) (fs : list (string * value)) : value :=
  match fs with
  | [] => JUndefined
  | (k', v) :: fs' => if String.eqb k k' then v else lookup k fs'
  end.

(** [v.k] for the field names the adapters read (none of them is an
    array index, [length] or a member of a built-in prototype, so only
    an object can hold one): reading a property of [undefined] or [null]
    throws a TypeError, any other value that lacks it gives [undefined]. *)
Definition get (v : value) (k : string) : outcome value :=
  match v with
  | JUndefined | JNull => Thrown TypeError
  | JObj fs => Returned (lookup k fs)
  | _ => Returned JUndefined
  end.

(** [v?.k] *)
Definition get_opt (v : value) (k : string) : value :=
  match v with
  | JObj fs => lookup k fs
  | _ => JUndefined
  end.

(** [v.k1.k2...] *)
Fixpoint path (v : value) (ks : list string) : outcome value :=
  match ks with
  | [] => Returned v
  | k :: ks' => bind (get v k) (fun v' => path v' ks')
  end.

(** [v === s] for a string [s]. *)
Definition is_string (v : value) (s : string) : bool :=
  match v with
  | JStr t => String.eqb t s
  | _ => false
  end.

(** An environment variable or any other [string | undefined] in a
    template literal or a string concatenation. *)
Definition text (o : option string) : string :=
  match o with
  | Some s => s
  | None => "undefined"
  end.

(** [o || d] for [o : string | undefined]. *)
Definition or_default (o : option string) (d : string) : string :=
  match o with
  | Some s => if String.eqb s "" then d else s
  | None => d
  end.

(** [!o] for [o : string | undefined]. *)
Definition missing (o : option string) : bool :=
  match o with
  | Some s => String.eqb s ""
  | None => true
  end.

(** [s] without its first [n] characters. *)
Fixpoint skip (n : nat) (s : string) : string :=
  match n, s with
  | S n', String _ s' => skip n' s'
  | _, _ => s
  end.

(** [s.replace(pat, '')] with a string pattern: the first occurrence
    of [pat] is removed. *)
Fixpoint remove_first (pat s : string) : string :=
  if String.prefix pat s then skip (String.length pat) s
  else match s with
       | EmptyString => EmptyString
       | String c s' => String c (remove_first pat s')
       end.

(** The specification of [remove_first]: the pattern occurs in [s],
    and [a] is what precedes its first occurrence. *)
Definition first_at (pat a b s : string) : Prop :=
  s = (a ++ pat ++ b)%string
  /\ forall a' b' : string,
       s = (a' ++ pat ++ b')%string -> String.length a <= String.length a'.

(** The built-ins of the platform whose result is fixed by ECMAScript
    and Node.js and not by this repository. The adapters are written
    against this interface; [Node.runtime] below implements it. *)
Class Runtime : Type :=
  { (** Number::toString(x) in radix 10 *)
    Number_toString : float -> string;
    (** StringToNumber(s), the string case of ToNumber *)
    StringToNumber : string -> float;
    (** [JSON.stringify(v)]; [None] is [undefined] *)
    JSON_stringify : value -> option string;
    (** [JSON.parse(s)]; [None] when it throws a SyntaxError *)
    JSON_parse : string -> option value;
    (** [Buffer.from(v, 'base64').toString('utf-8')]; [None] when
        [Buffer.from] throws a TypeError *)
    Buffer_base64_utf8 : value -> option string }.

(** [k] is an own property of the object. *)
Definition has_own (k : string) (fields : list (string * value)) : bool :=
  existsb (fun kv => String.eqb k (fst kv)) fields.

Section Conversions.
Context {rt : Runtime}.

(** ToString, as a template literal applies it. An object of a JSON
    body has no callable property. With an own [toString] property
    neither that property nor [valueOf] yields a primitive, which is a
    TypeError; without one [Object.prototype.toString] answers. An
    array is converted by [Array.prototype.join]: its elements are
    joined with commas, [null] and [undefined] elements giving the
    empty text, and the conversion of an element can throw. *)
Fixpoint ToString (v : value) : outcome string :=
  match v with
  | JUndefined => Returned "undefined"
  | JNull => Returned "null"
  | JBool true => Returned "true"
  | JBool false => Returned "false"
  | JNum x => Returned (Number_toString x)
  | JStr s => Returned s
  | JArr items =>
      (fix join (l : list value) : outcome string :=
         match l with
         | [] => Returned ""
         | [x] => if nullish x then Returned "" else ToString x
         | x :: l' =>
             bind (if nullish x then Returned "" else ToString x) (fun s =>
             bind (join l') (fun t =>
             Returned (s ++ "," ++ t)))
         end) items
  | JObj fields =>
      if has_own "toString" fields then Thrown TypeError else Returned "[object Object]"
  end.

(** ToNumber, as [Number(v)] and the arithmetic operators apply it. An
    array or object is converted through its text: [valueOf] gives the
    object back, so [toString] decides, and throws as above. *)
Definition ToNumber (v : value) : outcome float :=
  match v with
  | JUndefined => Returned PrimFloat.nan
  | JNull => Returned PrimFloat.zero
  | JBool true => Returned PrimFloat.one
  | JBool false => Returned PrimFloat.zero
  | JNum x => Returned x
  | JStr s => Returned (StringToNumber s)
  | JArr _ | JObj _ => bind (ToString v) (fun s => Returned (StringToNumber s))
  end.

End Conversions.

Module Notations.
Notation "x <- m ;; k" := (bind m (fun x => k))
  (at level 61, m at next level, right associativity).
End Notations.

End JS.

(** ** [Math.round]

    The integer nearest to a number, ties toward +Infinity, computed on
    the mantissa and exponent of the double. A double whose exponent is
    not negative is an integer already. *)

Module JSMath.
Local Open Scope Z_scope.

(** floor (n * 2^e + 1/2) for the signed mantissa [n = -m] or [n = m]. *)
Definition round_half_up (s : bool) (m : positive) (e : Z) : Z :=
  let n := if s then Z.neg m else Z.pos m in
  if 0 <=? e then n * 2 ^ e
  else (2 * n + 2 ^ (- e)) / 2 ^ (1 - e).

(** The double of an integer [q] with [|q| < 2^53], written with a
    mantissa of 53 binary digits: [|q| * 2^k * 2^(-k)] for [k] = 52 -
    log2 [|q|]. A zero keeps the sign of the number that was rounded. *)
Definition integer_float (s : bool) (q : Z) : float :=
  if q =? 0 then (if s then PrimFloat.neg_zero else PrimFloat.zero)
  else
    let k := 52 - Z.log2 (Z.abs q) in
    SF2Prim (S754_finite (q <? 0) (Z.to_pos (Z.abs q * 2 ^ k)) (- k)).

Definition Math_round (x : float) : float :=
  match Prim2SF x with
  | S754_finite s m e =>
      if 0 <=? e then x else integer_float s (round_half_up s m e)
  | _ => x
  end.

(** The exact value of a finite double as a fraction [n / 2^k]. *)
Definition exact (x : float) : option (Z * Z) :=
  match Prim2SF x with
  | S754_finite s m e =>
      let n := if s then Z.neg m else Z.pos m in
      Some (if 0 <=? e then (n * 2 ^ e, 0) else (n, - e))
  | S754_zero _ => Some (0, 0)
  | _ => None
  end.



End JSMath.

(** ** Configuration read from [process.env] *)

Module Process.

Record Env : Type :=
  { RAZORPAY_KEY_ID : option string;
    RAZORPAY_KEY_SECRET : option string;
    PHONEPE_MERCHANT_ID : option string;
    PHONEPE_SALT_KEY : option string;
    PHONEPE_SALT_INDEX : option string;
    PHONEPE_WEBHOOK_USER : option string;
    PHONEPE_WEBHOOK_PASS : option string;
    PHONEPE_CLIENT_ID : option string;
    PHONEPE_CLIENT_SECRET : option string;
    PHONEPE_CLIENT_VERSION : option string;
    FRONTEND_URL : option string;
    BACKEND_URL : option string }.

End Process.

(** ** Node's [crypto] on [string | undefined] arguments *)

Module Crypto.
Import JS.

(** [crypto.createHmac('sha256', key).update(data).digest('hex')]:
    a key or a datum that is [undefined] is rejected with a TypeError. *)
Definition createHmac_sha256_hex (key data : option string) : outcome string :=
  match key, data with
  | Some k, Some d => Returned (SHA256.hmac_sha256_hex k d)
  | _, _ => Thrown TypeError
  end.

End Crypto.

(** ** The Razorpay adapter (src/unnamed/part_000, lines 313-517) *)

Module Razorpay.
Import JS JS.Notations.
Local Open Scope string_scope.

Section Adapter.
Context {rt : Runtime} (env : Process.Env).


(** [const { orderId, paymentId, signature } = params] throws for a
    [params] that is [null] or [undefined]; the template literal applies
    ToString to the two identifiers. Every exception of the body is a
    TypeError, so the order of [createHmac] and of the template literal
    does not show. *)
Definition verifyRazorpaySignature (params : value) : outcome bool :=
  rethrow
    (orderId <- get params "orderId" ;;
     paymentId <- get params "paymentId" ;;
     signature <- get params "signature" ;;
     orderText <- ToString orderId ;;
     paymentText <- ToString paymentId ;;
     generated_signature <-
       Crypto.createHmac_sha256_hex (Process.RAZORPAY_KEY_SECRET env)
         (Some (orderText ++ "|" ++ paymentText)) ;;
     let isValid := is_string signature generated_signature in
     Returned isValid).

(** The first read of [webhookData.event] is the argument of the
    opening [logger.info]; the reads of [payload.payment.entity] come in
    the order of the log call and of the returned object literal. The
    [switch] compares with [===]. *)
Definition handleRazorpayWebhook (webhookData webhookSignature : value) : outcome value :=
  rethrow
    (_ <- get webhookData "event" ;;
     digest <-
       Crypto.createHmac_sha256_hex (Process.RAZORPAY_KEY_SECRET env) (JSON_stringify webhookData) ;;
     if negb (is_string webhookSignature digest) then
       Returned (JObj [("valid", JBool false); ("message", JStr "Invalid signature")])
     else
       event <- get webhookData "event" ;;
       payload <- get webhookData "payload" ;;
       if is_string event "payment.authorized" then
         _ <- path payload ["payment"; "entity"; "id"] ;;
         paymentId <- path payload ["payment"; "entity"; "id"] ;;
         Returned (JObj [("valid", JBool true); ("event", event);
                         ("paymentId", paymentId); ("status", JStr "success")])
       else if is_string event "payment.failed" then
         _ <- path payload ["payment"; "entity"; "id"] ;;
         _ <- path payload ["payment"; "entity"; "error_description"] ;;
         paymentId <- path payload ["payment"; "entity"; "id"] ;;
         reason <- path payload ["payment"; "entity"; "error_description"] ;;
         Returned (JObj [("valid", JBool true); ("event", event);
                         ("paymentId", paymentId); ("status", JStr "failed");
                         ("reason", reason)])
       else if is_string event "payment.captured" then
         _ <- path payload ["payment"; "entity"; "id"] ;;
         paymentId <- path payload ["payment"; "entity"; "id"] ;;
         Returned (JObj [("valid", JBool true); ("event", event);
                         ("paymentId", paymentId); ("status", JStr "captured")])
       else if is_string event "refund.created" then
         _ <- path payload ["refund"; "entity"; "id"] ;;
         _ <- path payload ["refund"; "entity"; "payment_id"] ;;
         refundId <- path payload ["refund"; "entity"; "id"] ;;
         Returned (JObj [("valid", JBool true); ("event", event);
                         ("refundId", refundId); ("status", JStr "refunded")])
       else
         Returned (JObj [("valid", JBool true); ("event", event);
                         ("processed", JBool false)])).

End Adapter.
End Razorpay.

(** ** The salt-based PhonePe adapter (src/backend/README.md, lines 1029-1301) *)

Module PhonePeSalt.
Import JS JS.Notations.
Local Open Scope string_scope.

Section Adapter.
Context {rt : Runtime} (env : Process.Env).

Definition PHONEPE_SALT_KEY : option string := Process.PHONEPE_SALT_KEY env.
Definition PHONEPE_SALT_INDEX : string := or_default (Process.PHONEPE_SALT_INDEX env) "1".

(** [requestBody + PHONEPE_SALT_KEY] is a string concatenation as soon
    as one operand is a string; of two [undefined] it is NaN, which
    [Hash.update] rejects. *)
Definition generatePhonePeSignature (requestBody : option string) : outcome string :=
  match requestBody, PHONEPE_SALT_KEY with
  | None, None => Thrown TypeError
  | _, _ =>
      let payload := text requestBody ++ text PHONEPE_SALT_KEY in
      let hash := SHA256.sha256_hex payload in
      Returned (hash ++ "###" ++ PHONEPE_SALT_INDEX)
  end.

Definition verifyPhonePeSignature (requestBody : option string) (xVerifyHeader : value)
  : outcome bool :=
  signature <- generatePhonePeSignature requestBody ;;
  Returned (is_string xVerifyHeader signature).

(** [Math.round(amount * 100)] of [createPhonePeOrder]. *)
Definition amountInPaise (amount : value) : outcome float :=
  x <- ToNumber amount ;;
  Returned (JSMath.Math_round (PrimFloat.mul x 100%float)).

(** [amount: Math.round(amount * 100)] of [refundPhonePePayment]. *)
Definition refund_amount (amount : value) : outcome float :=
  x <- ToNumber amount ;;
  Returned (JSMath.Math_round (PrimFloat.mul x 100%float)).

(** [authHeader?.replace('Basic ', '') || ''] *)
Definition providedAuth (authHeader : value) : outcome string :=
  match authHeader with
  | JUndefined | JNull => Returned ""
  | JStr s => Returned (remove_first "Basic " s)
  | _ => Thrown TypeError
  end.

Definition expectedAuth : string :=
  Base64.encode (text (Process.PHONEPE_WEBHOOK_USER env) ++ ":" ++
                 text (Process.PHONEPE_WEBHOOK_PASS env)).

(** [JSON.parse(Buffer.from(r, 'base64').toString('utf-8'))] *)
Definition decode (r : value) : outcome value :=
  match Buffer_base64_utf8 r with
  | None => Thrown TypeError
  | Some s =>
      match JSON_parse s with
      | None => Thrown SyntaxError
      | Some v => Returned v
      end
  end.

(** The inner [try { responseData = decode(data.response) }
    catch (e) { responseData = data.response }]. *)
Definition responseData (data : value) : outcome value :=
  match (r <- get data "response" ;; decode r) with
  | Returned v => Returned v
  | Thrown _ => get data "response"
  end.

Definition handlePhonePeWebhook (webhookData xVerifyHeader authHeader : value)
  : outcome value :=
  rethrow
    (provided <- providedAuth authHeader ;;
     if negb (String.eqb provided expectedAuth) then
       Returned (JObj [("valid", JBool false); ("message", JStr "Invalid authentication")])
     else
       let webhookBody := JSON_stringify webhookData in
       isValidSignature <- verifyPhonePeSignature webhookBody xVerifyHeader ;;
       if negb isValidSignature then
         Returned (JObj [("valid", JBool false); ("message", JStr "Invalid signature")])
       else
         data <- get webhookData "data" ;;
         response <- responseData data ;;
         transactionId <- get response "merchantTransactionId" ;;
         state <- get response "state" ;;
         responseCode <- get response "responseCode" ;;
         amount <- get response "amount" ;;
         transactionDate <- get response "transactionDate" ;;
         Returned (JObj [("valid", JBool true); ("transactionId", transactionId);
                         ("status", state); ("responseCode", responseCode);
                         ("amount", amount); ("timestamp", transactionDate);
                         ("success", JBool (is_string state "COMPLETED"))])).

End Adapter.

(** The credentials of a Basic-Auth header, in words: none for an
    absent header; the header without its first ["Basic "], the text
    in front of that occurrence kept; the whole header when ["Basic "]
    does not occur in it. [providedAuth] is compared with this
    description below. *)
Inductive credentials : value -> string -> Prop :=
| credentials_undefined : credentials JUndefined ""
| credentials_null : credentials JNull ""
| credentials_scheme (a b : string) :
    (forall a' b' : string,
        a ++ "Basic " ++ b = a' ++ "Basic " ++ b' -> String.length a <= String.length a') ->
    credentials (JStr (a ++ "Basic " ++ b)) (a ++ b)
| credentials_bare (header : string) :
    (forall a b : string, header <> a ++ "Basic " ++ b) ->
    credentials (JStr header) header.

(** The text of an [X-VERIFY] value in front of its [###] separator:
    the 64 characters of the digest. *)
Definition hash_part (signature : string) : string := String.substring 0 64 signature.

End PhonePeSalt.

(** ** The OAuth PhonePe adapter (src/unnamed/part_000, lines 1-312) *)

Module PhonePeOAuth.
Import JS JS.Notations.
Local Open Scope string_scope.

(** The module-level [tokenCache]. [expiresAt] holds [null] ([None])
    or the number [Date.now() + expiryTime]. *)
Record TokenCache : Type :=
  { accessToken : value;
    expiresAt : option float }.

Definition initial : TokenCache := {| accessToken := JNull; expiresAt := None |}.

(** [clearTokenCache] *)
Definition clearTokenCache (_ : TokenCache) : TokenCache := initial.

(** How the part of [getAccessToken] before its [await] ends. *)
Inductive started : Type :=
| Cached (token : value)
| Refused (e : exn)
| Requested.

(** What [axios.post] settles with, and [Date.now()] once the caller
    resumes: [response] is [response.data] of a fulfilled request. *)
Record Network : Type :=
  { response : outcome value;
    arrival : float }.

Section Adapter.
Context {rt : Runtime} (env : Process.Env).

Definition PHONEPE_CLIENT_VERSION : string :=
  or_default (Process.PHONEPE_CLIENT_VERSION env) "1".

(** [tokenCache.accessToken && tokenCache.expiresAt > Date.now()]; in
    a comparison [null] counts as 0. *)
Definition valid (tokenCache : TokenCache) (now : float) : bool :=
  truthy (accessToken tokenCache)
  && PrimFloat.ltb now (match expiresAt tokenCache with
                        | Some t => t
                        | None => PrimFloat.zero
                        end).

Definition authentication_failed (e : exn) : exn :=
  Failure "Failed to authenticate with PhonePe" e.

(** [getAccessToken] up to the token request. *)
Definition getAccessToken_start (tokenCache : TokenCache) (now : float) : started :=
  if valid tokenCache now then Cached (accessToken tokenCache)
  else if missing (Process.PHONEPE_CLIENT_ID env) || missing (Process.PHONEPE_CLIENT_SECRET env)
  then Refused (authentication_failed
                  (Error "PhonePe credentials not configured. Set PHONEPE_CLIENT_ID and PHONEPE_CLIENT_SECRET in .env"))
  else Requested.

(** [getAccessToken] from the moment the token request has settled;
    [tokenCache] is the cache as it is then. The subtraction
    [expires_in - 60] converts [expires_in] to a number, which can
    throw; the cache is assigned after it. *)
Definition getAccessToken_finish (net : Network) (tokenCache : TokenCache)
  : outcome value * TokenCache :=
  match (data <- response net ;;
         access_token <- get data "access_token" ;;
         expires_in <- get data "expires_in" ;;
         if negb (truthy access_token) then Thrown (Error "No access token in response")
         else
           seconds <- ToNumber expires_in ;;
           let expiryTime := PrimFloat.mul (PrimFloat.sub seconds 60%float) 1000%float in
           Returned (access_token, expiryTime)) with
  | Returned (access_token, expiryTime) =>
      (Returned access_token,
       {| accessToken := access_token;
          expiresAt := Some (PrimFloat.add (arrival net) expiryTime) |})
  | Thrown e => (Thrown (authentication_failed e), tokenCache)
  end.

(** One call of [getAccessToken] that nothing interleaves with: the
    outcome, the cache afterwards and the number of token requests. *)
Definition getAccessToken (now : float) (net : Network) (tokenCache : TokenCache)
  : outcome value * TokenCache * nat :=
  match getAccessToken_start tokenCache now with
  | Cached token => (Returned token, tokenCache, 0%nat)
  | Refused e => (Thrown e, tokenCache, 0%nat)
  | Requested =>
      let (r, c) := getAccessToken_finish net tokenCache in (r, c, 1%nat)
  end.

(** [Math.round(amount * 100)] of [createPhonePeOrder]. *)
Definition amountInPaise (amount : value) : outcome float :=
  x <- ToNumber amount ;;
  Returned (JSMath.Math_round (PrimFloat.mul x 100%float)).

(** [Math.round(amount * 100)] of [refundPhonePePayment]. *)
Definition refund_amountInPaise (amount : value) : outcome float :=
  x <- ToNumber amount ;;
  Returned (JSMath.Math_round (PrimFloat.mul x 100%float)).

(** *** Interleaved callers

    Node runs one caller at a time and switches between callers only at
    an [await]. A caller of [getAccessToken] therefore runs in two
    uninterrupted parts: [Call] runs it up to the token request,
    [Settle] resumes it once its request has settled. A schedule is the
    list of these events in the order the event loop runs them. *)

Inductive event : Type :=
| Call (caller : nat) (now : float)
| Settle (caller : nat) (net : Network).

Record Loop : Type :=
  { tokenCache : TokenCache;
    waiting : list nat;
    requests : nat;
    settled : list (nat * outcome value) }.

Definition boot : Loop :=
  {| tokenCache := initial; waiting := []; requests := 0; settled := [] |}.

Definition step (l : Loop) (ev : event) : Loop :=
  match ev with
  | Call c now =>
      match getAccessToken_start (tokenCache l) now with
      | Cached token =>
          {| tokenCache := tokenCache l; waiting := waiting l;
             requests := requests l; settled := (c, Returned token) :: settled l |}
      | Refused e =>
          {| tokenCache := tokenCache l; waiting := waiting l;
             requests := requests l; settled := (c, Thrown e) :: settled l |}
      | Requested =>
          {| tokenCache := tokenCache l; waiting := c :: waiting l;
             requests := S (requests l); settled := settled l |}
      end
  | Settle c net =>
      if existsb (Nat.eqb c) (waiting l) then
        let (r, cache') := getAccessToken_finish net (tokenCache l) in
        {| tokenCache := cache';
           waiting := filter (fun c' => negb (Nat.eqb c c')) (waiting l);
           requests := requests l; settled := (c, r) :: settled l |}
      else l
  end.

Definition run (schedule : list event) (l : Loop) : Loop :=
  fold_left step schedule l.

Definition is_call (ev : event) : bool :=
  match ev with Call _ _ => true | Settle _ _ => false end.

(** The token endpoint answers [{"access_token": token, "expires_in":
    seconds}] and the caller resumes at time [arrival]; what
    [getAccessToken] then stores. *)
Definition answered (token : value) (seconds arrival : float) : Network :=
  {| response := Returned (JObj [("access_token", token); ("expires_in", JNum seconds)]);
     arrival := arrival |}.

Definition stored (token : value) (seconds arrival : float) : TokenCache :=
  {| accessToken := token;
     expiresAt :=
       Some (PrimFloat.add arrival
               (PrimFloat.mul (PrimFloat.sub seconds 60%float) 1000%float)) |}.

(** The events of a schedule are all calls, and each finds the cache
    [tokenCache] valid ([v = true]) or not ([v = false]). *)
Definition calls_finding (v : bool) (tokenCache : TokenCache) (schedule : list event) : Prop :=
  Forall (fun ev => exists c now, ev = Call c now /\ valid tokenCache now = v) schedule.

End Adapter.

(** [const { data, success } = webhookData || {}] reads from the body
    when it is truthy and from an empty object otherwise. The two
    [logger.info] calls read [webhookData?.data?.merchantOrderId] and
    [data?.state] through optional chaining, which cannot throw. *)
Definition handlePhonePeWebhook (webhookData : value) : outcome value :=
  rethrow
    (let source := if truthy webhookData then webhookData else JObj [] in
     data <- get source "data" ;;
     success <- get source "success" ;;
     if negb (truthy webhookData) || negb (truthy data) then
       Returned (JObj [("processed", JBool false); ("message", JStr "Invalid webhook format")])
     else
       Returned (JObj [("processed", JBool true);
                       ("orderId", get_opt data "merchantOrderId");
                       ("status", get_opt data "state");
                       ("amount", get_opt data "amount");
                       ("success", success)])).

End PhonePeOAuth.

(** ** The validators (src/backend/utils/validators.js) *)

Module Validators.
Import JS JS.Notations.
Local Open Scope string_scope.

(** The currency sign of the last message, byte for byte as the source
    file spells it. *)
Definition minimum_amount_message : string :=
  "Minimum amount is " ++ Bytes.string_of_bytes [195; 162; 226; 128; 154; 194; 185]%Z ++ "1".

(** [Number(amount)] throws a TypeError for an object that has no
    primitive value; the validator does not catch it. *)
Definition validateAmount {rt : Runtime} (amount : value) : outcome value :=
  if negb (truthy amount) then
    Returned (JObj [("valid", JBool false); ("error", JStr "Amount is required")])
  else
    amountNum <- ToNumber amount ;;
    if PrimFloat.is_nan amountNum || PrimFloat.leb amountNum 0%float then
      Returned (JObj [("valid", JBool false);
                      ("error", JStr "Amount must be a positive number")])
    else if PrimFloat.ltb amountNum 1%float then
      Returned (JObj [("valid", JBool false); ("error", JStr minimum_amount_message)])
    else
      Returned (JObj [("valid", JBool true)]).

End Validators.

(** ** The Node.js runtime

    An implementation of the [Runtime] interface: decimal text of
    doubles and back, JSON text, base64 and UTF-8 decoding. *)

Module Node.
Import Bytes JS.
Local Open Scope Z_scope.

(** *** Doubles and decimal text *)

Definition signed_zero (neg : bool) : float :=
  if neg then PrimFloat.neg_zero else PrimFloat.zero.

Definition signed_infinity (neg : bool) : float :=
  if neg then PrimFloat.neg_infinity else PrimFloat.infinity.

(** The double nearest to [p / q] (ties to the even mantissa), for
    [0 <= p] and [0 < q]. *)
Definition double_of_ratio (neg : bool) (p q : Z) : float :=
  if p =? 0 then signed_zero neg
  else
    let e0 := Z.log2 p - Z.log2 q - 53 in
    let above (e : Z) :=
      if 0 <=? e then 2 ^ 53 * q * 2 ^ e <=? p else 2 ^ 53 * q <=? p * 2 ^ (- e) in
    let e1 := if above e0 then e0 + 1 else e0 in
    let e := Z.max e1 (-1074) in
    let num := if 0 <=? e then p else p * 2 ^ (- e) in
    let den := if 0 <=? e then q * 2 ^ e else q in
    let m0 := num / den in
    let r := num mod den in
    let m := if (den <? 2 * r) || ((den =? 2 * r) && Z.odd m0) then m0 + 1 else m0 in
    if m =? 0 then signed_zero neg
    else
      let me := if m =? 2 ^ 53 then (2 ^ 52, e + 1) else (m, e) in
      if 971 <? snd me then signed_infinity neg
      else SF2Prim (S754_finite neg (Z.to_pos (fst me)) (snd me)).

(** The double nearest to [d * 10^x]. *)
Definition double_of_decimal (neg : bool) (d x : Z) : float :=
  if d =? 0 then signed_zero neg
  else if 400 <? x then signed_infinity neg
  else if x <? - (Z.log2 d + 400) then signed_zero neg
  else if 0 <=? x then double_of_ratio neg (d * 10 ^ x) 1
  else double_of_ratio neg d (10 ^ (- x)).

Fixpoint decimal_digits (fuel : nat) (z : Z) (acc : string) : string :=
  match fuel with
  | O => acc
  | S fuel' =>
      let acc' := String (ascii_of_byte (48 + z mod 10)) acc in
      if z <? 10 then acc' else decimal_digits fuel' (z / 10) acc'
  end.

(** The decimal digits of a natural number. *)
Definition decimal (z : Z) : string :=
  decimal_digits (S (Z.to_nat (Z.log2 z))) z "".

Fixpoint zeros (n : nat) : string :=
  match n with
  | O => ""
  | S n' => String "0" (zeros n')
  end.

Fixpoint first_above (fuel : nat) (below : Z -> bool) (n : Z) : Z :=
  match fuel with
  | O => n
  | S fuel' => if below n then first_above fuel' below (n + 1) else n
  end.

(** [n] with [10^(n-1) <= p / q < 10^n]. *)
Definition decimal_exponent (p q : Z) : Z :=
  let reached (n : Z) := if 0 <=? n then 10 ^ n * q <=? p else q <=? p * 10 ^ (- n) in
  first_above 8 reached (((Z.log2 p - Z.log2 q) * 30103) / 100000 - 2).

(** The [k]-digit integers [s] next to [p / q / 10^(n-k)] whose product
    with [10^(n-k)] is read back as [x]; the nearer one when both are. *)
Definition digits_of_length (x : float) (p q n k : Z) : option Z :=
  let num := if n <=? k then p * 10 ^ (k - n) else p in
  let den := if n <=? k then q else q * 10 ^ (n - k) in
  let lo := num / den in
  let hi := lo + 1 in
  let r := num mod den in
  let reads (s : Z) := PrimFloat.eqb (double_of_decimal false s (n - k)) x in
  match reads lo, reads hi with
  | true, true =>
      Some (if 2 * r <? den then lo else if den <? 2 * r then hi
            else if Z.even lo then lo else hi)
  | true, false => Some lo
  | false, true => Some hi
  | false, false => None
  end.

Fixpoint shortest (fuel : nat) (x : float) (p q n k : Z) : Z * Z :=
  match fuel with
  | O => (p / q, k)
  | S fuel' =>
      match digits_of_length x p q n k with
      | Some s => (s, k)
      | None => shortest fuel' x p q n (k + 1)
      end
  end.

Fixpoint strip_zeros (fuel : nat) (s k n : Z) : Z * Z * Z :=
  match fuel with
  | O => (s, k, n)
  | S fuel' =>
      if (s mod 10 =? 0) && (1 <? k) then strip_zeros fuel' (s / 10) (k - 1) n
      else (s, k, n)
  end.

(** Number::toString for a finite positive double [p / q]. *)
Definition positive_toString (x : float) (p q : Z) : string :=
  let n0 := decimal_exponent p q in
  let (s0, k0) := shortest 17 x p q n0 1 in
  (* a candidate equal to 10^k has one digit more *)
  let n1 := if 10 ^ k0 <=? s0 then n0 + 1 else n0 in
  let '(s, k, n) := strip_zeros 20 s0 (if 10 ^ k0 <=? s0 then k0 + 1 else k0) n1 in
  let ds := decimal s in
  if (k <=? n) && (n <=? 21) then (ds ++ zeros (Z.to_nat (n - k)))%string
  else if (0 <? n) && (n <=? 21) then
    (String.substring 0 (Z.to_nat n) ds ++ "." ++ skip (Z.to_nat n) ds)%string
  else if (-6 <? n) && (n <=? 0) then
    ("0." ++ zeros (Z.to_nat (- n)) ++ ds)%string
  else
    let e := n - 1 in
    let sign := if e <? 0 then "-"%string else "+"%string in
    if k =? 1 then (ds ++ "e" ++ sign ++ decimal (Z.abs e))%string
    else (String.substring 0 1 ds ++ "." ++ skip 1 ds ++ "e" ++ sign ++ decimal (Z.abs e))%string.

Definition Number_toString (x : float) : string :=
  match Prim2SF x with
  | S754_nan => "NaN"
  | S754_zero _ => "0"
  | S754_infinity s => if s then "-Infinity" else "Infinity"
  | S754_finite s m e =>
      let p := if 0 <=? e then Z.pos m * 2 ^ e else Z.pos m in
      let q := if 0 <=? e then 1 else 2 ^ (- e) in
      ((if s then "-" else "") ++ positive_toString (PrimFloat.abs x) p q)%string
  end.

(** *** StringToNumber *)

(** WhiteSpace and LineTerminator code points, in UTF-8. *)
Definition white_space : list (list Z) :=
  [[9]; [10]; [11]; [12]; [13]; [32]; [194; 160]; [225; 154; 128];
   [226; 128; 168]; [226; 128; 169]; [226; 128; 175]; [226; 129; 159];
   [227; 128; 128]; [239; 187; 191]]
  ++ map (fun b => [226; 128; b]) [128; 129; 130; 131; 132; 133; 134; 135; 136; 137; 138].

Fixpoint strip_prefix (pre l : list Z) : option (list Z) :=
  match pre, l with
  | [], _ => Some l
  | a :: pre', b :: l' => if a =? b then strip_prefix pre' l' else None
  | _ :: _, [] => None
  end.

Fixpoint strip_any (pres : list (list Z)) (l : list Z) : option (list Z) :=
  match pres with
  | [] => None
  | pre :: pres' =>
      match strip_prefix pre l with
      | Some l' => Some l'
      | None => strip_any pres' l
      end
  end.

Fixpoint trim_left (fuel : nat) (spaces : list (list Z)) (l : list Z) : list Z :=
  match fuel with
  | O => l
  | S fuel' =>
      match strip_any spaces l with
      | Some l' => trim_left fuel' spaces l'
      | None => l
      end
  end.

Definition trim (l : list Z) : list Z :=
  let l1 := trim_left (List.length l) white_space l in
  rev (trim_left (List.length l1) (map (@rev Z) white_space) (rev l1)).

Definition is_digit (b : Z) : bool := (48 <=? b) && (b <=? 57).

(** The value of a digit in a radix up to sixteen. *)
Definition digit_value (radix b : Z) : option Z :=
  let v := if is_digit b then b - 48
           else if (97 <=? b) && (b <=? 102) then b - 87
           else if (65 <=? b) && (b <=? 70) then b - 55
           else 16 in
  if v <? radix then Some v else None.

(** Reads decimal digits: the number read on top of [acc], how many
    digits, and what follows. *)
Fixpoint read_digits (l : list Z) (acc count : Z) : Z * Z * list Z :=
  match l with
  | b :: l' =>
      if is_digit b then read_digits l' (10 * acc + (b - 48)) (count + 1)
      else (acc, count, l)
  | [] => (acc, count, l)
  end.

Fixpoint read_radix (radix : Z) (l : list Z) (acc : Z) : option Z :=
  match l with
  | [] => Some acc
  | b :: l' =>
      match digit_value radix b with
      | Some v => read_radix radix l' (radix * acc + v)
      | None => None
      end
  end.

(** [0x], [0o] and [0b] literals. *)
Definition radix_literal (l : list Z) : option Z :=
  match l with
  | 48 :: 120 :: ((_ :: _) as ds) | 48 :: 88 :: ((_ :: _) as ds) => read_radix 16 ds 0
  | 48 :: 111 :: ((_ :: _) as ds) | 48 :: 79 :: ((_ :: _) as ds) => read_radix 8 ds 0
  | 48 :: 98 :: ((_ :: _) as ds) | 48 :: 66 :: ((_ :: _) as ds) => read_radix 2 ds 0
  | _ => None
  end.

Definition read_sign (l : list Z) : bool * list Z :=
  match l with
  | 45 :: l' => (true, l')
  | 43 :: l' => (false, l')
  | _ => (false, l)
  end.

(** An exponent part [e], [e+] or [e-] followed by digits up to the
    end of the text. *)
Definition exponent_part (l : list Z) : option Z :=
  match l with
  | [] => Some 0
  | 101 :: l' | 69 :: l' =>
      let (neg, l1) := read_sign l' in
      match read_digits l1 0 0 with
      | (x, n, []) => if n =? 0 then None else Some (if neg then - x else x)
      | _ => None
      end
  | _ => None
  end.

(** An unsigned decimal literal as digits and a power of ten. *)
Definition decimal_literal (l : list Z) : option (Z * Z) :=
  let '(ip, ni, l1) := read_digits l 0 0 in
  let '(d, nf, l2) :=
    match l1 with
    | 46 :: l' => read_digits l' ip 0
    | _ => (ip, 0, l1)
    end in
  if ni + nf =? 0 then None
  else match exponent_part l2 with
       | Some x => Some (d, x - nf)
       | None => None
       end.

Definition StringToNumber (s : string) : float :=
  let l := trim (bytes_of_string s) in
  match l with
  | [] => PrimFloat.zero
  | _ =>
      match radix_literal l with
      | Some z => double_of_ratio false z 1
      | None =>
          let (neg, u) := read_sign l in
          if String.eqb (string_of_bytes u) "Infinity" then signed_infinity neg
          else match decimal_literal u with
               | Some (d, x) => double_of_decimal neg d x
               | None => PrimFloat.nan
               end
      end
  end.

(** *** JSON.stringify *)

Definition dquote : string := String (ascii_of_byte 34) "".

Definition escape_byte (c : ascii) : string :=
  let b := byte_of_ascii c in
  if b =? 34 then String "\" dquote
  else if b =? 92 then "\\"%string
  else if b =? 8 then "\b"%string
  else if b =? 12 then "\f"%string
  else if b =? 10 then "\n"%string
  else if b =? 13 then "\r"%string
  else if b =? 9 then "\t"%string
  else if b <? 32 then ("\u00" ++ hex_byte b)%string
  else String c "".

Fixpoint escape (s : string) : string :=
  match s with
  | EmptyString => ""
  | String c s' => (escape_byte c ++ escape s')%string
  end.

Definition quote (s : string) : string := (dquote ++ escape s ++ dquote)%string.

Definition is_finite (x : float) : bool :=
  negb (PrimFloat.is_nan x || PrimFloat.is_infinity x).

(** Values without [toJSON], as JSON.parse produces them: [undefined]
    is dropped from objects and printed as [null] in arrays. *)
Fixpoint JSON_stringify (v : value) : option string :=
  match v with
  | JUndefined => None
  | JNull => Some "null"%string
  | JBool true => Some "true"%string
  | JBool false => Some "false"%string
  | JNum x => Some (if is_finite x then Number_toString x else "null"%string)
  | JStr s => Some (quote s)
  | JArr items =>
      let element (x : value) : string :=
        match JSON_stringify x with Some t => t | None => "null"%string end in
      Some ("[" ++
            (fix elements (l : list value) : string :=
               match l with
               | [] => ""
               | [x] => element x
               | x :: l' => element x ++ "," ++ elements l'
               end) items ++ "]")%string
  | JObj fields =>
      Some ("{" ++
            (fix members (sep : bool) (l : list (string * value)) : string :=
               match l with
               | [] => ""
               | (k, x) :: l' =>
                   match JSON_stringify x with
                   | Some t => (if sep then "," else "") ++ quote k ++ ":" ++ t ++ members true l'
                   | None => members sep l'
                   end
               end) false fields ++ "}")%string
  end.

(** *** JSON.parse *)

(** JSON white space: space, tab, line feed, carriage return. *)
Fixpoint skip_ws (l : list Z) : list Z :=
  match l with
  | 32 :: l' | 9 :: l' | 10 :: l' | 13 :: l' => skip_ws l'
  | _ => l
  end.

(** UTF-8 of a code point; half of a surrogate pair that stands alone
    is written in the same three-byte form. *)
Definition utf8 (cp : Z) : list Z :=
  if cp <? 128 then [cp]
  else if cp <? 2048 then [192 + Z.shiftr cp 6; 128 + cp mod 64]
  else if cp <? 65536 then
    [224 + Z.shiftr cp 12; 128 + Z.shiftr cp 6 mod 64; 128 + cp mod 64]
  else
    [240 + Z.shiftr cp 18; 128 + Z.shiftr cp 12 mod 64;
     128 + Z.shiftr cp 6 mod 64; 128 + cp mod 64].

Definition hex4 (a b c d : Z) : option Z :=
  match digit_value 16 a, digit_value 16 b, digit_value 16 c, digit_value 16 d with
  | Some x, Some y, Some z, Some w => Some (((x * 16 + y) * 16 + z) * 16 + w)
  | _, _, _, _ => None
  end.

(** The characters of a string literal after its opening quote. *)
Fixpoint parse_string (fuel : nat) (l acc : list Z) : option (list Z * list Z) :=
  match fuel with
  | O => None
  | S fuel' =>
      match l with
      | 34 :: r => Some (rev acc, r)
      | 92 :: 34 :: r => parse_string fuel' r (34 :: acc)
      | 92 :: 92 :: r => parse_string fuel' r (92 :: acc)
      | 92 :: 47 :: r => parse_string fuel' r (47 :: acc)
      | 92 :: 98 :: r => parse_string fuel' r (8 :: acc)
      | 92 :: 102 :: r => parse_string fuel' r (12 :: acc)
      | 92 :: 110 :: r => parse_string fuel' r (10 :: acc)
      | 92 :: 114 :: r => parse_string fuel' r (13 :: acc)
      | 92 :: 116 :: r => parse_string fuel' r (9 :: acc)
      | 92 :: 117 :: a :: b :: c :: d :: r =>
          match hex4 a b c d with
          | None => None
          | Some hi =>
              let single := parse_string fuel' r (rev (utf8 hi) ++ acc) in
              if (55296 <=? hi) && (hi <=? 56319) then
                match r with
                | 92 :: 117 :: a' :: b' :: c' :: d' :: r' =>
                    match hex4 a' b' c' d' with
                    | Some lo =>
                        if (56320 <=? lo) && (lo <=? 57343) then
                          parse_string fuel' r'
                            (rev (utf8 (65536 + (hi - 55296) * 1024 + (lo - 56320))) ++ acc)
                        else single
                    | None => single
                    end
                | _ => single
                end
              else single
          end
      | 92 :: _ => None
      | b :: r => if b <? 32 then None else parse_string fuel' r (b :: acc)
      | [] => None
      end
  end.

(** A number token: [-]? int frac? exp? *)
Definition parse_number (l : list Z) : option (float * list Z) :=
  let (neg, l0) := match l with 45 :: l' => (true, l') | _ => (false, l) end in
  let '(ip, ni, l1) := read_digits l0 0 0 in
  let leading_zero := match l0 with 48 :: b :: _ => is_digit b | _ => false end in
  if (ni =? 0) || leading_zero then None
  else
    let frac :=
      match l1 with
      | 46 :: l' =>
          let '(d, nf, l2) := read_digits l' ip 0 in
          if nf =? 0 then None else Some (d, nf, l2)
      | _ => Some (ip, 0, l1)
      end in
    match frac with
    | None => None
    | Some (d, nf, l2) =>
        match l2 with
        | 101 :: l' | 69 :: l' =>
            let (eneg, l3) := read_sign l' in
            let '(x, ne, l4) := read_digits l3 0 0 in
            if ne =? 0 then None
            else Some (double_of_decimal neg d ((if eneg then - x else x) - nf), l4)
        | _ => Some (double_of_decimal neg d (- nf), l2)
        end
    end.

(** A property created by a later member of the same name keeps the
    place of the first one. *)
Fixpoint define (k : string) (v : value) (fields : list (string * value))
  : list (string * value) :=
  match fields with
  | [] => [(k, v)]
  | (k', v') :: fields' =>
      if String.eqb k k' then (k, v) :: fields' else (k', v') :: define k v fields'
  end.

(** The array index a property name denotes, if it is the canonical
    decimal text of an integer below 2^32 - 1. *)
Definition array_index (k : string) : option Z :=
  match read_digits (bytes_of_string k) 0 0 with
  | (n, c, []) =>
      if (0 <? c) && (n <? 4294967295) && String.eqb (decimal n) k then Some n else None
  | _ => None
  end.

Fixpoint insert_index (n : Z) (kv : string * value) (l : list (Z * (string * value)))
  : list (Z * (string * value)) :=
  match l with
  | [] => [(n, kv)]
  | (m, kv') :: l' =>
      if n <? m then (n, kv) :: l else (m, kv') :: insert_index n kv l'
  end.

(** Enumeration order of own properties: array indices in ascending
    order, then the other names in creation order. *)
Definition ordered (fields : list (string * value)) : list (string * value) :=
  let indexed :=
    fold_left (fun acc kv =>
                 match array_index (fst kv) with
                 | Some n => insert_index n kv acc
                 | None => acc
                 end) fields [] in
  map snd indexed ++
  filter (fun kv => match array_index (fst kv) with Some _ => false | None => true end) fields.

Definition literal (word : string) (v : value) (l : list Z) : option (value * list Z) :=
  match strip_prefix (bytes_of_string word) l with
  | Some r => Some (v, r)
  | None => None
  end.

Fixpoint parse_value (fuel : nat) (l : list Z) : option (value * list Z) :=
  match fuel with
  | O => None
  | S fuel' =>
      match skip_ws l with
      | 123 :: r =>
          match skip_ws r with
          | 125 :: r' => Some (JObj [], r')
          | r' => parse_members fuel' r' []
          end
      | 91 :: r =>
          match skip_ws r with
          | 93 :: r' => Some (JArr [], r')
          | r' => parse_elements fuel' r' []
          end
      | 34 :: r =>
          match parse_string (S (List.length r)) r [] with
          | Some (t, r') => Some (JStr (string_of_bytes t), r')
          | None => None
          end
      | (116 :: _) as w => literal "true" (JBool true) w
      | (102 :: _) as w => literal "false" (JBool false) w
      | (110 :: _) as w => literal "null" JNull w
      | w =>
          match parse_number w with
          | Some (x, r) => Some (JNum x, r)
          | None => None
          end
      end
  end
with parse_elements (fuel : nat) (l : list Z) (acc : list value)
  : option (value * list Z) :=
  match fuel with
  | O => None
  | S fuel' =>
      match parse_value fuel' l with
      | Some (v, r) =>
          match skip_ws r with
          | 44 :: r' => parse_elements fuel' r' (v :: acc)
          | 93 :: r' => Some (JArr (rev (v :: acc)), r')
          | _ => None
          end
      | None => None
      end
  end
with parse_members (fuel : nat) (l : list Z) (acc : list (string * value))
  : option (value * list Z) :=
  match fuel with
  | O => None
  | S fuel' =>
      match skip_ws l with
      | 34 :: r =>
          match parse_string (S (List.length r)) r [] with
          | Some (k, r1) =>
              match skip_ws r1 with
              | 58 :: r2 =>
                  match parse_value fuel' r2 with
                  | Some (v, r3) =>
                      let acc' := define (string_of_bytes k) v acc in
                      match skip_ws r3 with
                      | 44 :: r4 => parse_members fuel' r4 acc'
                      | 125 :: r4 => Some (JObj (ordered acc'), r4)
                      | _ => None
                      end
                  | None => None
                  end
              | _ => None
              end
          | None => None
          end
      | _ => None
      end
  end.

Definition JSON_parse (s : string) : option value :=
  let l := bytes_of_string s in
  match parse_value (2 * List.length l + 2) l with
  | Some (v, r) => match skip_ws r with [] => Some v | _ => None end
  | None => None
  end.

(** *** [Buffer.from(s, 'base64').toString('utf-8')] *)

(** The value of a base64 digit; the URL-safe [-] and [_] are read as
    [+] and [/]. *)
Definition unbase64 (b : Z) : option Z :=
  if (65 <=? b) && (b <=? 90) then Some (b - 65)
  else if (97 <=? b) && (b <=? 122) then Some (b - 71)
  else if is_digit b then Some (b + 4)
  else if (b =? 43) || (b =? 45) then Some 62
  else if (b =? 47) || (b =? 95) then Some 63
  else None.

(** Node's decoder skips every byte that is no base64 digit and stops
    at the first [=]. *)
Fixpoint sextets (l : list Z) : list Z :=
  match l with
  | [] => []
  | b :: l' =>
      match unbase64 b with
      | Some v => v :: sextets l'
      | None => if b =? 61 then [] else sextets l'
      end
  end.

Fixpoint bytes_of_sextets (l : list Z) : list Z :=
  match l with
  | a :: b :: c :: d :: l' =>
      (Z.shiftl a 2 + Z.shiftr b 4) :: (Z.shiftl (b mod 16) 4 + Z.shiftr c 2)
      :: (Z.shiftl (c mod 4) 6 + d) :: bytes_of_sextets l'
  | [a; b; c] => [Z.shiftl a 2 + Z.shiftr b 4; Z.shiftl (b mod 16) 4 + Z.shiftr c 2]
  | [a; b] => [Z.shiftl a 2 + Z.shiftr b 4]
  | _ => []
  end.

Definition base64_decode (s : string) : list Z :=
  bytes_of_sextets (sextets (bytes_of_string s)).

Definition between (lo b hi : Z) : bool := (lo <=? b) && (b <=? hi).

(** U+FFFD, which replaces every ill-formed sequence. *)
Definition replacement : list Z := [239; 191; 189].

(** The UTF-8 decoder of [toString('utf-8')], with its output written
    in UTF-8 again: well-formed sequences are kept, each maximal
    ill-formed part becomes U+FFFD. *)
Fixpoint utf8_decode (fuel : nat) (l : list Z) : list Z :=
  match fuel with
  | O => []
  | S fuel' =>
      match l with
      | [] => []
      | b :: r =>
          if b <? 128 then b :: utf8_decode fuel' r
          else if between 194 b 223 then
            match r with
            | c1 :: r1 =>
                if between 128 c1 191 then b :: c1 :: utf8_decode fuel' r1
                else replacement ++ utf8_decode fuel' r
            | [] => replacement
            end
          else if between 224 b 239 then
            match r with
            | c1 :: r1 =>
                if between (if b =? 224 then 160 else 128) c1 (if b =? 237 then 159 else 191)
                then match r1 with
                     | c2 :: r2 =>
                         if between 128 c2 191 then b :: c1 :: c2 :: utf8_decode fuel' r2
                         else replacement ++ utf8_decode fuel' r1
                     | [] => replacement
                     end
                else replacement ++ utf8_decode fuel' r
            | [] => replacement
            end
          else if between 240 b 244 then
            match r with
            | c1 :: r1 =>
                if between (if b =? 240 then 144 else 128) c1 (if b =? 244 then 143 else 191)
                then match r1 with
                     | c2 :: r2 =>
                         if between 128 c2 191 then
                           match r2 with
                           | c3 :: r3 =>
                               if between 128 c3 191
                               then b :: c1 :: c2 :: c3 :: utf8_decode fuel' r3
                               else replacement ++ utf8_decode fuel' r2
                           | [] => replacement
                           end
                         else replacement ++ utf8_decode fuel' r1
                     | [] => replacement
                     end
                else replacement ++ utf8_decode fuel' r
            | [] => replacement
            end
          else replacement ++ utf8_decode fuel' r
      end
  end.

(** A string is decoded; [undefined], [null], booleans and numbers are
    rejected with a TypeError. Array-like sources (arrays, objects with
    a [length], serialised Buffers), which [Buffer.from] copies element
    by element, are not elaborated here and are rejected as well: this
    is the one place where this implementation is narrower than Node,
    and the reason the adapters are verified against the [Runtime]
    interface and not against this module. *)
Definition Buffer_base64_utf8 (v : value) : option string :=
  match v with
  | JStr s =>
      let bytes := base64_decode s in
      Some (string_of_bytes (utf8_decode (List.length bytes) bytes))
  | _ => None
  end.

#[export] Instance runtime : Runtime :=
  {| JS.Number_toString := Number_toString;
     JS.StringToNumber := StringToNumber;
     JS.JSON_stringify := JSON_stringify;
     JS.JSON_parse := JSON_parse;
     JS.Buffer_base64_utf8 := Buffer_base64_utf8 |}.

(** JSON text written with [']: every apostrophe stands for a double
    quote. *)
Fixpoint json (s : string) : string :=
  match s with
  | EmptyString => EmptyString
  | String c s' =>
      String (if (byte_of_ascii c =? 39) then ascii_of_byte 34 else c) (json s')
  end.

End Node.

(** ** Sample configurations and requests *)

Module Scenario.
Import JS.
Local Open Scope string_scope.

Definition unset : Process.Env :=
  {| Process.RAZORPAY_KEY_ID := None;
     Process.RAZORPAY_KEY_SECRET := None;
     Process.PHONEPE_MERCHANT_ID := None;
     Process.PHONEPE_SALT_KEY := None;
     Process.PHONEPE_SALT_INDEX := None;
     Process.PHONEPE_WEBHOOK_USER := None;
     Process.PHONEPE_WEBHOOK_PASS := None;
     Process.PHONEPE_CLIENT_ID := None;
     Process.PHONEPE_CLIENT_SECRET := None;
     Process.PHONEPE_CLIENT_VERSION := None;
     Process.FRONTEND_URL := None;
     Process.BACKEND_URL := None |}.

(** The deployment of the end-to-end scenarios: Razorpay secret
    [s3cr3t], PhonePe salt [SALT1] with the given index, webhook
    credentials [user:pass], an OAuth client. *)
Definition env (saltIndex : string) : Process.Env :=
  {| Process.RAZORPAY_KEY_ID := Some "rzp_test_key";
     Process.RAZORPAY_KEY_SECRET := Some "s3cr3t";
     Process.PHONEPE_MERCHANT_ID := Some "M1";
     Process.PHONEPE_SALT_KEY := Some "SALT1";
     Process.PHONEPE_SALT_INDEX := Some saltIndex;
     Process.PHONEPE_WEBHOOK_USER := Some "user";
     Process.PHONEPE_WEBHOOK_PASS := Some "pass";
     Process.PHONEPE_CLIENT_ID := Some "client";
     Process.PHONEPE_CLIENT_SECRET := Some "secret";
     Process.PHONEPE_CLIENT_VERSION := None;
     Process.FRONTEND_URL := None;
     Process.BACKEND_URL := None |}.

Definition fields (orderId paymentId signature : string) : list (string * value) :=
  [("orderId", JStr orderId); ("paymentId", JStr paymentId); ("signature", JStr signature)].

Definition params (orderId paymentId signature : string) : value :=
  JObj (fields orderId paymentId signature).

(** [{"event": e, "payload": {"payment": {"entity": {"id": "pay_1",
    "error_description": "declined"}}, "refund": {"entity": {"id":
    "rfnd_1", "payment_id": "pay_1"}}}}] *)
Definition payment_entity : value :=
  JObj [("id", JStr "pay_1"); ("error_description", JStr "declined")].

Definition refund_entity : value :=
  JObj [("id", JStr "rfnd_1"); ("payment_id", JStr "pay_1")].

Definition razorpay_event (e : string) : value :=
  JObj [("event", JStr e);
        ("payload", JObj [("payment", JObj [("entity", payment_entity)]);
                          ("refund", JObj [("entity", refund_entity)])])].

(** [{"event": e}], an event without its payload. *)
Definition bare_event (e : string) : value := JObj [("event", JStr e)].

(** The [X-Razorpay-Signature] of a body under the secret [s3cr3t]. *)
Definition razorpay_signature (body : value) : value :=
  match Node.JSON_stringify body with
  | Some t => JStr (SHA256.hmac_sha256_hex "s3cr3t" t)
  | None => JUndefined
  end.

(** A PhonePe callback [{"data": {"response": r}}] whose [r] is the
    base64 text of [response]. *)
Definition phonepe_callback (response : string) : value :=
  JObj [("data", JObj [("response", JStr (Base64.encode response))])].

Definition completed : string :=
  Node.json "{'merchantTransactionId':'TXN_M1_1','state':'COMPLETED','responseCode':'SUCCESS','amount':49900,'transactionDate':'2024-01-01'}".

Definition pending : string :=
  Node.json "{'merchantTransactionId':'TXN_M1_2','state':'PENDING'}".

(** The [X-VERIFY] value of a body under salt [SALT1], index [1]. *)
Definition x_verify (body : value) : value :=
  match Node.JSON_stringify body with
  | Some t => JStr (SHA256.sha256_hex (t ++ "SALT1") ++ "###1")
  | None => JUndefined
  end.

(** [{"success": true, "data": d}] *)
Definition oauth_callback (d : value) : value :=
  JObj [("success", JBool true); ("data", d)].

Definition oauth_order : value :=
  JObj [("merchantOrderId", JStr "ORD1"); ("state", JStr "COMPLETED");
        ("amount", JNum 49900)].

(** The token endpoint answers [{"access_token": t, "expires_in":
    3600}] and the caller resumes at time [arrival]. *)
Definition token_reply (t : string) (arrival : float) : PhonePeOAuth.Network :=
  {| PhonePeOAuth.response :=
       Returned (JObj [("access_token", JStr t); ("expires_in", JNum 3600)]);
     PhonePeOAuth.arrival := arrival |}.

(** The JSON text of a request body. *)
Definition text_of (body : value) : string :=
  match Node.JSON_stringify body with
  | Some t => t
  | None => ""
  end.

End Scenario.

(** ** Text as code points

    The regular expressions and [trim] of the validators read a text
    character by character. *)

Module Unicode.
Local Open Scope Z_scope.

(** The code points of a text, read from its UTF-8 bytes. *)
Fixpoint code_points (l : list Z) : list Z :=
  match l with
  | [] => []
  | b :: r =>
      if b <? 192 then b :: code_points r
      else if b <? 224 then
        match r with
        | c1 :: r1 => ((b - 192) * 64 + (c1 - 128)) :: code_points r1
        | [] => [65533]
        end
      else if b <? 240 then
        match r with
        | c1 :: c2 :: r2 =>
            ((b - 224) * 4096 + (c1 - 128) * 64 + (c2 - 128)) :: code_points r2
        | _ => [65533]
        end
      else
        match r with
        | c1 :: c2 :: c3 :: r3 =>
            ((b - 240) * 262144 + (c1 - 128) * 4096 + (c2 - 128) * 64 + (c3 - 128))
              :: code_points r3
        | _ => [65533]
        end
  end.

Definition of_string (s : string) : list Z := code_points (Bytes.bytes_of_string s).

(** WhiteSpace and LineTerminator: the class [\s] of a regular
    expression and what [String.prototype.trim] strips. *)
Definition white_space (c : Z) : bool :=
  existsb (Z.eqb c) [9; 10; 11; 12; 13; 32; 160; 5760; 8232; 8233; 8239; 8287; 12288; 65279]
  || ((8192 <=? c) && (c <=? 8202)).

Fixpoint trimStart (l : list Z) : list Z :=
  match l with
  | c :: r => if white_space c then trimStart r else l
  | [] => []
  end.

Definition trim (l : list Z) : list Z := rev (trimStart (rev (trimStart l))).

End Unicode.

(** ** Regular expressions

    The anchored patterns of the validators, matched by derivatives;
    [Matches] is the language of a pattern. *)

Module RegExp.
Local Open Scope Z_scope.

Inductive regex : Type :=
| Void
| Empty
| Class (p : Z -> bool)
| Cat (r s : regex)
| Alt (r s : regex)
| Star (r : regex).

Definition Plus (r : regex) : regex := Cat r (Star r).

Fixpoint Times (n : nat) (r : regex) : regex :=
  match n with
  | O => Empty
  | S n' => Cat r (Times n' r)
  end.

Fixpoint nullable (r : regex) : bool :=
  match r with
  | Void => false
  | Empty => true
  | Class _ => false
  | Cat r s => nullable r && nullable s
  | Alt r s => nullable r || nullable s
  | Star _ => true
  end.

Fixpoint derive (c : Z) (r : regex) : regex :=
  match r with
  | Void | Empty => Void
  | Class p => if p c then Empty else Void
  | Cat r s =>
      if nullable r then Alt (Cat (derive c r) s) (derive c s)
      else Cat (derive c r) s
  | Alt r s => Alt (derive c r) (derive c s)
  | Star r => Cat (derive c r) (Star r)
  end.

Fixpoint test (r : regex) (l : list Z) : bool :=
  match l with
  | [] => nullable r
  | c :: l' => test (derive c r) l'
  end.

Inductive Matches : regex -> list Z -> Prop :=
| MEmpty : Matches Empty []
| MClass (p : Z -> bool) (c : Z) : p c = true -> Matches (Class p) [c]
| MCat (r s : regex) (u v : list Z) :
    Matches r u -> Matches s v -> Matches (Cat r s) (u ++ v)
| MAltL (r s : regex) (u : list Z) : Matches r u -> Matches (Alt r s) u
| MAltR (r s : regex) (u : list Z) : Matches s u -> Matches (Alt r s) u
| MStarO (r : regex) : Matches (Star r) []
| MStarS (r : regex) (u v : list Z) :
    Matches r u -> Matches (Star r) v -> Matches (Star r) (u ++ v).

End RegExp.

(** ** The other validators of src/backend/utils/validators.js *)

Module RequestValidators.
Import JS JS.Notations.
Local Open Scope string_scope.

(** [{ valid: false, error: message }] *)
Definition invalid (message : string) : value :=
  JObj [("valid", JBool false); ("error", JStr message)].

Definition valid : value := JObj [("valid", JBool true)].

(** [l.join(sep)] for an array of strings. *)
Fixpoint join (sep : string) (l : list string) : string :=
  match l with
  | [] => ""
  | [s] => s
  | s :: l' => s ++ sep ++ join sep l'
  end.

(** [l.includes(s)] for an array of strings. *)
Definition includes (l : list string) (s : string) : bool := existsb (String.eqb s) l.

(** [s.toLowerCase()] on the letters of ASCII. The letters outside
    ASCII, which the Unicode case tables map, are left as they are: the
    function stands for [toLowerCase] on ASCII text only. *)
Fixpoint toLowerCase (s : string) : string :=
  match s with
  | EmptyString => EmptyString
  | String c s' =>
      let b := Bytes.byte_of_ascii c in
      String (if ((65 <=? b) && (b <=? 90))%Z then Bytes.ascii_of_byte (b + 32) else c)
        (toLowerCase s')
  end.

Fixpoint is_ascii (s : string) : bool :=
  match s with
  | EmptyString => true
  | String c s' => (Bytes.byte_of_ascii c <? 128)%Z && is_ascii s'
  end.

(** [s] spells the lowercase word [w], each letter in either case. *)
Fixpoint spells (s w : string) : bool :=
  match s, w with
  | EmptyString, EmptyString => true
  | String c s', String d w' =>
      let b := Bytes.byte_of_ascii c in
      let l := Bytes.byte_of_ascii d in
      ((b =? l) || (b =? l - 32))%Z && spells s' w'
  | _, _ => false
  end.

(** A word of the letters [a] to [z]. *)
Fixpoint lowercase_word (w : string) : bool :=
  match w with
  | EmptyString => true
  | String d w' =>
      let l := Bytes.byte_of_ascii d in
      ((97 <=? l) && (l <=? 122))%Z && lowercase_word w'
  end.

Section Validators.
Context {rt : Runtime}.

(** [v.toString()]: the method of the prototype of [v], or the own
    property [toString] of an object, which is not callable. *)
Definition toString (v : value) : outcome string :=
  match v with
  | JUndefined | JNull => Thrown TypeError
  | _ => ToString v
  end.

Definition validGateways : list string := ["razorpay"; "phonepe"; "cashfree"].

(** Only a string has a [toLowerCase] method. *)
Definition validateGateway (gateway : value) : outcome value :=
  if negb (truthy gateway) then Returned (invalid "Gateway is required")
  else
    match gateway with
    | JStr s =>
        if negb (includes validGateways (toLowerCase s)) then
          Returned (invalid ("Invalid gateway. Supported: " ++ join ", " validGateways))
        else Returned valid
    | _ => Thrown TypeError
    end.

(** [[^\s@]] *)
Definition email_char (c : Z) : bool := negb (Unicode.white_space c || (c =? 64)%Z).

(** [/^[^\s@]+@[^\s@]+\.[^\s@]+$/] *)
Definition emailRegex : RegExp.regex :=
  RegExp.Cat (RegExp.Plus (RegExp.Class email_char))
    (RegExp.Cat (RegExp.Class (Z.eqb 64))
       (RegExp.Cat (RegExp.Plus (RegExp.Class email_char))
          (RegExp.Cat (RegExp.Class (Z.eqb 46))
             (RegExp.Plus (RegExp.Class email_char))))).

Definition validateEmail (email : value) : outcome value :=
  if negb (truthy email) then Returned (invalid "Email is required")
  else
    text <- ToString email ;;
    if negb (RegExp.test emailRegex (Unicode.of_string text)) then
      Returned (invalid "Invalid email format")
    else Returned valid.

(** [[6-9]] and [\d] *)
Definition six_to_nine (c : Z) : bool := ((54 <=? c) && (c <=? 57))%Z.
Definition digit (c : Z) : bool := ((48 <=? c) && (c <=? 57))%Z.

(** [/^[6-9]\d{9}$/] *)
Definition phoneRegex : RegExp.regex :=
  RegExp.Cat (RegExp.Class six_to_nine) (RegExp.Times 9 (RegExp.Class digit)).

Definition validatePhone (phone : value) : outcome value :=
  if negb (truthy phone) then Returned (invalid "Phone is required")
  else
    text <- toString phone ;;
    if negb (RegExp.test phoneRegex (Unicode.of_string text)) then
      Returned (invalid "Invalid phone number (must be 10 digits starting with 6-9)")
    else Returned valid.

(** [typeof v === 'object'] *)
Definition typeof_object (v : value) : bool :=
  match v with
  | JNull | JArr _ | JObj _ => true
  | _ => false
  end.

(** [typeof name !== 'string' || name.trim().length === 0]; a text has
    length zero exactly when it has no code point. *)
Definition blank (name : value) : bool :=
  match name with
  | JStr s => Nat.eqb (List.length (Unicode.trim (Unicode.of_string s))) 0
  | _ => true
  end.

Definition validateCustomer (customer : value) : outcome value :=
  if negb (truthy customer) || negb (typeof_object customer) then
    Returned (invalid "Customer object is required")
  else
    name <- get customer "name" ;;
    email <- get customer "email" ;;
    phone <- get customer "phone" ;;
    if negb (truthy name) || blank name then
      Returned (invalid "Customer name is required")
    else
      emailValidation <- validateEmail email ;;
      if negb (truthy (get_opt emailValidation "valid")) then Returned emailValidation
      else
        phoneValidation <- validatePhone phone ;;
        if negb (truthy (get_opt phoneValidation "valid")) then Returned phoneValidation
        else Returned valid.

End Validators.
End RequestValidators.

(** ** Requests to a payment gateway

    An adapter function that calls the gateway is modelled as a
    computation over a world: it settles with a value or an exception
    and leaves the world changed by the requests it has sent. *)

Module Http.
Import JS.

(** What [axios.post(url, data, { headers })] and [axios.get(url,
    { headers })] send; a GET has no [data]. *)
Record Request : Type :=
  { method : string;
    url : string;
    headers : list (string * string);
    data : value }.

(** The gateway: [Returned d] is a fulfilled request whose
    [response.data] is [d], [Thrown e] a rejected one. *)
Definition Gateway : Type := Request -> outcome value.

End Http.

Module Effect.
Import JS.

Section Monad.
Context {W : Type}.

Definition M (A : Type) : Type := W -> outcome A * W.

Definition ret {A : Type} (a : A) : M A := fun w => (Returned a, w).

(** A step that does not touch the world. *)
Definition lift {A : Type} (m : outcome A) : M A := fun w => (m, w).

Definition bind {A B : Type} (m : M A) (k : A -> M B) : M B :=
  fun w =>
    match m w with
    | (Returned a, w') => k a w'
    | (Thrown e, w') => (Thrown e, w')
    end.

(** [try { m } catch (error) { throw { message, error: error.message } }] *)
Definition catch_as {A : Type} (message : string) (m : M A) : M A :=
  fun w =>
    match m w with
    | (Returned a, w') => (Returned a, w')
    | (Thrown e, w') => (Thrown (Failure message e), w')
    end.

(** [try { m } catch (error) { throw error }] *)
Definition catch_rethrow {A : Type} (m : M A) : M A :=
  fun w =>
    match m w with
    | (Returned a, w') => (Returned a, w')
    | (Thrown e, w') => (Thrown e, w')
    end.

End Monad.

Module Notations.
Notation "'let*' x := m 'in' k" := (bind m (fun x => k))
  (at level 10, x name, m at level 100, k at level 200).
End Notations.

End Effect.

(** ** The requests of the OAuth PhonePe adapter
    (src/unnamed/part_000, lines 89-253) *)

Module PhonePeOAuthRequests.
Import JS PhonePeOAuth Effect Effect.Notations.
Local Open Scope string_scope.

(** The token cache, the token requests and the API requests sent so
    far. *)
Record World : Type :=
  { cache : TokenCache;
    token_requests : nat;
    sent : list Http.Request }.

Definition start (tokenCache : TokenCache) : World :=
  {| cache := tokenCache; token_requests := 0; sent := [] |}.

(** [clearTokenCache] assigns the empty cache (lines 298-304). *)
Definition clearTokenCache (w : World) : World :=
  {| cache := initial; token_requests := token_requests w; sent := sent w |}.

Section Adapter.
Context {rt : Runtime} (env : Process.Env).
(** The PhonePe API behind [axios]. *)
Variable api : Http.Gateway.

(** [await getAccessToken()] at time [now]; [net] is the answer of the
    token endpoint, should the call ask for one. *)
Definition token (now : float) (net : Network) : M value :=
  fun w =>
    let '(r, tokenCache, n) := getAccessToken env now net (cache w) in
    (r, {| cache := tokenCache;
           token_requests := (token_requests w + n)%nat;
           sent := sent w |}).

(** [await axios.post(...)] and [await axios.get(...)] *)
Definition request (q : Http.Request) : M value :=
  fun w =>
    (api q, {| cache := cache w;
               token_requests := token_requests w;
               sent := (sent w ++ [q])%list |}).

(** The headers of every API request. *)
Definition headers (accessToken : value) : outcome (list (string * string)) :=
  JS.bind (ToString accessToken)
    (fun bearer =>
       Returned [("Authorization", "Bearer " ++ bearer);
                 ("X-Client-Version", PHONEPE_CLIENT_VERSION env);
                 ("Content-Type", "application/json")]).

Definition createPhonePeOrder (params : value) (now : float) (net : Network) : M value :=
  catch_as "Failed to create PhonePe order"
    (let* amount := lift (get params "amount") in
     let* orderId := lift (get params "orderId") in
     let* accessToken := token now net in
     let* amountInPaise := lift (amountInPaise amount) in
     let payload :=
       JObj [("merchantOrderId", orderId);
             ("amount", JNum amountInPaise);
             ("currency", JStr "INR");
             ("redirectUrl", JStr (text (Process.FRONTEND_URL env) ++ "/payment-success"))] in
     let* h := lift (headers accessToken) in
     let* data :=
       request {| Http.method := "POST";
                  Http.url := "https://api.phonepe.com/apis/hermes/pg/v1/pay";
                  Http.headers := h;
                  Http.data := payload |} in
     ret data).

Definition checkPhonePeTransactionStatus (orderId : value) (now : float) (net : Network)
  : M value :=
  catch_as "Failed to check PhonePe transaction status"
    (let* accessToken := token now net in
     let* id := lift (ToString orderId) in
     let* h := lift (headers accessToken) in
     let* data :=
       request {| Http.method := "GET";
                  Http.url := "https://api.phonepe.com/apis/hermes/pg/v1/status/" ++ id;
                  Http.headers := h;
                  Http.data := JUndefined |} in
     ret data).

(** [stamp] is [Date.now()] when the refund id is made. *)
Definition refundPhonePePayment (params : value) (now : float) (net : Network)
  (stamp : float) : M value :=
  catch_as "Failed to refund PhonePe payment"
    (let* transactionId := lift (get params "transactionId") in
     let* amount := lift (get params "amount") in
     let* accessToken := token now net in
     let* amountInPaise := lift (refund_amountInPaise amount) in
     let refundId := "REFUND_" ++ Number_toString stamp in
     let payload :=
       JObj [("transactionId", transactionId);
             ("amount", JNum amountInPaise);
             ("refundId", JStr refundId)] in
     let* h := lift (headers accessToken) in
     let* data :=
       request {| Http.method := "POST";
                  Http.url := "https://api.phonepe.com/apis/hermes/pg/v1/refund";
                  Http.headers := h;
                  Http.data := payload |} in
     ret data).

End Adapter.
End PhonePeOAuthRequests.

(** ** The requests of the salt-based PhonePe adapter
    (src/backend/README.md, lines 1061-1183 and 1246-1294) *)

Module PhonePeSaltRequests.
Import JS PhonePeSalt Effect Effect.Notations.
Local Open Scope string_scope.

(** A [string | undefined] as the value of a property. *)
Definition optional (o : option string) : value :=
  match o with
  | Some s => JStr s
  | None => JUndefined
  end.

(** [[a-zA-Z0-9]] *)
Definition alphanumeric (c : ascii) : bool :=
  let b := Bytes.byte_of_ascii c in
  (((48 <=? b) && (b <=? 57)) || ((65 <=? b) && (b <=? 90)) || ((97 <=? b) && (b <=? 122)))%Z.

(** [s.replace(/[^a-zA-Z0-9]/g, '')]: every character outside the
    class is dropped; the bytes of a character outside ASCII are all
    outside the class. *)
Fixpoint replace_other (s : string) : string :=
  match s with
  | EmptyString => EmptyString
  | String c s' => if alphanumeric c then String c (replace_other s') else replace_other s'
  end.

Section Adapter.
Context {rt : Runtime} (env : Process.Env).
(** [process.env.PHONEPE_API_URL] *)
Variable api_url : option string.
(** The PhonePe API behind [axios]. *)
Variable api : Http.Gateway.

Definition PHONEPE_API_URL : string :=
  or_default api_url "https://api.phonepe.com/apis/hermes".
Definition PHONEPE_MERCHANT_ID : option string := Process.PHONEPE_MERCHANT_ID env.

(** The world is the list of the requests sent so far. *)
Definition request (q : Http.Request) : M (W := list Http.Request) value :=
  fun sent => (api q, (sent ++ [q])%list).

(** [customer.email.replace(/[^a-zA-Z0-9]/g, '')]: only a string has a
    [replace] method. *)
Definition merchantUserId (email : value) : outcome string :=
  match email with
  | JStr s => Returned (replace_other s)
  | _ => Thrown TypeError
  end.

(** [Buffer.from(JSON.stringify(payloadData)).toString('base64')];
    [Buffer.from(undefined)] is a TypeError. *)
Definition encode (payloadData : value) : outcome string :=
  match JSON_stringify payloadData with
  | Some s => Returned (Base64.encode s)
  | None => Thrown TypeError
  end.

(** The headers of every request. *)
Definition headers (xVerify : string) : list (string * string) :=
  [("Content-Type", "application/json"); ("X-VERIFY", xVerify)].

(** [response.data?.success ? 'INITIATED' : 'FAILED'] *)
Definition status (data : value) : value :=
  JStr (if truthy (get_opt data "success") then "INITIATED" else "FAILED").

(** The [payloadData] of [createPhonePeOrder]. *)
Definition orderPayload (transactionId userId : string) (amountInPaise : float)
  (phone : value) : value :=
  JObj [("merchantId", optional PHONEPE_MERCHANT_ID);
        ("merchantTransactionId", JStr transactionId);
        ("merchantUserId", JStr userId);
        ("amount", JNum amountInPaise);
        ("redirectUrl",
         JStr (text (Process.FRONTEND_URL env) ++ "/payment-status?transactionId="
               ++ transactionId));
        ("redirectMode", JStr "GET");
        ("callbackUrl",
         JStr (or_default (Process.BACKEND_URL env) "https://your-backend-url.com"
               ++ "/api/webhook/phonepe"));
        ("mobileNumber", phone);
        ("paymentInstrument", JObj [("type", JStr "PAY_PAGE")])].

(** [now] is [Date.now()] when the transaction id is made. The first
    read of [customer.email] is the argument of [logger.info]. *)
Definition createPhonePeOrder (params : value) (now : float) : M value :=
  catch_as "Failed to create PhonePe order"
    (let* amount := lift (get params "amount") in
     let* customer := lift (get params "customer") in
     let transactionId :=
       "TXN_" ++ text PHONEPE_MERCHANT_ID ++ "_" ++ Number_toString now in
     let* _ := lift (get customer "email") in
     let* amountInPaise := lift (amountInPaise amount) in
     let* email := lift (get customer "email") in
     let* userId := lift (merchantUserId email) in
     let* phone := lift (get customer "phone") in
     let payloadData := orderPayload transactionId userId amountInPaise phone in
     let* payload := lift (encode payloadData) in
     let* xVerify := lift (generatePhonePeSignature env (Some payload)) in
     let* data :=
       request {| Http.method := "POST";
                  Http.url := PHONEPE_API_URL ++ "/pg/v1/pay";
                  Http.headers := headers xVerify;
                  Http.data := JObj [("request", JStr payload)] |} in
     let redirectUrl :=
       get_opt (get_opt (get_opt data "data") "instrumentResponse") "redirectUrl" in
     ret (JObj [("transactionId", JStr transactionId);
                ("merchantId", optional PHONEPE_MERCHANT_ID);
                ("redirectUrl", redirectUrl);
                ("paymentUrl", redirectUrl);
                ("status", status data)])).

Definition checkPhonePeTransactionStatus (transactionId : value) : M value :=
  catch_rethrow
    (let payloadData :=
       JObj [("merchantId", optional PHONEPE_MERCHANT_ID);
             ("merchantTransactionId", transactionId)] in
     let* payload := lift (encode payloadData) in
     let* xVerify := lift (generatePhonePeSignature env (Some payload)) in
     let* id := lift (ToString transactionId) in
     let* data :=
       request {| Http.method := "GET";
                  Http.url := PHONEPE_API_URL ++ "/pg/v1/status/"
                              ++ text PHONEPE_MERCHANT_ID ++ "/" ++ id;
                  Http.headers := headers xVerify;
                  Http.data := JUndefined |} in
     ret (JObj [("transactionId", transactionId);
                ("status", get_opt (get_opt data "data") "state");
                ("responseCode", get_opt (get_opt data "data") "responseCode");
                ("amount", get_opt (get_opt data "data") "amount");
                ("success", get_opt data "success")])).

(** [stamp] is [Date.now()] when the refund id is made. *)
Definition refundPhonePePayment (params : value) (stamp : float) : M value :=
  catch_rethrow
    (let* transactionId := lift (get params "transactionId") in
     let* amount := lift (get params "amount") in
     let* amountInPaise := lift (refund_amount amount) in
     let payloadData :=
       JObj [("merchantId", optional PHONEPE_MERCHANT_ID);
             ("originalTransactionId", transactionId);
             ("amount", JNum amountInPaise);
             ("refundId", JStr ("REFUND_" ++ Number_toString stamp))] in
     let* payload := lift (encode payloadData) in
     let* xVerify := lift (generatePhonePeSignature env (Some payload)) in
     let* data :=
       request {| Http.method := "POST";
                  Http.url := PHONEPE_API_URL ++ "/pg/v1/refund";
                  Http.headers := headers xVerify;
                  Http.data := JObj [("request", JStr payload)] |} in
     ret (JObj [("refundId", get_opt (get_opt data "data") "refundId");
                ("status", status data);
                ("originalTransactionId", transactionId)])).

End Adapter.
End PhonePeSaltRequests.

(** ** The webhook routes (src/backend/routes/webhooks.js) *)

Module WebhookRoutes.
Import JS JS.Notations.
Local Open Scope string_scope.
Local Open Scope Z_scope.

(** What a route answers. [Json status body] is
    [res.status(status).json(body)]; [Failed status error] is
    [res.status(status).json({ success: false, error: error.message })]
    for the caught [error]. *)
Inductive Reply : Type :=
| Json (status : Z) (body : value)
| Failed (status : Z) (error : exn).

(** [req.headers[name]] *)
Definition header (h : option string) : value :=
  match h with
  | Some s => JStr s
  | None => JUndefined
  end.

Section Routes.
Context {rt : Runtime} (env : Process.Env).

(** [router.post('/razorpay', ...)]. The read of [webhookData.event] is
    the argument of the first [logger.info]. *)
Definition post_razorpay (body : value) (x_razorpay_signature : option string) : Reply :=
  let webhookData := body in
  let webhookSignature := header x_razorpay_signature in
  match
    (_ <- get webhookData "event" ;;
     if negb (truthy webhookSignature) then
       Returned (Json 400 (JObj [("error", JStr "Missing signature")]))
     else
       result <- Razorpay.handleRazorpayWebhook env webhookData webhookSignature ;;
       valid <- get result "valid" ;;
       if negb (truthy valid) then
         message <- get result "message" ;;
         Returned (Json 400 (JObj [("error", message)]))
       else
         Returned (Json 200 (JObj [("success", JBool true);
                                   ("message", JStr "Webhook received");
                                   ("data", result)])))
  with
  | Returned reply => reply
  | Thrown error => Failed 200 error
  end.

(** [router.post('/phonepe', ...)], which calls the handler of the
    OAuth adapter with the body alone. *)
Definition post_phonepe (body : value) : Reply :=
  match PhonePeOAuth.handlePhonePeWebhook body with
  | Returned result => Json 200 (JObj [("success", JBool true); ("data", result)])
  | Thrown _ => Json 200 (JObj [("success", JBool false)])
  end.

End Routes.

Definition status_of (r : Reply) : Z :=
  match r with
  | Json status _ | Failed status _ => status
  end.

End WebhookRoutes.

(** ** Sample requests

    A gateway that accepts whatever it is sent and an order for 499
    rupees, for runs of the request functions. *)

Module Sandbox.
Import JS.
Local Open Scope string_scope.

Definition accepting : Http.Gateway :=
  fun _ => Returned (JObj [("success", JBool true)]).

Definition order : value :=
  JObj [("amount", JNum 499); ("orderId", JStr "ORD1");
        ("customer", JObj [("email", JStr "asha.k@example.com");
                           ("phone", JStr "9876543210")])].

End Sandbox.

(** * Properties *)

(** Discharges the first hypothesis of [H] with the tactic [t]. *)
Ltac side_condition H t :=
  match type of H with
  | ?S -> _ => let Hs := fresh in assert (Hs : S) by t; specialize (H Hs); clear Hs
  end.

(** ** Test vectors of the runtime *)

Example sha256_empty :
  SHA256.sha256_hex "" = "e3b0c44298fc1c149afbf4c8996fb92427ae41e4649b934ca495991b7852b855"%string.
Proof. vm_compute. reflexivity. Qed.

Example sha256_abc :
  SHA256.sha256_hex "abc" = "ba7816bf8f01cfea414140de5dae2223b00361a396177a9cb410ff61f20015ad"%string.
Proof. vm_compute. reflexivity. Qed.

Example sha256_two_blocks :
  SHA256.sha256_hex "abcdbcdecdefdefgefghfghighijhijkijkljklmklmnlmnomnopnopq"
  = "248d6a61d20638b8e5c026930c3e6039a33ce45964ff2167f6ecedd419db06c1"%string.
Proof. vm_compute. reflexivity. Qed.

Example hmac_rfc4231_case2 :
  SHA256.hmac_sha256_hex "Jefe" "what do ya want for nothing?"
  = "5bdcc146bf60754e6a042426089575c75a003f089d2739839dec58b964ec3843"%string.
Proof. vm_compute. reflexivity. Qed.

Example hmac_rfc4231_case6 :
  Bytes.hex_of_bytes
    (SHA256.hmac_sha256 (repeat 0xaa%Z 131)
       (Bytes.bytes_of_string "Test Using Larger Than Block-Size Key - Hash Key First"))
  = "60e431591ee0b67f0d8a26aacbf5b77f8e0bc6213728c5140546040f0ee37f54"%string.
Proof. vm_compute. reflexivity. Qed.

Example base64_encode_padding :
  map Base64.encode ["a"; "ab"; "abc"; "user:pass"]%string
  = ["YQ=="; "YWI="; "YWJj"; "dXNlcjpwYXNz"]%string.
Proof. vm_compute. reflexivity. Qed.

Example number_toString_samples :
  map Node.Number_toString
    [49900; 0.5; 1e21; 0x1.999999999999ap-4; 0x1.0b851eb851eb8p+0; 0x1.ad7f29abcaf48p-24]%float
  = ["49900"; "0.5"; "1e+21"; "0.1"; "1.045"; "1e-7"]%string.
Proof. vm_compute. reflexivity. Qed.

Example stringToNumber_samples :
  map Node.StringToNumber ["5"; " 12.5 "; "0x10"; "1e3"; ""]%string
  = [5; 12.5; 16; 1000; 0]%float
  /\ map (fun s => PrimFloat.is_nan (Node.StringToNumber s)) ["abc"; "12px"; "1e"]%string
     = [true; true; true].
Proof. split; vm_compute; reflexivity. Qed.

Example json_round_trip :
  option_map Node.JSON_stringify
    (Node.JSON_parse (Node.json " { 'b' : [1, 2.50, null, true], '1' : 'x\ny', 'b' : {} } "))
  = Some (Some (Node.json "{'1':'x\ny','b':{}}")).
Proof. vm_compute. reflexivity. Qed.

Example buffer_base64_samples :
  map (fun s => Node.Buffer_base64_utf8 (JS.JStr s))
    ["eyJzdGF0ZSI6IkNPTVBMRVRFRCJ9"; "YQ"; "YQ==YQ=="]%string
  = [Some (Node.json "{'state':'COMPLETED'}"); Some "a"; Some "a"]%string.
Proof. vm_compute. reflexivity. Qed.

Example math_round_samples :
  map JSMath.Math_round [104.5; 2.5; -2.5; 0x1.fffffffffffffp-2; -3.5; 7; 10.25; 10.75]%float
  = [105; 3; -2; 0; -3; 7; 10; 11]%float.
Proof. vm_compute. reflexivity. Qed.

(** ** Digests are 64 lowercase hexadecimal characters *)

Lemma hex_digit_lower (n : Z) :
  (0 <= n < 16)%Z -> Bytes.lower_hex (Bytes.hex_digit n) = true.
Proof.
  intros H.
  assert (forallb (fun k => Bytes.lower_hex (Bytes.hex_digit (Z.of_nat k))) (seq 0 16) = true)
    as Hall by reflexivity.
  rewrite forallb_forall in Hall.
  rewrite <- (Z2Nat.id n) by lia.
  apply Hall, in_seq. lia.
Qed.

Lemma hex_of_bytes_lower (l : list Z) :
  Bytes.all_lower_hex (Bytes.hex_of_bytes l) = true.
Proof.
  induction l as [| b l IH]; [reflexivity |].
  cbn [Bytes.hex_of_bytes Bytes.hex_byte String.append Bytes.all_lower_hex].
  rewrite !hex_digit_lower by (apply Z.mod_pos_bound; lia).
  exact IH.
Qed.

Lemma hex_of_bytes_length (l : list Z) :
  String.length (Bytes.hex_of_bytes l) = (2 * List.length l)%nat.
Proof.
  induction l as [| b l IH]; [reflexivity |].
  cbn [Bytes.hex_of_bytes Bytes.hex_byte String.append String.length List.length].
  rewrite IH. lia.
Qed.

Lemma sha256_length (msg : list Z) : List.length (SHA256.sha256 msg) = 32%nat.
Proof. reflexivity. Qed.

Lemma sha256_hex_format (s : string) :
  String.length (SHA256.sha256_hex s) = 64%nat
  /\ Bytes.all_lower_hex (SHA256.sha256_hex s) = true.
Proof.
  unfold SHA256.sha256_hex. split.
  - rewrite hex_of_bytes_length, sha256_length. reflexivity.
  - apply hex_of_bytes_lower.
Qed.

Lemma hmac_sha256_hex_format (key s : string) :
  String.length (SHA256.hmac_sha256_hex key s) = 64%nat
  /\ Bytes.all_lower_hex (SHA256.hmac_sha256_hex key s) = true.
Proof.
  unfold SHA256.hmac_sha256_hex, SHA256.hmac_sha256. split.
  - rewrite hex_of_bytes_length, sha256_length. reflexivity.
  - apply hex_of_bytes_lower.
Qed.

(** ** Razorpay payment signatures *)

Section RazorpaySignature.
Import JS.
Local Open Scope string_scope.
Context {rt : Runtime} (env : Process.Env).

Lemma verifyRazorpaySignature_strings
  (secret : string) (fields : list (string * value))
  (orderId paymentId signature : string) :
  Process.RAZORPAY_KEY_SECRET env = Some secret ->
  lookup "orderId" fields = JStr orderId ->
  lookup "paymentId" fields = JStr paymentId ->
  lookup "signature" fields = JStr signature ->
  Razorpay.verifyRazorpaySignature env (JObj fields)
  = Returned (String.eqb signature
                (SHA256.hmac_sha256_hex secret (orderId ++ "|" ++ paymentId))).
Proof.
  intros Hs Ho Hp Hg.
  unfold Razorpay.verifyRazorpaySignature, Crypto.createHmac_sha256_hex.
  cbn [get bind rethrow]. rewrite Ho, Hp, Hg, Hs.
  reflexivity.
Qed.

End RazorpaySignature.

(** C1. For string [orderId], [paymentId] and [signature] and a
    configured secret, [verifyRazorpaySignature] always returns a boolean,
    and it returns [true] exactly when [signature] is the HMAC-SHA256
    digest of ["{orderId}|{paymentId}"] under the secret, which is a text
    of 64 lowercase hexadecimal characters. *)
Theorem verifyRazorpaySignature_iff_hmac
  (rt : JS.Runtime) (env : Process.Env) (secret : string)
  (fields : list (string * JS.value)) (orderId paymentId signature : string) :
  Process.RAZORPAY_KEY_SECRET env = Some secret ->
  JS.lookup "orderId" fields = JS.JStr orderId ->
  JS.lookup "paymentId" fields = JS.JStr paymentId ->
  JS.lookup "signature" fields = JS.JStr signature ->
  let digest := SHA256.hmac_sha256_hex secret (orderId ++ "|" ++ paymentId) in
  (exists b, Razorpay.verifyRazorpaySignature env (JS.JObj fields) = JS.Returned b)
  /\ (Razorpay.verifyRazorpaySignature env (JS.JObj fields) = JS.Returned true
      <-> signature = digest)
  /\ String.length digest = 64%nat
  /\ Bytes.all_lower_hex digest = true.
Proof.
  intros Hs Ho Hp Hg digest.
  rewrite (verifyRazorpaySignature_strings env secret fields orderId paymentId signature)
    by assumption.
  fold digest.
  split; [eexists; reflexivity |].
  split.
  - split.
    + intros H. apply String.eqb_eq. congruence.
    + intros H. apply String.eqb_eq in H. rewrite H. reflexivity.
  - apply hmac_sha256_hex_format.
Qed.

(** The end-to-end scenario of C1: secret [s3cr3t], order [order_abc],
    payment [pay_xyz]. *)
Lemma verifyRazorpaySignature_scenario :
  Razorpay.verifyRazorpaySignature (rt := Node.runtime) (Scenario.env "1")
    (Scenario.params "order_abc" "pay_xyz"
       "ee21698235c31aef5bb049b86d1c00014db7de75dbe78cb4ed9ffa8e90855655")
  = JS.Returned true
  /\ Razorpay.verifyRazorpaySignature (rt := Node.runtime) (Scenario.env "1")
       (Scenario.params "order_abc" "pay_xyz" "0000")
     = JS.Returned false.
Proof.
  split.
  - apply (verifyRazorpaySignature_iff_hmac Node.runtime (Scenario.env "1") "s3cr3t"
             (Scenario.fields "order_abc" "pay_xyz"
                "ee21698235c31aef5bb049b86d1c00014db7de75dbe78cb4ed9ffa8e90855655")
             "order_abc" "pay_xyz" _ eq_refl eq_refl eq_refl eq_refl).
    vm_compute. reflexivity.
  - destruct (verifyRazorpaySignature_iff_hmac Node.runtime (Scenario.env "1") "s3cr3t"
                (Scenario.fields "order_abc" "pay_xyz" "0000")
                "order_abc" "pay_xyz" "0000" eq_refl eq_refl eq_refl eq_refl)
      as [[b Hb] [Hiff _]].
    unfold Scenario.params. rewrite Hb. destruct b; [| reflexivity].
    apply Hiff in Hb. vm_compute in Hb. discriminate Hb.
Defined.

(** ** The salt-based PhonePe signature *)

Lemma substring_prefix (a b : string) :
  String.substring 0 (String.length a) (a ++ b) = a.
Proof.
  induction a as [| c a IH]; cbn.
  - destruct b; reflexivity.
  - rewrite IH. reflexivity.
Qed.

Lemma length_append (a b : string) :
  String.length (a ++ b) = (String.length a + String.length b)%nat.
Proof. induction a as [| c a IH]; cbn; [reflexivity | rewrite IH; reflexivity]. Qed.

Lemma append_cancel_right (a b c : string) : (a ++ c = b ++ c)%string -> a = b.
Proof.
  revert b. induction a as [| x a IH]; intros [| y b] H; cbn in H.
  - reflexivity.
  - exfalso. apply (f_equal String.length) in H. cbn in H.
    rewrite length_append in H. lia.
  - exfalso. apply (f_equal String.length) in H. cbn in H.
    rewrite length_append in H. lia.
  - injection H as -> H. f_equal. apply IH, H.
Qed.

Lemma append_cancel_left (a b c : string) : (a ++ b = a ++ c)%string -> b = c.
Proof.
  induction a as [| x a IH]; cbn; intros H; [exact H |].
  injection H as H. apply IH, H.
Qed.

Section SaltSignature.
Import JS.
Local Open Scope string_scope.

Lemma generatePhonePeSignature_configured
  (env : Process.Env) (requestBody : option string) (saltKey : string) :
  Process.PHONEPE_SALT_KEY env = Some saltKey ->
  PhonePeSalt.generatePhonePeSignature env requestBody
  = Returned (SHA256.sha256_hex (text requestBody ++ saltKey) ++ "###"
              ++ PhonePeSalt.PHONEPE_SALT_INDEX env).
Proof.
  intros Hk. unfold PhonePeSalt.generatePhonePeSignature, PhonePeSalt.PHONEPE_SALT_KEY.
  rewrite Hk. destruct requestBody; reflexivity.
Qed.

Lemma hash_part_signature (message index : string) :
  PhonePeSalt.hash_part (SHA256.sha256_hex message ++ "###" ++ index)
  = SHA256.sha256_hex message.
Proof.
  unfold PhonePeSalt.hash_part.
  rewrite <- (proj1 (sha256_hex_format message)) at 1.
  apply substring_prefix.
Qed.

End SaltSignature.

(** C3, as amended. With salt key and salt index configured,
    [generatePhonePeSignature] returns the SHA-256 digest of
    [payload + saltKey] in 64 lowercase hexadecimal characters, then
    [###], then the salt index. The hash part is that digest: it is the
    same for every salt index, and a change of the payload or of the salt
    key changes the message that is hashed. *)
Theorem generatePhonePeSignature_format
  (env : Process.Env) (payload saltKey saltIndex : string) :
  Process.PHONEPE_SALT_KEY env = Some saltKey ->
  Process.PHONEPE_SALT_INDEX env = Some saltIndex ->
  saltIndex <> ""%string ->
  let digest := SHA256.sha256_hex (payload ++ saltKey) in
  PhonePeSalt.generatePhonePeSignature env (Some payload)
  = JS.Returned (digest ++ "###" ++ saltIndex)%string
  /\ PhonePeSalt.hash_part (digest ++ "###" ++ saltIndex) = digest
  /\ String.length digest = 64%nat
  /\ Bytes.all_lower_hex digest = true
  /\ (forall saltIndex' : string,
        PhonePeSalt.hash_part (digest ++ "###" ++ saltIndex') = digest)
  /\ (forall payload' : string,
        payload' <> payload -> (payload' ++ saltKey <> payload ++ saltKey)%string)
  /\ (forall saltKey' : string,
        saltKey' <> saltKey -> (payload ++ saltKey' <> payload ++ saltKey)%string).
Proof.
  intros Hk Hi Hne digest.
  split.
  - rewrite (generatePhonePeSignature_configured env (Some payload) saltKey Hk).
    unfold PhonePeSalt.PHONEPE_SALT_INDEX, JS.or_default. rewrite Hi.
    destruct (String.eqb_spec saltIndex ""); [contradiction | reflexivity].
  - split; [apply hash_part_signature |].
    split; [apply sha256_hex_format |].
    split; [apply sha256_hex_format |].
    split; [intros; apply hash_part_signature |].
    split.
    + intros payload' Hd E. apply Hd. exact (append_cancel_right _ _ _ E).
    + intros saltKey' Hd E. apply Hd. exact (append_cancel_left _ _ _ E).
Qed.

(** The end-to-end scenario of C3: payload [eyJhIjoxfQ==], salt key
    [SALT1], salt index [1]; and the digest after a change of the
    first byte of the payload. *)
Lemma generatePhonePeSignature_scenario :
  PhonePeSalt.generatePhonePeSignature (Scenario.env "1") (Some "eyJhIjoxfQ=="%string)
  = JS.Returned
      "617631c84ab8cb0c7d99dd7499b8e369d0cb561865d41145469b10ec7eb5707d###1"%string
  /\ SHA256.sha256_hex "fyJhIjoxfQ==SALT1"
     = "95598d21f688dce2a3b5b4b53efd1328d1f8273e3a27cd4b90f5f243553fe286"%string.
Proof.
  split.
  - assert ("1"%string <> ""%string) as Hne by discriminate.
    refine (eq_trans
              (proj1 (generatePhonePeSignature_format (Scenario.env "1")
                        "eyJhIjoxfQ==" "SALT1" "1" eq_refl eq_refl Hne)) _).
    vm_compute. reflexivity.
  - vm_compute. reflexivity.
Defined.

(** C3 as stated fails on the salt index: the signatures for index [1]
    and index [2] differ in an input byte and have the same hash part. *)
Lemma generatePhonePeSignature_index_counterexample :
  PhonePeSalt.generatePhonePeSignature (Scenario.env "1") (Some "eyJhIjoxfQ=="%string)
  = JS.Returned
      "617631c84ab8cb0c7d99dd7499b8e369d0cb561865d41145469b10ec7eb5707d###1"%string
  /\ PhonePeSalt.generatePhonePeSignature (Scenario.env "2") (Some "eyJhIjoxfQ=="%string)
     = JS.Returned
         "617631c84ab8cb0c7d99dd7499b8e369d0cb561865d41145469b10ec7eb5707d###2"%string
  /\ PhonePeSalt.hash_part
       "617631c84ab8cb0c7d99dd7499b8e369d0cb561865d41145469b10ec7eb5707d###1"
     = PhonePeSalt.hash_part
         "617631c84ab8cb0c7d99dd7499b8e369d0cb561865d41145469b10ec7eb5707d###2".
Proof. repeat split; vm_compute; reflexivity. Qed.

(** ** Property reads *)

Section Reads.
Import JS.

Lemma get_not_nullish (v : value) (k : string) :
  nullish v = false -> get v k = Returned (get_opt v k).
Proof. destruct v; cbn; intros H; try reflexivity; discriminate H. Qed.

Lemma get_nullish (v : value) (k : string) :
  nullish v = true -> get v k = Thrown TypeError.
Proof. destruct v; cbn; intros H; try reflexivity; discriminate H. Qed.

Lemma path_step (v : value) (k : string) (ks : list string) :
  path v (k :: ks) = bind (get v k) (fun v' => path v' ks).
Proof. reflexivity. Qed.

(** Reading one more property at the end of a path. *)
Lemma path_snoc (ks : list string) (k : string) (v : value) :
  path v (ks ++ [k]) = bind (path v ks) (fun e => get e k).
Proof.
  revert v. induction ks as [| k0 ks IH]; intros v; cbn [app path bind].
  - destruct (get v k); reflexivity.
  - destruct (get v k0) as [v0 | e]; cbn [bind]; [apply IH | reflexivity].
Qed.

Lemma path_entity (payload entity : value) (a b k : string) :
  path payload [a; b] = Returned entity ->
  nullish entity = false ->
  path payload [a; b; k] = Returned (get_opt entity k).
Proof.
  intros Hp Hn.
  change [a; b; k] with ([a; b] ++ [k]).
  rewrite path_snoc, Hp. cbn [bind]. apply get_not_nullish, Hn.
Qed.

Lemma is_string_true (v : value) (s : string) :
  is_string v s = true <-> v = JStr s.
Proof.
  destruct v; cbn; try (split; [discriminate | discriminate]).
  rewrite String.eqb_eq. split; [intros -> | intros [= ->]]; reflexivity.
Qed.

Lemma is_string_refl (s : string) : is_string (JStr s) s = true.
Proof. apply is_string_true. reflexivity. Qed.

End Reads.

(** ** The Razorpay webhook handler *)

Section RazorpayWebhook.
Import JS.
Local Open Scope string_scope.
Context {rt : Runtime} (env : Process.Env).

Lemma handleRazorpayWebhook_nullish (body signature : value) :
  nullish body = true ->
  Razorpay.handleRazorpayWebhook env body signature = Thrown TypeError.
Proof.
  intros H. unfold Razorpay.handleRazorpayWebhook.
  rewrite (get_nullish body "event" H). reflexivity.
Qed.

Lemma handleRazorpayWebhook_unconfigured (body signature : value) :
  Process.RAZORPAY_KEY_SECRET env = None ->
  Razorpay.handleRazorpayWebhook env body signature = Thrown TypeError.
Proof.
  intros H. unfold Razorpay.handleRazorpayWebhook, Crypto.createHmac_sha256_hex.
  rewrite H. destruct body; reflexivity.
Qed.

Variables (secret : string) (body signature : value) (text : string).
Hypothesis Hsecret : Process.RAZORPAY_KEY_SECRET env = Some secret.
Hypothesis Hbody : nullish body = false.
Hypothesis Htext : JSON_stringify body = Some text.

Let digest : string := SHA256.hmac_sha256_hex secret text.
Let event : value := get_opt body "event".
Let payload : value := get_opt body "payload".

(** The handler once the body is read and the digest computed. *)
Lemma handleRazorpayWebhook_digest :
  Razorpay.handleRazorpayWebhook env body signature
  = if negb (is_string signature digest) then Returned (JObj [("valid", JBool false); ("message", JStr "Invalid signature")])
    else
      if is_string event "payment.authorized" then
        bind (path payload ["payment"; "entity"; "id"]) (fun _ =>
        bind (path payload ["payment"; "entity"; "id"]) (fun paymentId =>
        Returned (JObj [("valid", JBool true); ("event", event);
                        ("paymentId", paymentId); ("status", JStr "success")])))
      else if is_string event "payment.failed" then
        bind (path payload ["payment"; "entity"; "id"]) (fun _ =>
        bind (path payload ["payment"; "entity"; "error_description"]) (fun _ =>
        bind (path payload ["payment"; "entity"; "id"]) (fun paymentId =>
        bind (path payload ["payment"; "entity"; "error_description"]) (fun reason =>
        Returned (JObj [("valid", JBool true); ("event", event);
                        ("paymentId", paymentId); ("status", JStr "failed");
                        ("reason", reason)])))))
      else if is_string event "payment.captured" then
        bind (path payload ["payment"; "entity"; "id"]) (fun _ =>
        bind (path payload ["payment"; "entity"; "id"]) (fun paymentId =>
        Returned (JObj [("valid", JBool true); ("event", event);
                        ("paymentId", paymentId); ("status", JStr "captured")])))
      else if is_string event "refund.created" then
        bind (path payload ["refund"; "entity"; "id"]) (fun _ =>
        bind (path payload ["refund"; "entity"; "payment_id"]) (fun _ =>
        bind (path payload ["refund"; "entity"; "id"]) (fun refundId =>
        Returned (JObj [("valid", JBool true); ("event", event);
                        ("refundId", refundId); ("status", JStr "refunded")]))))
      else
        Returned (JObj [("valid", JBool true); ("event", event);
                        ("processed", JBool false)]).
Proof.
  unfold Razorpay.handleRazorpayWebhook, Crypto.createHmac_sha256_hex.
  rewrite !(get_not_nullish body _ Hbody), Hsecret, Htext.
  cbn [bind rethrow]. fold digest event payload.
  destruct (negb (is_string signature digest)); [reflexivity |].
  repeat match goal with
         | |- context [if ?c then _ else _] => destruct c
         | |- context [path ?v ?ks] => destruct (path v ks); cbn [bind]
         end; reflexivity.
Qed.

Lemma handleRazorpayWebhook_mismatch :
  signature <> JStr digest ->
  Razorpay.handleRazorpayWebhook env body signature = Returned (JObj [("valid", JBool false); ("message", JStr "Invalid signature")]).
Proof.
  intros H. rewrite handleRazorpayWebhook_digest.
  destruct (is_string signature digest) eqn:E; [| reflexivity].
  apply is_string_true in E. contradiction.
Qed.

Lemma handleRazorpayWebhook_payment
  (name status : string) (entity : value) :
  signature = JStr digest ->
  event = JStr name ->
  (name = "payment.authorized" /\ status = "success"
   \/ name = "payment.captured" /\ status = "captured") ->
  path payload ["payment"; "entity"] = Returned entity ->
  nullish entity = false ->
  Razorpay.handleRazorpayWebhook env body signature
  = Returned (JObj [("valid", JBool true); ("event", JStr name);
                    ("paymentId", get_opt entity "id"); ("status", JStr status)]).
Proof.
  intros Hsig Hev Hname Hp Hn. rewrite handleRazorpayWebhook_digest, Hsig, Hev.
  rewrite is_string_refl. cbn [negb].
  rewrite !(path_entity payload entity "payment" "entity" _ Hp Hn).
  destruct Hname as [[-> ->] | [-> ->]]; reflexivity.
Qed.

Lemma handleRazorpayWebhook_failed (entity : value) :
  signature = JStr digest ->
  event = JStr "payment.failed" ->
  path payload ["payment"; "entity"] = Returned entity ->
  nullish entity = false ->
  Razorpay.handleRazorpayWebhook env body signature
  = Returned (JObj [("valid", JBool true); ("event", JStr "payment.failed");
                    ("paymentId", get_opt entity "id"); ("status", JStr "failed");
                    ("reason", get_opt entity "error_description")]).
Proof.
  intros Hsig Hev Hp Hn. rewrite handleRazorpayWebhook_digest, Hsig, Hev.
  rewrite is_string_refl. cbn [negb].
  rewrite !(path_entity payload entity "payment" "entity" _ Hp Hn).
  reflexivity.
Qed.

Lemma handleRazorpayWebhook_refund (entity : value) :
  signature = JStr digest ->
  event = JStr "refund.created" ->
  path payload ["refund"; "entity"] = Returned entity ->
  nullish entity = false ->
  Razorpay.handleRazorpayWebhook env body signature
  = Returned (JObj [("valid", JBool true); ("event", JStr "refund.created");
                    ("refundId", get_opt entity "id"); ("status", JStr "refunded")]).
Proof.
  intros Hsig Hev Hp Hn. rewrite handleRazorpayWebhook_digest, Hsig, Hev.
  rewrite is_string_refl. cbn [negb].
  rewrite !(path_entity payload entity "refund" "entity" _ Hp Hn).
  reflexivity.
Qed.

(** A known event whose entity is missing: the first read of the
    entity throws. *)
Lemma handleRazorpayWebhook_no_entity (name : string) (e : exn) :
  signature = JStr digest ->
  event = JStr name ->
  (name = "payment.authorized" \/ name = "payment.failed"
   \/ name = "payment.captured") ->
  path payload ["payment"; "entity"; "id"] = Thrown e ->
  Razorpay.handleRazorpayWebhook env body signature = Thrown e.
Proof.
  intros Hsig Hev Hname Hp. rewrite handleRazorpayWebhook_digest, Hsig, Hev.
  rewrite is_string_refl. cbn [negb]. rewrite Hp.
  destruct Hname as [-> | [-> | ->]]; reflexivity.
Qed.

Lemma handleRazorpayWebhook_unknown :
  signature = JStr digest ->
  is_string event "payment.authorized" = false ->
  is_string event "payment.failed" = false ->
  is_string event "payment.captured" = false ->
  is_string event "refund.created" = false ->
  Razorpay.handleRazorpayWebhook env body signature
  = Returned (JObj [("valid", JBool true); ("event", event); ("processed", JBool false)]).
Proof.
  intros Hsig H1 H2 H3 H4. rewrite handleRazorpayWebhook_digest, Hsig.
  rewrite is_string_refl, H1, H2, H3, H4. reflexivity.
Qed.

End RazorpayWebhook.

(** C8, as amended. For a configured secret and a body that is neither
    [null] nor [undefined], [handleRazorpayWebhook] returns
    [{valid: false, message: 'Invalid signature'}] when the signature is
    not the HMAC-SHA256 digest of the JSON text of the body. On a match,
    [payment.authorized], [payment.failed], [payment.captured] and
    [refund.created] give [valid: true] with status [success], [failed],
    [captured] and [refunded], provided the payload holds the payment
    (refund) entity; every other event gives [{valid: true, event,
    processed: false}]. For a [null] or [undefined] body the handler
    throws a TypeError whatever the signature. *)
Theorem handleRazorpayWebhook_events
  (rt : JS.Runtime) (env : Process.Env) (secret : string)
  (body signature : JS.value) (text : string) :
  Process.RAZORPAY_KEY_SECRET env = Some secret ->
  JS.nullish body = false ->
  JS.JSON_stringify body = Some text ->
  let digest := SHA256.hmac_sha256_hex secret text in
  let event := JS.get_opt body "event" in
  let payload := JS.get_opt body "payload" in
  let handled := Razorpay.handleRazorpayWebhook env body signature in
  (signature <> JS.JStr digest ->
   handled = JS.Returned (JS.JObj [("valid", JS.JBool false);
                                   ("message", JS.JStr "Invalid signature")]%string))
  /\ (signature = JS.JStr digest ->
      (forall entity : JS.value,
          JS.path payload ["payment"; "entity"]%string = JS.Returned entity ->
          JS.nullish entity = false ->
          (event = JS.JStr "payment.authorized" ->
           handled = JS.Returned
                       (JS.JObj [("valid", JS.JBool true);
                                 ("event", JS.JStr "payment.authorized");
                                 ("paymentId", JS.get_opt entity "id");
                                 ("status", JS.JStr "success")]%string))
          /\ (event = JS.JStr "payment.failed" ->
              handled = JS.Returned
                          (JS.JObj [("valid", JS.JBool true);
                                    ("event", JS.JStr "payment.failed");
                                    ("paymentId", JS.get_opt entity "id");
                                    ("status", JS.JStr "failed");
                                    ("reason", JS.get_opt entity "error_description")]%string))
          /\ (event = JS.JStr "payment.captured" ->
              handled = JS.Returned
                          (JS.JObj [("valid", JS.JBool true);
                                    ("event", JS.JStr "payment.captured");
                                    ("paymentId", JS.get_opt entity "id");
                                    ("status", JS.JStr "captured")]%string)))
      /\ (forall entity : JS.value,
             JS.path payload ["refund"; "entity"]%string = JS.Returned entity ->
             JS.nullish entity = false ->
             event = JS.JStr "refund.created" ->
             handled = JS.Returned
                         (JS.JObj [("valid", JS.JBool true);
                                   ("event", JS.JStr "refund.created");
                                   ("refundId", JS.get_opt entity "id");
                                   ("status", JS.JStr "refunded")]%string))
      /\ (JS.is_string event "payment.authorized" = false ->
          JS.is_string event "payment.failed" = false ->
          JS.is_string event "payment.captured" = false ->
          JS.is_string event "refund.created" = false ->
          handled = JS.Returned
                      (JS.JObj [("valid", JS.JBool true); ("event", event);
                                ("processed", JS.JBool false)]%string)))
  /\ (forall nothing signature' : JS.value,
         JS.nullish nothing = true ->
         Razorpay.handleRazorpayWebhook env nothing signature' = JS.Thrown JS.TypeError).
Proof.
  intros Hs Hb Ht digest event payload handled.
  split; [| split].
  - intros H. exact (handleRazorpayWebhook_mismatch env secret body signature text Hs Hb Ht H).
  - intros Hsig. split; [| split].
    + intros entity Hp Hn. split; [| split]; intros Hev.
      * apply (handleRazorpayWebhook_payment env secret body signature text Hs Hb Ht
                 "payment.authorized" "success" entity Hsig Hev); auto.
      * apply (handleRazorpayWebhook_failed env secret body signature text Hs Hb Ht
                 entity Hsig Hev); auto.
      * apply (handleRazorpayWebhook_payment env secret body signature text Hs Hb Ht
                 "payment.captured" "captured" entity Hsig Hev); auto.
    + intros entity Hp Hn Hev.
      apply (handleRazorpayWebhook_refund env secret body signature text Hs Hb Ht
               entity Hsig Hev); auto.
    + apply (handleRazorpayWebhook_unknown env secret body signature text Hs Hb Ht Hsig).
  - intros nothing signature'. apply handleRazorpayWebhook_nullish.
Qed.

(** C8 on the sample events: a captured payment with its signature, the
    same body with the signature [0000], and an event the handler does
    not know. *)
Lemma handleRazorpayWebhook_scenario :
  Razorpay.handleRazorpayWebhook (rt := Node.runtime) (Scenario.env "1")
    (Scenario.razorpay_event "payment.captured")
    (Scenario.razorpay_signature (Scenario.razorpay_event "payment.captured"))
  = JS.Returned (JS.JObj [("valid", JS.JBool true); ("event", JS.JStr "payment.captured");
                          ("paymentId", JS.JStr "pay_1");
                          ("status", JS.JStr "captured")]%string)
  /\ Razorpay.handleRazorpayWebhook (rt := Node.runtime) (Scenario.env "1")
       (Scenario.razorpay_event "payment.captured") (JS.JStr "0000")
     = JS.Returned (JS.JObj [("valid", JS.JBool false);
                             ("message", JS.JStr "Invalid signature")]%string)
  /\ Razorpay.handleRazorpayWebhook (rt := Node.runtime) (Scenario.env "1")
       (Scenario.razorpay_event "order.paid")
       (Scenario.razorpay_signature (Scenario.razorpay_event "order.paid"))
     = JS.Returned (JS.JObj [("valid", JS.JBool true); ("event", JS.JStr "order.paid");
                             ("processed", JS.JBool false)]%string).
Proof.
  split; [| split].
  - destruct (handleRazorpayWebhook_events Node.runtime (Scenario.env "1") "s3cr3t"
                (Scenario.razorpay_event "payment.captured")
                (Scenario.razorpay_signature (Scenario.razorpay_event "payment.captured"))
                (Scenario.text_of (Scenario.razorpay_event "payment.captured"))
                eq_refl eq_refl eq_refl) as (_ & Hmatch & _).
    destruct Hmatch as (Hpayment & _ & _); [vm_compute; reflexivity |].
    destruct (Hpayment Scenario.payment_entity eq_refl eq_refl) as (_ & _ & Hcaptured).
    exact (Hcaptured eq_refl).
  - destruct (handleRazorpayWebhook_events Node.runtime (Scenario.env "1") "s3cr3t"
                (Scenario.razorpay_event "payment.captured") (JS.JStr "0000")
                (Scenario.text_of (Scenario.razorpay_event "payment.captured"))
                eq_refl eq_refl eq_refl) as (Hmismatch & _ & _).
    apply Hmismatch. vm_compute. discriminate.
  - destruct (handleRazorpayWebhook_events Node.runtime (Scenario.env "1") "s3cr3t"
                (Scenario.razorpay_event "order.paid")
                (Scenario.razorpay_signature (Scenario.razorpay_event "order.paid"))
                (Scenario.text_of (Scenario.razorpay_event "order.paid"))
                eq_refl eq_refl eq_refl) as (_ & Hmatch & _).
    destruct Hmatch as (_ & _ & Hunknown); [vm_compute; reflexivity |].
    exact (Hunknown eq_refl eq_refl eq_refl eq_refl).
Defined.

(** C8 as stated fails on two inputs: a [null] body with a wrong
    signature makes the handler throw where the claim has it return
    [{valid: false}], and a correctly signed [payment.authorized]
    event without a payload throws where the claim has it return
    [valid: true]. *)
Lemma handleRazorpayWebhook_counterexample :
  Razorpay.handleRazorpayWebhook (rt := Node.runtime) (Scenario.env "1")
    JS.JNull (JS.JStr "0000")
  = JS.Thrown JS.TypeError
  /\ Razorpay.handleRazorpayWebhook (rt := Node.runtime) (Scenario.env "1")
       (Scenario.bare_event "payment.authorized")
       (Scenario.razorpay_signature (Scenario.bare_event "payment.authorized"))
     = JS.Thrown JS.TypeError.
Proof. split; vm_compute; reflexivity. Qed.

(** ** The salt-based PhonePe webhook handler *)

Section RemoveFirst.
Import JS.
Local Open Scope string_scope.

Lemma prefix_append (pat r : string) : String.prefix pat (pat ++ r) = true.
Proof.
  induction pat as [ | c pat IH]; cbn.
  - destruct r; reflexivity.
  - destruct (ascii_dec c c); [exact IH | contradiction].
Qed.

Lemma prefix_split (pat s : string) :
  String.prefix pat s = true -> exists r, s = pat ++ r.
Proof.
  revert s. induction pat as [ | c pat IH]; intros s H.
  - exists s. reflexivity.
  - destruct s as [ | d s]; cbn in H; [discriminate H | ].
    destruct (ascii_dec c d) as [-> | ]; [ | discriminate H].
    destruct (IH s H) as [r ->]. exists r. reflexivity.
Qed.

Lemma skip_append (pat r : string) : skip (String.length pat) (pat ++ r) = r.
Proof. induction pat as [ | c pat IH]; cbn; [destruct r; reflexivity | exact IH]. Qed.

Lemma first_or_none (pat s : string) :
  (exists a b, first_at pat a b s) \/ (forall a b, s <> a ++ pat ++ b).
Proof.
  induction s as [ | c s IH].
  - destruct (String.prefix pat "") eqn:Hp.
    + left. destruct (prefix_split pat "" Hp) as [r Hr].
      exists "", r. split; [exact Hr | intros; cbn; lia].
    + right. intros a b H. destruct a; [ | discriminate H].
      cbn in H. rewrite H, prefix_append in Hp. discriminate Hp.
  - destruct (String.prefix pat (String c s)) eqn:Hp.
    + left. destruct (prefix_split pat _ Hp) as [r Hr].
      exists "", r. split; [exact Hr | intros; cbn; lia].
    + assert (forall a b, String c s = a ++ pat ++ b ->
                          exists a', a = String c a' /\ s = a' ++ pat ++ b) as Hcons.
      { intros a b H. destruct a as [ | d a].
        - cbn in H. rewrite H, prefix_append in Hp. discriminate Hp.
        - cbn in H. injection H as -> ->. exists a. split; reflexivity. }
      destruct IH as [(a & b & Hs & Hmin) | Hnone].
      * left. exists (String c a), b. split; [cbn; rewrite Hs; reflexivity | ].
        intros a' b' H. destruct (Hcons a' b' H) as (a'' & -> & Hs').
        specialize (Hmin a'' b' Hs'). cbn. lia.
      * right. intros a b H. destruct (Hcons a b H) as (a' & _ & Hs').
        exact (Hnone a' b Hs').
Qed.

Lemma remove_first_unfold (pat s : string) :
  remove_first pat s
  = if String.prefix pat s then skip (String.length pat) s
    else match s with
         | EmptyString => EmptyString
         | String c s' => String c (remove_first pat s')
         end.
Proof. destruct s; reflexivity. Qed.

(** [s.replace(pat, '')] removes the first occurrence of [pat] and
    nothing else. *)
Lemma remove_first_at (pat a b s : string) :
  first_at pat a b s -> remove_first pat s = a ++ b.
Proof.
  revert s. induction a as [ | c a IH]; intros s [Hs Hmin]; subst s.
  - cbn [append]. rewrite remove_first_unfold, prefix_append. apply skip_append.
  - cbn [append]. rewrite remove_first_unfold.
    destruct (String.prefix pat (String c (a ++ pat ++ b))) eqn:Hp.
    + destruct (prefix_split pat _ Hp) as [r Hr].
      specialize (Hmin "" r Hr). cbn in Hmin. lia.
    + f_equal. apply IH. split; [reflexivity | ].
      intros a' b' H. specialize (Hmin (String c a') b').
      cbn in Hmin. rewrite H in Hmin. specialize (Hmin eq_refl). lia.
Qed.

Lemma remove_first_none (pat s : string) :
  (forall a b, s <> a ++ pat ++ b) -> remove_first pat s = s.
Proof.
  induction s as [ | c s IH]; intros Hnone; rewrite remove_first_unfold.
  - destruct (String.prefix pat "") eqn:Hp; [ | reflexivity].
    destruct (prefix_split pat _ Hp) as [r Hr]. elim (Hnone "" r). exact Hr.
  - destruct (String.prefix pat (String c s)) eqn:Hp.
    + destruct (prefix_split pat _ Hp) as [r Hr]. elim (Hnone "" r). exact Hr.
    + f_equal. apply IH. intros a b H. apply (Hnone (String c a) b).
      cbn. rewrite H. reflexivity.
Qed.

(** [providedAuth] computes the credentials of the header, and every
    string or absent header has credentials. *)
Lemma providedAuth_credentials (auth : value) (provided : string) :
  PhonePeSalt.credentials auth provided ->
  PhonePeSalt.providedAuth auth = Returned provided.
Proof.
  intros H. destruct H as [ | | a b Hmin | header Hnone]; cbn [PhonePeSalt.providedAuth];
    try reflexivity; f_equal.
  - apply remove_first_at. split; [reflexivity | exact Hmin].
  - apply remove_first_none. exact Hnone.
Qed.

Lemma credentials_total (header : string) :
  exists provided, PhonePeSalt.credentials (JStr header) provided.
Proof.
  destruct (first_or_none "Basic " header) as [(a & b & -> & Hmin) | Hnone].
  - exists (a ++ b). constructor. exact Hmin.
  - exists header. constructor. exact Hnone.
Qed.

End RemoveFirst.

Section SaltSignatureText.
Import JS.
Local Open Scope string_scope.
Context {rt : Runtime} (env : Process.Env).

(** An unset salt key and an [undefined] request body are concatenated
    as the text [undefined]; two of them make no text. *)
Lemma generatePhonePeSignature_text (requestBody : option string) :
  requestBody <> None \/ Process.PHONEPE_SALT_KEY env <> None ->
  PhonePeSalt.generatePhonePeSignature env requestBody
  = Returned (SHA256.sha256_hex (text requestBody ++ text (Process.PHONEPE_SALT_KEY env))
              ++ "###" ++ PhonePeSalt.PHONEPE_SALT_INDEX env).
Proof.
  intros H. unfold PhonePeSalt.generatePhonePeSignature, PhonePeSalt.PHONEPE_SALT_KEY.
  destruct requestBody, (Process.PHONEPE_SALT_KEY env); try reflexivity.
  destruct H as [H | H]; contradiction.
Qed.

Lemma generatePhonePeSignature_undefined :
  Process.PHONEPE_SALT_KEY env = None ->
  PhonePeSalt.generatePhonePeSignature env None = Thrown TypeError.
Proof.
  intros H. unfold PhonePeSalt.generatePhonePeSignature, PhonePeSalt.PHONEPE_SALT_KEY.
  rewrite H. reflexivity.
Qed.

End SaltSignatureText.

Section PhonePeSaltWebhook.
Import JS.
Local Open Scope string_scope.
Context {rt : Runtime} (env : Process.Env).
Variables (body xVerify auth : value).

Lemma handlePhonePeWebhook_header_throws (e : exn) :
  PhonePeSalt.providedAuth auth = Thrown e ->
  PhonePeSalt.handlePhonePeWebhook env body xVerify auth = Thrown e.
Proof.
  intros H. unfold PhonePeSalt.handlePhonePeWebhook. rewrite H. reflexivity.
Qed.

Lemma handlePhonePeWebhook_authentication (provided : string) :
  PhonePeSalt.providedAuth auth = Returned provided ->
  provided <> PhonePeSalt.expectedAuth env ->
  PhonePeSalt.handlePhonePeWebhook env body xVerify auth
  = Returned (JObj [("valid", JBool false); ("message", JStr "Invalid authentication")]).
Proof.
  intros H Hne. unfold PhonePeSalt.handlePhonePeWebhook. rewrite H. cbn [bind].
  destruct (String.eqb_spec provided (PhonePeSalt.expectedAuth env)); [contradiction |].
  reflexivity.
Qed.

Hypothesis Hauth : PhonePeSalt.providedAuth auth = Returned (PhonePeSalt.expectedAuth env).

(** The handler once the Basic-Auth check has passed. *)
Lemma handlePhonePeWebhook_authenticated :
  PhonePeSalt.handlePhonePeWebhook env body xVerify auth
  = bind (PhonePeSalt.verifyPhonePeSignature env (JSON_stringify body) xVerify)
      (fun isValidSignature =>
         if negb isValidSignature then
           Returned (JObj [("valid", JBool false); ("message", JStr "Invalid signature")])
         else
           bind (get body "data") (fun data =>
           bind (PhonePeSalt.responseData data) (fun response =>
           bind (get response "merchantTransactionId") (fun transactionId =>
           bind (get response "state") (fun state =>
           bind (get response "responseCode") (fun responseCode =>
           bind (get response "amount") (fun amount =>
           bind (get response "transactionDate") (fun transactionDate =>
           Returned (JObj [("valid", JBool true); ("transactionId", transactionId);
                           ("status", state); ("responseCode", responseCode);
                           ("amount", amount); ("timestamp", transactionDate);
                           ("success", JBool (is_string state "COMPLETED"))]))))))))).
Proof.
  unfold PhonePeSalt.handlePhonePeWebhook. rewrite Hauth. cbn [bind].
  rewrite String.eqb_refl. cbn [negb].
  match goal with |- rethrow ?m = _ => destruct m; reflexivity end.
Qed.

(** Neither the body text nor the salt key: [Hash.update] rejects the
    sum of two [undefined]. *)
Lemma handlePhonePeWebhook_unsignable :
  JSON_stringify body = None -> Process.PHONEPE_SALT_KEY env = None ->
  PhonePeSalt.handlePhonePeWebhook env body xVerify auth = Thrown TypeError.
Proof.
  intros Hb Hk. rewrite handlePhonePeWebhook_authenticated.
  unfold PhonePeSalt.verifyPhonePeSignature.
  rewrite Hb, (generatePhonePeSignature_undefined env Hk). reflexivity.
Qed.

Hypothesis Hsignable : JSON_stringify body <> None \/ Process.PHONEPE_SALT_KEY env <> None.

Let signature : string :=
  SHA256.sha256_hex (text (JSON_stringify body) ++ text (Process.PHONEPE_SALT_KEY env))
  ++ "###" ++ PhonePeSalt.PHONEPE_SALT_INDEX env.

Lemma verifyPhonePeSignature_text :
  PhonePeSalt.verifyPhonePeSignature env (JSON_stringify body) xVerify
  = Returned (is_string xVerify signature).
Proof.
  unfold PhonePeSalt.verifyPhonePeSignature.
  rewrite (generatePhonePeSignature_text env _ Hsignable). reflexivity.
Qed.

Lemma handlePhonePeWebhook_signature :
  xVerify <> JStr signature ->
  PhonePeSalt.handlePhonePeWebhook env body xVerify auth
  = Returned (JObj [("valid", JBool false); ("message", JStr "Invalid signature")]).
Proof.
  intros Hne. rewrite handlePhonePeWebhook_authenticated, verifyPhonePeSignature_text.
  cbn [bind]. destruct (is_string xVerify signature) eqn:E; [| reflexivity].
  apply is_string_true in E. contradiction.
Qed.

Hypothesis Hverify : xVerify = JStr signature.

(** The handler once both checks have passed. *)
Lemma handlePhonePeWebhook_verified :
  PhonePeSalt.handlePhonePeWebhook env body xVerify auth
  = bind (get body "data") (fun data =>
    bind (PhonePeSalt.responseData data) (fun response =>
    bind (get response "merchantTransactionId") (fun transactionId =>
    bind (get response "state") (fun state =>
    bind (get response "responseCode") (fun responseCode =>
    bind (get response "amount") (fun amount =>
    bind (get response "transactionDate") (fun transactionDate =>
    Returned (JObj [("valid", JBool true); ("transactionId", transactionId);
                    ("status", state); ("responseCode", responseCode);
                    ("amount", amount); ("timestamp", transactionDate);
                    ("success", JBool (is_string state "COMPLETED"))])))))))).
Proof.
  rewrite handlePhonePeWebhook_authenticated, verifyPhonePeSignature_text.
  rewrite Hverify, is_string_refl. reflexivity.
Qed.

Lemma handlePhonePeWebhook_accepted (data response : value) :
  get body "data" = Returned data ->
  PhonePeSalt.responseData data = Returned response ->
  nullish response = false ->
  PhonePeSalt.handlePhonePeWebhook env body xVerify auth
  = Returned (JObj [("valid", JBool true);
                    ("transactionId", get_opt response "merchantTransactionId");
                    ("status", get_opt response "state");
                    ("responseCode", get_opt response "responseCode");
                    ("amount", get_opt response "amount");
                    ("timestamp", get_opt response "transactionDate");
                    ("success", JBool (is_string (get_opt response "state") "COMPLETED"))]).
Proof.
  intros Hd Hr Hn. rewrite handlePhonePeWebhook_verified, Hd. cbn [bind].
  rewrite Hr. cbn [bind]. rewrite !(get_not_nullish response _ Hn). reflexivity.
Qed.

Lemma handlePhonePeWebhook_no_body :
  nullish body = true ->
  PhonePeSalt.handlePhonePeWebhook env body xVerify auth = Thrown TypeError.
Proof.
  intros Hn. rewrite handlePhonePeWebhook_verified, (get_nullish body _ Hn). reflexivity.
Qed.

Lemma handlePhonePeWebhook_no_data :
  nullish (get_opt body "data") = true ->
  PhonePeSalt.handlePhonePeWebhook env body xVerify auth = Thrown TypeError.
Proof.
  intros Hn. rewrite handlePhonePeWebhook_verified.
  destruct (nullish body) eqn:Hb.
  - rewrite (get_nullish body _ Hb). reflexivity.
  - rewrite (get_not_nullish body _ Hb). cbn [bind].
    unfold PhonePeSalt.responseData. rewrite (get_nullish _ "response" Hn). reflexivity.
Qed.

Lemma handlePhonePeWebhook_no_response (data response : value) :
  get body "data" = Returned data ->
  PhonePeSalt.responseData data = Returned response ->
  nullish response = true ->
  PhonePeSalt.handlePhonePeWebhook env body xVerify auth = Thrown TypeError.
Proof.
  intros Hd Hr Hn. rewrite handlePhonePeWebhook_verified, Hd. cbn [bind].
  rewrite Hr. cbn [bind]. rewrite (get_nullish response _ Hn). reflexivity.
Qed.

End PhonePeSaltWebhook.

Section ResponseData.
Import JS.
Local Open Scope string_scope.
Context {rt : Runtime}.

(** The nested response is the decoded JSON when decoding succeeds and
    the raw field when it fails. *)
Lemma responseData_decoded (data response : value) :
  nullish data = false ->
  PhonePeSalt.decode (get_opt data "response") = Returned response ->
  PhonePeSalt.responseData data = Returned response.
Proof.
  intros Hn Hd. unfold PhonePeSalt.responseData.
  rewrite (get_not_nullish data _ Hn). cbn [bind]. rewrite Hd. reflexivity.
Qed.

Lemma responseData_fallback (data : value) (e : exn) :
  nullish data = false ->
  PhonePeSalt.decode (get_opt data "response") = Thrown e ->
  PhonePeSalt.responseData data = Returned (get_opt data "response").
Proof.
  intros Hn Hd. unfold PhonePeSalt.responseData.
  rewrite (get_not_nullish data _ Hn). cbn [bind]. rewrite Hd. reflexivity.
Qed.

End ResponseData.

(** C4, as amended. For every body and every header pair whose
    Basic-Auth header is a string or absent, the salt-based
    [handlePhonePeWebhook] checks in this order. (1) The credentials of
    the header (the header without its first ["Basic "], the whole
    header when it has none, the empty text when it is absent) must be
    base64("{user}:{pass}"), else the result is [{valid: false, message:
    'Invalid authentication'}]. (2) The X-VERIFY header must be the
    SHA-256 of JSON.stringify(body) + saltKey, then [###] and the salt
    index, where an unset variable and an [undefined] body text read
    [undefined]; else the result is [{valid: false, message: 'Invalid
    signature'}], and with the text and the key both [undefined] the
    handler throws a TypeError. (3) After both checks, when the body
    has a [data] and its [response] decodes to (or, when decoding
    throws, is) a value other than [null] and [undefined], the result
    has [valid: true] and [success] is [true] exactly when the state of
    that value is ["COMPLETED"]; when the body, its [data] or that
    value is [null] or [undefined] the handler throws a TypeError. *)
Theorem handlePhonePeWebhook_two_stage
  (rt : JS.Runtime) (env : Process.Env) (body xVerify auth : JS.value)
  (provided : string) :
  PhonePeSalt.credentials auth provided ->
  let expected :=
    Base64.encode (JS.text (Process.PHONEPE_WEBHOOK_USER env) ++ ":" ++
                   JS.text (Process.PHONEPE_WEBHOOK_PASS env)) in
  let signature :=
    (SHA256.sha256_hex (JS.text (JS.JSON_stringify body)
                        ++ JS.text (Process.PHONEPE_SALT_KEY env))
     ++ "###" ++ PhonePeSalt.PHONEPE_SALT_INDEX env)%string in
  let signable :=
    JS.JSON_stringify body <> None \/ Process.PHONEPE_SALT_KEY env <> None in
  let handled := PhonePeSalt.handlePhonePeWebhook env body xVerify auth in
  (provided <> expected ->
   handled = JS.Returned (JS.JObj [("valid", JS.JBool false);
                                   ("message", JS.JStr "Invalid authentication")]%string))
  /\ (provided = expected -> ~ signable -> handled = JS.Thrown JS.TypeError)
  /\ (provided = expected -> signable -> xVerify <> JS.JStr signature ->
      handled = JS.Returned (JS.JObj [("valid", JS.JBool false);
                                      ("message", JS.JStr "Invalid signature")]%string))
  /\ (provided = expected -> signable -> xVerify = JS.JStr signature ->
      forall data response : JS.value,
        JS.get body "data" = JS.Returned data ->
        JS.nullish data = false ->
        PhonePeSalt.decode (JS.get_opt data "response") = JS.Returned response
        \/ (exists e, PhonePeSalt.decode (JS.get_opt data "response") = JS.Thrown e)
           /\ response = JS.get_opt data "response" ->
        (JS.nullish response = false ->
         handled
         = JS.Returned
             (JS.JObj [("valid", JS.JBool true);
                       ("transactionId", JS.get_opt response "merchantTransactionId");
                       ("status", JS.get_opt response "state");
                       ("responseCode", JS.get_opt response "responseCode");
                       ("amount", JS.get_opt response "amount");
                       ("timestamp", JS.get_opt response "transactionDate");
                       ("success",
                        JS.JBool (JS.is_string (JS.get_opt response "state") "COMPLETED"))]%string)
         /\ (JS.is_string (JS.get_opt response "state") "COMPLETED" = true
             <-> JS.get_opt response "state" = JS.JStr "COMPLETED"))
        /\ (JS.nullish response = true -> handled = JS.Thrown JS.TypeError))
  /\ (provided = expected -> signable -> xVerify = JS.JStr signature ->
      JS.nullish body = true \/ JS.nullish (JS.get_opt body "data") = true ->
      handled = JS.Thrown JS.TypeError)
  /\ (forall header : string, exists p : string, PhonePeSalt.credentials (JS.JStr header) p).
Proof.
  intros Hc expected signature signable handled.
  pose proof (providedAuth_credentials auth provided Hc) as Hp.
  split; [| split; [| split; [| split; [| split]]]].
  - intros Hne. exact (handlePhonePeWebhook_authentication env body xVerify auth provided Hp Hne).
  - intros -> Hno. unfold signable in Hno.
    apply (handlePhonePeWebhook_unsignable env body xVerify auth Hp).
    + destruct (JS.JSON_stringify body); [ | reflexivity].
      elim Hno. left. discriminate.
    + destruct (Process.PHONEPE_SALT_KEY env); [ | reflexivity].
      elim Hno. right. discriminate.
  - intros -> Hs Hne.
    exact (handlePhonePeWebhook_signature env body xVerify auth Hp Hs Hne).
  - intros -> Hs Hv data response Hd Hn Hdec.
    assert (PhonePeSalt.responseData data = JS.Returned response) as Hr.
    { destruct Hdec as [Hdec | [[e Hdec] ->]].
      - exact (responseData_decoded data response Hn Hdec).
      - exact (responseData_fallback data e Hn Hdec). }
    split.
    + intros Hnr. split; [| apply is_string_true].
      exact (handlePhonePeWebhook_accepted env body xVerify auth Hp Hs Hv data response
               Hd Hr Hnr).
    + intros Hnr.
      exact (handlePhonePeWebhook_no_response env body xVerify auth Hp Hs Hv data response
               Hd Hr Hnr).
  - intros -> Hs Hv [Hn | Hn].
    + exact (handlePhonePeWebhook_no_body env body xVerify auth Hp Hs Hv Hn).
    + exact (handlePhonePeWebhook_no_data env body xVerify auth Hp Hs Hv Hn).
  - apply credentials_total.
Qed.

(** C4 on sample callbacks with credentials [user:pass] and salt
    [SALT1]: a completed and a pending transaction, both correctly
    authenticated and signed; a wrong password; a missing X-VERIFY; a
    header that carries the scheme after other text. *)
Lemma handlePhonePeWebhook_scenario :
  PhonePeSalt.handlePhonePeWebhook (rt := Node.runtime) (Scenario.env "1")
    (Scenario.phonepe_callback Scenario.completed)
    (Scenario.x_verify (Scenario.phonepe_callback Scenario.completed))
    (JS.JStr "Basic dXNlcjpwYXNz")
  = JS.Returned
      (JS.JObj [("valid", JS.JBool true); ("transactionId", JS.JStr "TXN_M1_1");
                ("status", JS.JStr "COMPLETED"); ("responseCode", JS.JStr "SUCCESS");
                ("amount", JS.JNum 49900); ("timestamp", JS.JStr "2024-01-01");
                ("success", JS.JBool true)]%string)
  /\ PhonePeSalt.handlePhonePeWebhook (rt := Node.runtime) (Scenario.env "1")
       (Scenario.phonepe_callback Scenario.pending)
       (Scenario.x_verify (Scenario.phonepe_callback Scenario.pending))
       (JS.JStr "Basic dXNlcjpwYXNz")
     = JS.Returned
         (JS.JObj [("valid", JS.JBool true); ("transactionId", JS.JStr "TXN_M1_2");
                   ("status", JS.JStr "PENDING"); ("responseCode", JS.JUndefined);
                   ("amount", JS.JUndefined); ("timestamp", JS.JUndefined);
                   ("success", JS.JBool false)]%string)
  /\ PhonePeSalt.handlePhonePeWebhook (rt := Node.runtime) (Scenario.env "1")
       (Scenario.phonepe_callback Scenario.completed)
       (Scenario.x_verify (Scenario.phonepe_callback Scenario.completed))
       (JS.JStr "Basic dXNlcjp3cm9uZw==")
     = JS.Returned (JS.JObj [("valid", JS.JBool false);
                             ("message", JS.JStr "Invalid authentication")]%string)
  /\ PhonePeSalt.handlePhonePeWebhook (rt := Node.runtime) (Scenario.env "1")
       (Scenario.phonepe_callback Scenario.completed) JS.JUndefined
       (JS.JStr "Basic dXNlcjpwYXNz")
     = JS.Returned (JS.JObj [("valid", JS.JBool false);
                             ("message", JS.JStr "Invalid signature")]%string)
  /\ PhonePeSalt.handlePhonePeWebhook (rt := Node.runtime) (Scenario.env "1")
       (Scenario.phonepe_callback Scenario.completed) JS.JUndefined
       (JS.JStr "dXNlcjpwBasic YXNz")
     = JS.Returned (JS.JObj [("valid", JS.JBool false);
                             ("message", JS.JStr "Invalid signature")]%string).
Proof.
  assert (forall b : string,
             PhonePeSalt.credentials (JS.JStr ("" ++ "Basic " ++ b)) ("" ++ b))%string
    as Hbasic.
  { intros b. constructor. intros a' b' _. cbn. lia. }
  assert (PhonePeSalt.credentials (JS.JStr ("dXNlcjpw" ++ "Basic " ++ "YXNz"))
            ("dXNlcjpw" ++ "YXNz"))%string as Hlate.
  { constructor. intros a' b' H.
    do 8 (destruct a' as [ | ? a']; [discriminate H | cbn in H; injection H as _ H]).
    cbn. lia. }
  split; [| split; [| split; [| split]]].
  - destruct (handlePhonePeWebhook_two_stage Node.runtime (Scenario.env "1")
                (Scenario.phonepe_callback Scenario.completed)
                (Scenario.x_verify (Scenario.phonepe_callback Scenario.completed))
                (JS.JStr "Basic dXNlcjpwYXNz") "dXNlcjpwYXNz"%string
                (Hbasic "dXNlcjpwYXNz"%string))
      as (_ & _ & _ & Haccept & _).
    specialize (Haccept eq_refl). side_condition Haccept ltac:(right; discriminate).
    side_condition Haccept ltac:(vm_compute; reflexivity).
    refine (eq_trans
              (proj1 (proj1 (Haccept _ _ eq_refl eq_refl (or_introl eq_refl)) _)) _);
      vm_compute; reflexivity.
  - destruct (handlePhonePeWebhook_two_stage Node.runtime (Scenario.env "1")
                (Scenario.phonepe_callback Scenario.pending)
                (Scenario.x_verify (Scenario.phonepe_callback Scenario.pending))
                (JS.JStr "Basic dXNlcjpwYXNz") "dXNlcjpwYXNz"%string
                (Hbasic "dXNlcjpwYXNz"%string))
      as (_ & _ & _ & Haccept & _).
    specialize (Haccept eq_refl). side_condition Haccept ltac:(right; discriminate).
    side_condition Haccept ltac:(vm_compute; reflexivity).
    refine (eq_trans
              (proj1 (proj1 (Haccept _ _ eq_refl eq_refl (or_introl eq_refl)) _)) _);
      vm_compute; reflexivity.
  - destruct (handlePhonePeWebhook_two_stage Node.runtime (Scenario.env "1")
                (Scenario.phonepe_callback Scenario.completed)
                (Scenario.x_verify (Scenario.phonepe_callback Scenario.completed))
                (JS.JStr "Basic dXNlcjp3cm9uZw==") "dXNlcjp3cm9uZw=="%string
                (Hbasic "dXNlcjp3cm9uZw=="%string))
      as (Hauth & _).
    apply Hauth. vm_compute. discriminate.
  - destruct (handlePhonePeWebhook_two_stage Node.runtime (Scenario.env "1")
                (Scenario.phonepe_callback Scenario.completed) JS.JUndefined
                (JS.JStr "Basic dXNlcjpwYXNz") "dXNlcjpwYXNz"%string
                (Hbasic "dXNlcjpwYXNz"%string))
      as (_ & _ & Hsig & _).
    specialize (Hsig eq_refl). side_condition Hsig ltac:(right; discriminate).
    apply Hsig. discriminate.
  - destruct (handlePhonePeWebhook_two_stage Node.runtime (Scenario.env "1")
                (Scenario.phonepe_callback Scenario.completed) JS.JUndefined
                (JS.JStr "dXNlcjpwBasic YXNz") "dXNlcjpwYXNz"%string Hlate)
      as (_ & _ & Hsig & _).
    specialize (Hsig eq_refl). side_condition Hsig ltac:(right; discriminate).
    apply Hsig. discriminate.
Defined.

(** C4 as stated fails once both checks have passed: a body without
    [data], and a body whose [data.response] is the base64 text of
    [null], are correctly authenticated and signed, and the handler
    throws a TypeError instead of returning a result. *)
Lemma handlePhonePeWebhook_counterexample :
  PhonePeSalt.handlePhonePeWebhook (rt := Node.runtime) (Scenario.env "1")
    (JS.JObj []) (Scenario.x_verify (JS.JObj [])) (JS.JStr "Basic dXNlcjpwYXNz")
  = JS.Thrown JS.TypeError
  /\ Scenario.x_verify (JS.JObj [])
     = JS.JStr (SHA256.sha256_hex "{}SALT1" ++ "###1")%string
  /\ Base64.encode "null" = "bnVsbA=="%string
  /\ PhonePeSalt.handlePhonePeWebhook (rt := Node.runtime) (Scenario.env "1")
       (Scenario.phonepe_callback "null")
       (Scenario.x_verify (Scenario.phonepe_callback "null"))
       (JS.JStr "Basic dXNlcjpwYXNz")
     = JS.Thrown JS.TypeError.
Proof. repeat split; vm_compute; reflexivity. Qed.

(** ** The OAuth PhonePe webhook handler *)

Section PhonePeOAuthWebhook.
Import JS.
Local Open Scope string_scope.

Lemma truthy_not_nullish (v : value) : truthy v = true -> nullish v = false.
Proof. destruct v; cbn; intros H; try reflexivity; discriminate H. Qed.

Lemma handlePhonePeWebhook_truthy (body : value) :
  PhonePeOAuth.handlePhonePeWebhook body
  = Returned
      (if truthy body && truthy (get_opt body "data") then
         JObj [("processed", JBool true);
               ("orderId", get_opt (get_opt body "data") "merchantOrderId");
               ("status", get_opt (get_opt body "data") "state");
               ("amount", get_opt (get_opt body "data") "amount");
               ("success", get_opt body "success")]
       else
         JObj [("processed", JBool false); ("message", JStr "Invalid webhook format")]).
Proof.
  unfold PhonePeOAuth.handlePhonePeWebhook.
  destruct (truthy body) eqn:Hb; cbn [negb orb andb].
  - rewrite !(get_not_nullish body _ (truthy_not_nullish body Hb)). cbn [bind rethrow].
    destruct (truthy (get_opt body "data")); reflexivity.
  - reflexivity.
Qed.

End PhonePeOAuthWebhook.

(** C7, as amended. The OAuth [handlePhonePeWebhook] takes the body
    alone and checks no signature or credential. When the body and its
    [data] field are both truthy the result is [processed: true] with
    [data.merchantOrderId], [data.state], [data.amount] and the body's
    [success] as they come; in every other case (a [null], [undefined]
    or otherwise falsy body, a [data] that is missing, [null], [0],
    [false] or the empty text) it is [{processed: false, message:
    'Invalid webhook format'}]. *)
Theorem handlePhonePeWebhook_trusts_data (body : JS.value) :
  let data := JS.get_opt body "data" in
  let handled := PhonePeOAuth.handlePhonePeWebhook body in
  (JS.truthy body = true -> JS.truthy data = true ->
   handled = JS.Returned
               (JS.JObj [("processed", JS.JBool true);
                         ("orderId", JS.get_opt data "merchantOrderId");
                         ("status", JS.get_opt data "state");
                         ("amount", JS.get_opt data "amount");
                         ("success", JS.get_opt body "success")]%string))
  /\ (JS.truthy body = false \/ JS.truthy data = false ->
      handled = JS.Returned
                  (JS.JObj [("processed", JS.JBool false);
                            ("message", JS.JStr "Invalid webhook format")]%string))
  /\ (JS.nullish body = true -> JS.truthy body = false)
  /\ (JS.nullish data = true -> JS.truthy data = false).
Proof.
  intros data handled. unfold handled. rewrite handlePhonePeWebhook_truthy. fold data.
  split; [| split; [| split]].
  - intros -> ->. reflexivity.
  - intros [-> | ->]; [reflexivity |]. rewrite Bool.andb_false_r. reflexivity.
  - destruct body; cbn; intros H; try reflexivity; discriminate H.
  - destruct data; cbn; intros H; try reflexivity; discriminate H.
Qed.

(** C7 on sample callbacks: a payment notification, a body without
    [data], and a [null] body. *)
Lemma handlePhonePeWebhook_oauth_scenario :
  PhonePeOAuth.handlePhonePeWebhook (Scenario.oauth_callback Scenario.oauth_order)
  = JS.Returned
      (JS.JObj [("processed", JS.JBool true); ("orderId", JS.JStr "ORD1");
                ("status", JS.JStr "COMPLETED"); ("amount", JS.JNum 49900);
                ("success", JS.JBool true)]%string)
  /\ PhonePeOAuth.handlePhonePeWebhook (JS.JObj [("success"%string, JS.JBool true)])
     = JS.Returned (JS.JObj [("processed", JS.JBool false);
                             ("message", JS.JStr "Invalid webhook format")]%string)
  /\ PhonePeOAuth.handlePhonePeWebhook JS.JNull
     = JS.Returned (JS.JObj [("processed", JS.JBool false);
                             ("message", JS.JStr "Invalid webhook format")]%string).
Proof.
  split; [| split].
  - exact (proj1 (handlePhonePeWebhook_trusts_data
                    (Scenario.oauth_callback Scenario.oauth_order)) eq_refl eq_refl).
  - exact (proj1 (proj2 (handlePhonePeWebhook_trusts_data
                           (JS.JObj [("success"%string, JS.JBool true)])))
                 (or_intror eq_refl)).
  - exact (proj1 (proj2 (handlePhonePeWebhook_trusts_data JS.JNull)) (or_introl eq_refl)).
Defined.

(** C7 as stated fails on bodies that are not [null] and do contain a
    [data] field whose value is falsy: they are answered with
    [processed: false]. *)
Lemma handlePhonePeWebhook_oauth_counterexample :
  JS.lookup "data" [("success"%string, JS.JBool true); ("data"%string, JS.JStr "")]
  = JS.JStr ""
  /\ PhonePeOAuth.handlePhonePeWebhook (Scenario.oauth_callback (JS.JStr ""))
     = JS.Returned (JS.JObj [("processed", JS.JBool false);
                             ("message", JS.JStr "Invalid webhook format")]%string)
  /\ PhonePeOAuth.handlePhonePeWebhook (Scenario.oauth_callback (JS.JNum 0))
     = JS.Returned (JS.JObj [("processed", JS.JBool false);
                             ("message", JS.JStr "Invalid webhook format")]%string).
Proof. repeat split; vm_compute; reflexivity. Qed.

(** ** Which webhook handlers can throw *)

(** C2, as amended. The OAuth [handlePhonePeWebhook] returns a result
    object with [processed: false] or [processed: true] for every body
    and never throws. The other two handlers catch an exception only to
    log it and throw it again. [handleRazorpayWebhook] throws a
    TypeError for a [null] or [undefined] body and whenever
    RAZORPAY_KEY_SECRET is unset; with the secret set it returns
    [{valid: false}] for every other body with a JSON text whose
    signature is not the HMAC of that text. The salt-based
    [handlePhonePeWebhook] returns [{valid: false}] for every body,
    [null] and [undefined] included, when the credentials of a string
    or absent Basic-Auth header are wrong, and when they are right
    while the X-VERIFY header differs from the signature, in which an
    unset salt key reads [undefined]; it throws a TypeError when the
    body text and the salt key are both [undefined] and, once both
    checks have passed, for a body that is [null], [undefined] or
    without [data]. *)
Theorem handleWebhook_results_and_throws :
  (forall body : JS.value,
      PhonePeOAuth.handlePhonePeWebhook body
      = JS.Returned (JS.JObj [("processed", JS.JBool false);
                              ("message", JS.JStr "Invalid webhook format")]%string)
      \/ exists orderId status amount success,
          PhonePeOAuth.handlePhonePeWebhook body
          = JS.Returned (JS.JObj [("processed", JS.JBool true); ("orderId", orderId);
                                  ("status", status); ("amount", amount);
                                  ("success", success)]%string))
  /\ (forall (rt : JS.Runtime) (env : Process.Env) (body signature : JS.value),
         JS.nullish body = true \/ Process.RAZORPAY_KEY_SECRET env = None ->
         Razorpay.handleRazorpayWebhook env body signature = JS.Thrown JS.TypeError)
  /\ (forall (rt : JS.Runtime) (env : Process.Env) (secret text : string)
             (body signature : JS.value),
         Process.RAZORPAY_KEY_SECRET env = Some secret ->
         JS.nullish body = false ->
         JS.JSON_stringify body = Some text ->
         signature <> JS.JStr (SHA256.hmac_sha256_hex secret text) ->
         Razorpay.handleRazorpayWebhook env body signature
         = JS.Returned (JS.JObj [("valid", JS.JBool false);
                                 ("message", JS.JStr "Invalid signature")]%string))
  /\ (forall (rt : JS.Runtime) (env : Process.Env) (body xVerify auth : JS.value)
             (provided : string),
         PhonePeSalt.credentials auth provided ->
         provided <> PhonePeSalt.expectedAuth env ->
         PhonePeSalt.handlePhonePeWebhook env body xVerify auth
         = JS.Returned (JS.JObj [("valid", JS.JBool false);
                                 ("message", JS.JStr "Invalid authentication")]%string))
  /\ (forall (rt : JS.Runtime) (env : Process.Env) (body xVerify auth : JS.value),
         PhonePeSalt.credentials auth (PhonePeSalt.expectedAuth env) ->
         let signature :=
           (SHA256.sha256_hex (JS.text (JS.JSON_stringify body)
                               ++ JS.text (Process.PHONEPE_SALT_KEY env))
            ++ "###" ++ PhonePeSalt.PHONEPE_SALT_INDEX env)%string in
         let signable :=
           JS.JSON_stringify body <> None \/ Process.PHONEPE_SALT_KEY env <> None in
         (JS.JSON_stringify body = None -> Process.PHONEPE_SALT_KEY env = None ->
          PhonePeSalt.handlePhonePeWebhook env body xVerify auth = JS.Thrown JS.TypeError)
         /\ (signable -> xVerify <> JS.JStr signature ->
             PhonePeSalt.handlePhonePeWebhook env body xVerify auth
             = JS.Returned (JS.JObj [("valid", JS.JBool false);
                                     ("message", JS.JStr "Invalid signature")]%string))
         /\ (signable -> xVerify = JS.JStr signature ->
             JS.nullish body = true \/ JS.nullish (JS.get_opt body "data") = true ->
             PhonePeSalt.handlePhonePeWebhook env body xVerify auth = JS.Thrown JS.TypeError)).
Proof.
  split; [| split; [| split; [| split]]].
  - intros body. rewrite handlePhonePeWebhook_truthy.
    destruct (JS.truthy body && JS.truthy (JS.get_opt body "data")).
    + right. do 4 eexists. reflexivity.
    + left. reflexivity.
  - intros rt env body signature [H | H].
    + apply handleRazorpayWebhook_nullish. exact H.
    + apply handleRazorpayWebhook_unconfigured. exact H.
  - intros rt env secret text body signature Hs Hb Ht Hne.
    exact (handleRazorpayWebhook_mismatch env secret body signature text Hs Hb Ht Hne).
  - intros rt env body xVerify auth provided Hc Hne.
    exact (handlePhonePeWebhook_authentication env body xVerify auth provided
             (providedAuth_credentials auth provided Hc) Hne).
  - intros rt env body xVerify auth Hc signature signable.
    pose proof (providedAuth_credentials auth _ Hc) as Hp.
    split; [| split].
    + intros Hb Hk. exact (handlePhonePeWebhook_unsignable env body xVerify auth Hp Hb Hk).
    + intros Hs Hne. exact (handlePhonePeWebhook_signature env body xVerify auth Hp Hs Hne).
    + intros Hs Hv [Hn | Hn].
      * exact (handlePhonePeWebhook_no_body env body xVerify auth Hp Hs Hv Hn).
      * exact (handlePhonePeWebhook_no_data env body xVerify auth Hp Hs Hv Hn).
Qed.

(** C2 on malformed requests: no body and no header at all, for each
    handler, and a deployment without any secret. The OAuth and the
    salt-based handler return a result for the missing body, the
    Razorpay handler throws; without a Razorpay secret it throws for a
    well-formed event as well, and without a salt key the salt-based
    handler still answers [Invalid signature]. *)
Lemma handleWebhook_scenario :
  PhonePeOAuth.handlePhonePeWebhook JS.JUndefined
  = JS.Returned (JS.JObj [("processed", JS.JBool false);
                          ("message", JS.JStr "Invalid webhook format")]%string)
  /\ PhonePeSalt.handlePhonePeWebhook (rt := Node.runtime) (Scenario.env "1")
       JS.JUndefined JS.JUndefined JS.JUndefined
     = JS.Returned (JS.JObj [("valid", JS.JBool false);
                             ("message", JS.JStr "Invalid authentication")]%string)
  /\ Razorpay.handleRazorpayWebhook (rt := Node.runtime) (Scenario.env "1")
       (JS.JObj []) JS.JUndefined
     = JS.Returned (JS.JObj [("valid", JS.JBool false);
                             ("message", JS.JStr "Invalid signature")]%string)
  /\ Razorpay.handleRazorpayWebhook (rt := Node.runtime) (Scenario.env "1")
       JS.JUndefined JS.JUndefined
     = JS.Thrown JS.TypeError
  /\ Razorpay.handleRazorpayWebhook (rt := Node.runtime) Scenario.unset
       (Scenario.razorpay_event "payment.captured") (JS.JStr "0000")
     = JS.Thrown JS.TypeError
  /\ PhonePeSalt.handlePhonePeWebhook (rt := Node.runtime) Scenario.unset
       (JS.JObj []) (JS.JStr "0000") (JS.JStr "Basic dW5kZWZpbmVkOnVuZGVmaW5lZA==")
     = JS.Returned (JS.JObj [("valid", JS.JBool false);
                             ("message", JS.JStr "Invalid signature")]%string).
Proof.
  destruct handleWebhook_results_and_throws as (Hoauth & Hthrow & Hmismatch & Hauth & Hsalt).
  split; [| split; [| split; [| split; [| split]]]].
  - destruct (Hoauth JS.JUndefined) as [H | (o & s & a & c & H)]; [exact H |].
    vm_compute in H. discriminate H.
  - apply (Hauth Node.runtime (Scenario.env "1") JS.JUndefined JS.JUndefined JS.JUndefined
             ""%string).
    + constructor.
    + vm_compute. discriminate.
  - apply (Hmismatch Node.runtime (Scenario.env "1") "s3cr3t"%string "{}"%string
             (JS.JObj []) JS.JUndefined eq_refl eq_refl eq_refl).
    discriminate.
  - apply (Hthrow Node.runtime (Scenario.env "1")). left. reflexivity.
  - apply (Hthrow Node.runtime Scenario.unset). right. reflexivity.
  - assert (PhonePeSalt.credentials (JS.JStr ("" ++ "Basic " ++ "dW5kZWZpbmVkOnVuZGVmaW5lZA=="))
              (PhonePeSalt.expectedAuth Scenario.unset))%string as Hc.
    { change (PhonePeSalt.expectedAuth Scenario.unset)
        with ("" ++ "dW5kZWZpbmVkOnVuZGVmaW5lZA==")%string.
      constructor. intros a' b' _. cbn. lia. }
    destruct (Hsalt Node.runtime Scenario.unset (JS.JObj []) (JS.JStr "0000") _ Hc)
      as (_ & Hsig & _).
    apply Hsig; [left; discriminate | ].
    vm_compute. discriminate.
Defined.

(** C2 as stated fails: for a missing body [handleRazorpayWebhook]
    throws, with or without a signature header, and the salt-based
    handler throws for a [null] body that carries the right
    credentials and the X-VERIFY value of the text [null]. *)
Lemma handleWebhook_counterexample :
  Razorpay.handleRazorpayWebhook (rt := Node.runtime) (Scenario.env "1")
    JS.JUndefined JS.JUndefined
  = JS.Thrown JS.TypeError
  /\ Razorpay.handleRazorpayWebhook (rt := Node.runtime) (Scenario.env "1")
       JS.JNull (Scenario.razorpay_signature JS.JNull)
     = JS.Thrown JS.TypeError
  /\ PhonePeSalt.handlePhonePeWebhook (rt := Node.runtime) (Scenario.env "1")
       JS.JNull (Scenario.x_verify JS.JNull) (JS.JStr "Basic dXNlcjpwYXNz")
     = JS.Thrown JS.TypeError.
Proof.
  split; [vm_compute; reflexivity | ].
  split; vm_compute; reflexivity.
Qed.

(** ** The OAuth token cache *)

Section TokenCache.
Import JS PhonePeOAuth.
Local Open Scope string_scope.
Context {rt : Runtime} (env : Process.Env).

Lemma getAccessToken_hit (tokenCache : TokenCache) (now : float) (net : Network) :
  valid tokenCache now = true ->
  getAccessToken env now net tokenCache
  = (Returned (accessToken tokenCache), tokenCache, 0%nat).
Proof.
  intros H. unfold getAccessToken, getAccessToken_start. rewrite H. reflexivity.
Qed.

Lemma getAccessToken_start_miss (tokenCache : TokenCache) (now : float) :
  valid tokenCache now = false ->
  missing (Process.PHONEPE_CLIENT_ID env) = false ->
  missing (Process.PHONEPE_CLIENT_SECRET env) = false ->
  getAccessToken_start env tokenCache now = Requested.
Proof.
  intros H Hid Hsec. unfold getAccessToken_start. rewrite H, Hid, Hsec. reflexivity.
Qed.

Lemma getAccessToken_start_refused (tokenCache : TokenCache) (now : float) :
  valid tokenCache now = false ->
  missing (Process.PHONEPE_CLIENT_ID env) || missing (Process.PHONEPE_CLIENT_SECRET env)
  = true ->
  getAccessToken_start env tokenCache now
  = Refused (authentication_failed
               (Error "PhonePe credentials not configured. Set PHONEPE_CLIENT_ID and PHONEPE_CLIENT_SECRET in .env")).
Proof.
  intros H Hm. unfold getAccessToken_start. rewrite H, Hm. reflexivity.
Qed.

Lemma getAccessToken_finish_rejected (tokenCache : TokenCache) (net : Network) (e : exn) :
  response net = Thrown e ->
  getAccessToken_finish net tokenCache = (Thrown (authentication_failed e), tokenCache).
Proof. intros Hr. unfold getAccessToken_finish. rewrite Hr. reflexivity. Qed.

(** The answer of the token endpoint, read as the code reads it. *)
Lemma getAccessToken_finish_answer (tokenCache : TokenCache) (net : Network) (data : value) :
  response net = Returned data ->
  getAccessToken_finish net tokenCache
  = if nullish data then (Thrown (authentication_failed TypeError), tokenCache)
    else if negb (truthy (get_opt data "access_token")) then
      (Thrown (authentication_failed (Error "No access token in response")), tokenCache)
    else
      match ToNumber (get_opt data "expires_in") with
      | Returned seconds =>
          (Returned (get_opt data "access_token"),
           {| accessToken := get_opt data "access_token";
              expiresAt :=
                Some (PrimFloat.add (arrival net)
                        (PrimFloat.mul (PrimFloat.sub seconds 60%float) 1000%float)) |})
      | Thrown e => (Thrown (authentication_failed e), tokenCache)
      end.
Proof.
  intros Hr. unfold getAccessToken_finish. rewrite Hr. cbn [bind].
  destruct (nullish data) eqn:Hn.
  - rewrite (get_nullish data _ Hn). reflexivity.
  - rewrite !(get_not_nullish data _ Hn). cbn [bind].
    destruct (negb (truthy (get_opt data "access_token"))); [reflexivity | ].
    destruct (ToNumber (get_opt data "expires_in")); reflexivity.
Qed.

Lemma valid_fresh (token : value) (expiry now : float) :
  truthy token = true ->
  PrimFloat.ltb now expiry = true ->
  valid {| accessToken := token; expiresAt := Some expiry |} now = true.
Proof. intros Ht Hl. unfold valid. cbn. rewrite Ht, Hl. reflexivity. Qed.

Lemma truthy_answer (data : value) (k : string) :
  truthy (get_opt data k) = true -> nullish data = false.
Proof. destruct data; cbn; intros H; try reflexivity; discriminate H. Qed.

End TokenCache.

(** C5, as amended. A call of [getAccessToken] that finds a token in
    the cache with [expiresAt] strictly greater than the current time
    returns that token, leaves the cache as it is and sends no token
    request. Otherwise, if the client id or the client secret is unset,
    it throws [{message: 'Failed to authenticate with PhonePe'}]
    without a request. Otherwise it sends one token request. If the
    request fails, or the answer is [null] or [undefined], carries no
    truthy access token, or carries an [expires_in] that cannot be
    converted to a number, it throws the same message and leaves the
    cache as it was. Else it returns the access token and caches it
    with [expiresAt] = the time of the answer + ([expires_in] - 60) *
    1000 milliseconds; any later call made strictly before that instant
    returns the same token from the same cache and sends no request. *)
Theorem getAccessToken_caches
  (rt : JS.Runtime) (env : Process.Env) (tokenCache : PhonePeOAuth.TokenCache)
  (now : float) (net : PhonePeOAuth.Network) :
  let call := PhonePeOAuth.getAccessToken env now net tokenCache in
  let live :=
    JS.truthy (PhonePeOAuth.accessToken tokenCache)
    && PrimFloat.ltb now (match PhonePeOAuth.expiresAt tokenCache with
                          | Some t => t
                          | None => PrimFloat.zero
                          end) in
  let unset :=
    JS.missing (Process.PHONEPE_CLIENT_ID env)
    || JS.missing (Process.PHONEPE_CLIENT_SECRET env) in
  let failure := JS.Failure "Failed to authenticate with PhonePe" in
  (live = true ->
   call = (JS.Returned (PhonePeOAuth.accessToken tokenCache), tokenCache, 0%nat))
  /\ (live = false -> unset = true ->
      call = (JS.Thrown
                (failure (JS.Error "PhonePe credentials not configured. Set PHONEPE_CLIENT_ID and PHONEPE_CLIENT_SECRET in .env")),
              tokenCache, 0%nat))
  /\ (live = false -> unset = false ->
      (forall e : JS.exn,
          PhonePeOAuth.response net = JS.Thrown e ->
          call = (JS.Thrown (failure e), tokenCache, 1%nat))
      /\ (forall data : JS.value,
             PhonePeOAuth.response net = JS.Returned data ->
             let access_token := JS.get_opt data "access_token" in
             let expires_in := JS.get_opt data "expires_in" in
             (JS.nullish data = true ->
              call = (JS.Thrown (failure JS.TypeError), tokenCache, 1%nat))
             /\ (JS.nullish data = false -> JS.truthy access_token = false ->
                 call = (JS.Thrown (failure (JS.Error "No access token in response")),
                         tokenCache, 1%nat))
             /\ (JS.truthy access_token = true ->
                 forall e : JS.exn,
                   JS.ToNumber expires_in = JS.Thrown e ->
                   call = (JS.Thrown (failure e), tokenCache, 1%nat))
             /\ (JS.truthy access_token = true ->
                 forall seconds : float,
                   JS.ToNumber expires_in = JS.Returned seconds ->
                   let expiry :=
                     PrimFloat.add (PhonePeOAuth.arrival net)
                       (PrimFloat.mul (PrimFloat.sub seconds 60%float) 1000%float) in
                   let fresh :=
                     {| PhonePeOAuth.accessToken := access_token;
                        PhonePeOAuth.expiresAt := Some expiry |} in
                   call = (JS.Returned access_token, fresh, 1%nat)
                   /\ forall (now' : float) (net' : PhonePeOAuth.Network),
                       PrimFloat.ltb now' expiry = true ->
                       PhonePeOAuth.getAccessToken env now' net' fresh
                       = (JS.Returned access_token, fresh, 0%nat)))).
Proof.
  intros call live unset failure.
  change live with (PhonePeOAuth.valid tokenCache now).
  split; [| split].
  - intros Hlive. apply getAccessToken_hit. exact Hlive.
  - intros Hlive Hunset. unfold call, PhonePeOAuth.getAccessToken.
    rewrite (getAccessToken_start_refused env tokenCache now Hlive Hunset). reflexivity.
  - intros Hlive Hunset. unfold unset in Hunset. apply orb_false_iff in Hunset.
    destruct Hunset as [Hid Hsec].
    assert (forall r, PhonePeOAuth.getAccessToken_finish net tokenCache = r ->
                      call = (fst r, snd r, 1%nat)) as Hcall.
    { intros r <-. unfold call, PhonePeOAuth.getAccessToken.
      rewrite (getAccessToken_start_miss env tokenCache now Hlive Hid Hsec).
      destruct (PhonePeOAuth.getAccessToken_finish net tokenCache). reflexivity. }
    split.
    + intros e Hr. exact (Hcall _ (getAccessToken_finish_rejected tokenCache net e Hr)).
    + intros data Hr access_token expires_in.
      pose proof (getAccessToken_finish_answer tokenCache net data Hr) as Hfinish.
      fold access_token expires_in in Hfinish.
      split; [| split; [| split]].
      * intros Hn. rewrite Hn in Hfinish. exact (Hcall _ Hfinish).
      * intros Hn Ht. rewrite Hn, Ht in Hfinish. exact (Hcall _ Hfinish).
      * intros Ht e He.
        rewrite (truthy_answer data _ Ht), Ht, He in Hfinish. exact (Hcall _ Hfinish).
      * intros Ht seconds Hsec' expiry fresh.
        rewrite (truthy_answer data _ Ht), Ht, Hsec' in Hfinish. split.
        -- exact (Hcall _ Hfinish).
        -- intros now' net' Hl.
           exact (getAccessToken_hit env fresh now' net'
                    (valid_fresh access_token expiry now' Ht Hl)).
Qed.

(** C5 on a run: the first call, at time 1700000000000, finds the
    cache empty; the answer [tok_1] with [expires_in] 3600 arrives at
    1700000000250 and is cached until 1700003540250; a second call one
    millisecond before that instant is served from the cache. *)
Lemma getAccessToken_scenario :
  let fresh :=
    {| PhonePeOAuth.accessToken := JS.JStr "tok_1";
       PhonePeOAuth.expiresAt := Some 1700003540250%float |} in
  PhonePeOAuth.getAccessToken (rt := Node.runtime) (Scenario.env "1") 1700000000000
    (Scenario.token_reply "tok_1" 1700000000250) PhonePeOAuth.initial
  = (JS.Returned (JS.JStr "tok_1"), fresh, 1%nat)
  /\ PhonePeOAuth.getAccessToken (rt := Node.runtime) (Scenario.env "1") 1700003540249
       (Scenario.token_reply "tok_2" 1700003540300) fresh
     = (JS.Returned (JS.JStr "tok_1"), fresh, 0%nat).
Proof.
  cbv zeta.
  destruct (proj2 (proj2 (getAccessToken_caches Node.runtime (Scenario.env "1")
                            PhonePeOAuth.initial 1700000000000
                            (Scenario.token_reply "tok_1" 1700000000250)))
                  eq_refl eq_refl) as [_ Hanswer].
  destruct (Hanswer _ eq_refl) as (_ & _ & _ & Hstore).
  destruct (Hstore eq_refl 3600%float eq_refl) as [Hfirst Hlater].
  split.
  - refine (eq_trans Hfirst _). vm_compute. reflexivity.
  - refine (eq_trans _ (eq_trans
                          (Hlater 1700003540249%float
                             (Scenario.token_reply "tok_2" 1700003540300) eq_refl) _));
      vm_compute; reflexivity.
Defined.

(** C5 as stated fails on the calls that fetch no fresh token. Without
    client credentials the call throws and sends no request; with an
    answer that carries no access token, or an [expires_in] without a
    primitive value, it has sent its request, throws, and the cache
    stays empty. *)
Lemma getAccessToken_counterexample :
  let failure := JS.Failure "Failed to authenticate with PhonePe" in
  PhonePeOAuth.getAccessToken (rt := Node.runtime) Scenario.unset 1700000000000
    (Scenario.token_reply "tok_1" 1700000000250) PhonePeOAuth.initial
  = (JS.Thrown (failure (JS.Error "PhonePe credentials not configured. Set PHONEPE_CLIENT_ID and PHONEPE_CLIENT_SECRET in .env")),
     PhonePeOAuth.initial, 0%nat)
  /\ PhonePeOAuth.getAccessToken (rt := Node.runtime) (Scenario.env "1") 1700000000000
       {| PhonePeOAuth.response := JS.Returned (JS.JObj [("expires_in", JS.JNum 3600)]%string);
          PhonePeOAuth.arrival := 1700000000250 |}
       PhonePeOAuth.initial
     = (JS.Thrown (failure (JS.Error "No access token in response")),
        PhonePeOAuth.initial, 1%nat)
  /\ PhonePeOAuth.getAccessToken (rt := Node.runtime) (Scenario.env "1") 1700000000000
       {| PhonePeOAuth.response :=
            JS.Returned (JS.JObj [("access_token", JS.JStr "tok_1");
                                  ("expires_in", JS.JObj [("toString", JS.JNull)])]%string);
          PhonePeOAuth.arrival := 1700000000250 |}
       PhonePeOAuth.initial
     = (JS.Thrown (failure JS.TypeError), PhonePeOAuth.initial, 1%nat).
Proof. cbv zeta. repeat split. Qed.

(** ** Interleaved callers of [getAccessToken] *)

Section SingleFlight.
Import JS PhonePeOAuth.
Local Open Scope string_scope.
Context {rt : Runtime} (env : Process.Env).

Lemma step_requests (l : Loop) (ev : event) :
  (requests (step env l ev) <= requests l + (if is_call ev then 1 else 0))%nat.
Proof.
  destruct ev as [c now | c net]; cbn [step is_call].
  - destruct (getAccessToken_start env (tokenCache l) now); cbn [requests]; lia.
  - destruct (existsb (Nat.eqb c) (waiting l)); [| lia].
    destruct (getAccessToken_finish net (tokenCache l)). cbn [requests]. lia.
Qed.

(** At most one token request per call. *)
Lemma run_requests (schedule : list event) (l : Loop) :
  (requests (run env schedule l) <= requests l + List.length (filter is_call schedule))%nat.
Proof.
  revert l. induction schedule as [| ev schedule IH]; intros l; cbn [run fold_left filter].
  - lia.
  - specialize (IH (step env l ev)). unfold run in IH.
    pose proof (step_requests l ev) as Hs.
    revert Hs IH. destruct (is_call ev); cbn [List.length]; intros Hs IH; lia.
Qed.

(** Callers that all run their check before any answer arrives, on a
    cache that holds no valid token, send one request each. *)
Lemma run_misses (calls : list event) (l : Loop) :
  missing (Process.PHONEPE_CLIENT_ID env) = false ->
  missing (Process.PHONEPE_CLIENT_SECRET env) = false ->
  calls_finding false (tokenCache l) calls ->
  requests (run env calls l) = (requests l + List.length calls)%nat
  /\ tokenCache (run env calls l) = tokenCache l.
Proof.
  intros Hid Hsec. revert l.
  induction calls as [| ev calls IH]; intros l Hall; cbn [run fold_left List.length].
  - split; [lia | reflexivity].
  - inversion Hall as [| ? ? (c & now & -> & Hv) Hrest]; subst.
    assert (step env l (Call c now)
            = {| tokenCache := tokenCache l; waiting := c :: waiting l;
                 requests := S (requests l); settled := settled l |}) as Hstep.
    { cbn [step]. rewrite (getAccessToken_start_miss env _ _ Hv Hid Hsec). reflexivity. }
    specialize (IH (step env l (Call c now))). unfold run in IH.
    rewrite Hstep in IH |- *. cbn [tokenCache requests] in IH.
    destruct (IH Hrest) as [IHr IHc]. split; [lia | exact IHc].
Qed.

(** Callers that find a valid token send no request. *)
Lemma run_hits (calls : list event) (l : Loop) :
  calls_finding true (tokenCache l) calls ->
  requests (run env calls l) = requests l
  /\ tokenCache (run env calls l) = tokenCache l.
Proof.
  revert l. induction calls as [| ev calls IH]; intros l Hall; cbn [run fold_left].
  - split; reflexivity.
  - inversion Hall as [| ? ? (c & now & -> & Hv) Hrest]; subst.
    assert (step env l (Call c now)
            = {| tokenCache := tokenCache l; waiting := waiting l;
                 requests := requests l;
                 settled := (c, Returned (accessToken (tokenCache l))) :: settled l |})
      as Hstep.
    { cbn [step]. unfold getAccessToken_start. rewrite Hv. reflexivity. }
    specialize (IH (step env l (Call c now))). unfold run in IH.
    rewrite Hstep in IH |- *. cbn [tokenCache requests] in IH.
    exact (IH Hrest).
Qed.

(** Without client credentials no call sends a request. *)
Lemma run_unset (schedule : list event) (l : Loop) :
  missing (Process.PHONEPE_CLIENT_ID env) || missing (Process.PHONEPE_CLIENT_SECRET env)
  = true ->
  requests (run env schedule l) = requests l.
Proof.
  intros Hm. revert l.
  induction schedule as [| ev schedule IH]; intros l; cbn [run fold_left]; [reflexivity | ].
  specialize (IH (step env l ev)). unfold run in IH. rewrite IH.
  destruct ev as [c now | c net]; cbn [step].
  - unfold getAccessToken_start. rewrite Hm.
    destruct (valid (tokenCache l) now); reflexivity.
  - destruct (existsb (Nat.eqb c) (waiting l)); [ | reflexivity].
    destruct (getAccessToken_finish net (tokenCache l)). reflexivity.
Qed.

Lemma run_app (first second : list event) (l : Loop) :
  run env (first ++ second) l = run env second (run env first l).
Proof. apply fold_left_app. Qed.

(** Callers that all miss: the state after their calls. *)
Lemma run_calls (callers : list (nat * float)) (l : Loop) :
  missing (Process.PHONEPE_CLIENT_ID env) = false ->
  missing (Process.PHONEPE_CLIENT_SECRET env) = false ->
  Forall (fun caller => valid (tokenCache l) (snd caller) = false) callers ->
  let after := run env (map (fun caller => Call (fst caller) (snd caller)) callers) l in
  tokenCache after = tokenCache l
  /\ requests after = (requests l + List.length callers)%nat
  /\ settled after = settled l
  /\ forall c, In c (map fst callers) -> existsb (Nat.eqb c) (waiting after) = true.
Proof.
  intros Hid Hsec. revert l.
  induction callers as [| [c now] callers IH]; intros l Hall; cbv zeta;
    cbn [map run fold_left].
  - split; [reflexivity | ]. split; [cbn [List.length]; lia | ].
    split; [reflexivity | ]. intros c Hin. destruct Hin.
  - inversion Hall as [| ? ? Hv Hrest]; subst. cbn [snd fst] in *.
    assert (step env l (Call c now)
            = {| tokenCache := tokenCache l; waiting := c :: waiting l;
                 requests := S (requests l); settled := settled l |}) as Hstep.
    { cbn [step]. rewrite (getAccessToken_start_miss env _ _ Hv Hid Hsec). reflexivity. }
    rewrite Hstep.
    specialize (IH {| tokenCache := tokenCache l; waiting := c :: waiting l;
                      requests := S (requests l); settled := settled l |} Hrest).
    cbv zeta in IH. unfold run in IH. cbn [tokenCache requests settled] in IH.
    destruct IH as (IHc & IHr & IHs & IHw).
    split; [exact IHc | ]. split; [cbn [List.length]; lia | ]. split; [exact IHs | ].
    intros c' [<- | Hin]; [ | exact (IHw c' Hin)].
    clear - c. remember {| tokenCache := tokenCache l; waiting := c :: waiting l;
                          requests := S (requests l); settled := settled l |} as l0 eqn:Hl0.
    assert (existsb (Nat.eqb c) (waiting l0) = true) as Hc
        by (rewrite Hl0; cbn; rewrite Nat.eqb_refl; reflexivity).
    clear Hl0. revert l0 Hc.
    induction callers as [| [c1 now1] callers IHc]; intros l0 Hc; cbn [map fold_left].
    + exact Hc.
    + apply IHc. cbn [step fst snd].
      destruct (getAccessToken_start env (tokenCache l0) now1); cbn [waiting];
        try exact Hc.
      cbn [existsb]. rewrite Hc. apply orb_true_r.
Qed.

Lemma last_nonempty {A : Type} (a : A) (l : list A) (d d' d'' : A) :
  List.last (a :: l) d = List.last (d' :: a :: l) d''.
Proof.
  change (List.last (d' :: a :: l) d'') with (List.last (a :: l) d'').
  revert a. induction l as [| b l IH]; intros a; [reflexivity | ].
  change (List.last (b :: l) d = List.last (b :: l) d''). apply IH.
Qed.

Lemma getAccessToken_finish_answered
  (token : value) (seconds arrival : float) (tokenCache : TokenCache) :
  truthy token = true ->
  getAccessToken_finish (answered token seconds arrival) tokenCache
  = (Returned token, stored token seconds arrival).
Proof.
  intros Ht. unfold getAccessToken_finish, answered, stored.
  cbn [response PhonePeOAuth.arrival bind get lookup String.eqb Ascii.eqb Bool.eqb].
  rewrite Ht. reflexivity.
Qed.

(** Waiting callers whose requests are answered with tokens, in the
    order the answers are processed. *)
Lemma run_answers (answers : list (nat * (value * float * float))) (l : Loop) :
  NoDup (map fst answers) ->
  (forall c, In c (map fst answers) -> existsb (Nat.eqb c) (waiting l) = true) ->
  Forall (fun a => truthy (fst (fst (snd a))) = true) answers ->
  let settle a :=
    Settle (fst a) (answered (fst (fst (snd a))) (snd (fst (snd a))) (snd (snd a))) in
  let after := run env (map settle answers) l in
  requests after = requests l
  /\ settled after
     = (rev (map (fun a => (fst a, Returned (fst (fst (snd a))))) answers) ++ settled l)%list
  /\ tokenCache after
     = List.last
         (map (fun a => stored (fst (fst (snd a))) (snd (fst (snd a))) (snd (snd a))) answers)
         (tokenCache l).
Proof.
  intros Hnodup Hwait Hall settle. revert l Hwait.
  induction answers as [| [c [[token seconds] arrival]] answers IH]; intros l Hwait;
    cbv zeta; cbn [map run fold_left].
  - split; [reflexivity | ]. split; reflexivity.
  - inversion Hnodup as [| ? ? Hnotin Hnodup']; subst.
    inversion Hall as [| ? ? Ht Hall']; subst. cbn [fst snd] in *.
    assert (step env l (settle (c, (token, seconds, arrival)))
            = {| tokenCache := stored token seconds arrival;
                 waiting := filter (fun c' => negb (Nat.eqb c c')) (waiting l);
                 requests := requests l;
                 settled := (c, Returned token) :: settled l |}) as Hstep.
    { unfold settle. cbn [step fst snd]. rewrite (Hwait c (or_introl eq_refl)).
      rewrite (getAccessToken_finish_answered token seconds arrival _ Ht). reflexivity. }
    rewrite Hstep.
    specialize (IH Hnodup' Hall'
                  {| tokenCache := stored token seconds arrival;
                     waiting := filter (fun c' => negb (Nat.eqb c c')) (waiting l);
                     requests := requests l;
                     settled := (c, Returned token) :: settled l |}).
    cbn [tokenCache waiting requests settled] in IH.
    destruct IH as (IHr & IHs & IHc).
    { intros c' Hin. specialize (Hwait c' (or_intror Hin)).
      apply existsb_exists in Hwait. destruct Hwait as (w & Hw & Heq).
      apply existsb_exists. exists w. split; [ | exact Heq].
      apply filter_In. split; [exact Hw | ].
      apply Nat.eqb_eq in Heq. subst w. apply negb_true_iff, Nat.eqb_neq.
      intros ->. contradiction. }
    split; [exact IHr | ]. split.
    + unfold run in IHs. fold settle in IHs. rewrite IHs.
      cbn [rev map fst snd]. rewrite <- app_assoc. reflexivity.
    + unfold run in IHc. fold settle in IHc. rewrite IHc.
      destruct answers as [| a answers]; [reflexivity | ].
      cbn [map]. apply last_nonempty.
Qed.

End SingleFlight.

(** C6, as amended. [getAccessToken] has no single-flight: it holds no
    lock and shares no pending request. No schedule sends more token
    requests than it has calls; a call that finds a valid token, and
    every call while the client id or the client secret is unset,
    sends none. With both configured, callers that all run their cache
    check while the cache holds no valid token send one request each;
    when their requests are then answered with tokens, every caller
    returns the token of its own answer and the cache ends up holding
    the answer that was processed last. *)
Theorem getAccessToken_requests
  (rt : JS.Runtime) (env : Process.Env) (l : PhonePeOAuth.Loop) :
  (forall schedule : list PhonePeOAuth.event,
      (PhonePeOAuth.requests (PhonePeOAuth.run env schedule l)
       <= PhonePeOAuth.requests l
          + List.length (filter PhonePeOAuth.is_call schedule))%nat)
  /\ (forall calls : list PhonePeOAuth.event,
         PhonePeOAuth.calls_finding true (PhonePeOAuth.tokenCache l) calls ->
         PhonePeOAuth.requests (PhonePeOAuth.run env calls l) = PhonePeOAuth.requests l)
  /\ (JS.missing (Process.PHONEPE_CLIENT_ID env)
      || JS.missing (Process.PHONEPE_CLIENT_SECRET env) = true ->
      forall schedule : list PhonePeOAuth.event,
        PhonePeOAuth.requests (PhonePeOAuth.run env schedule l) = PhonePeOAuth.requests l)
  /\ (JS.missing (Process.PHONEPE_CLIENT_ID env)
      || JS.missing (Process.PHONEPE_CLIENT_SECRET env) = false ->
      forall (callers : list (nat * float))
             (answers : list (nat * (JS.value * float * float))),
        Forall (fun caller =>
                  PhonePeOAuth.valid (PhonePeOAuth.tokenCache l) (snd caller) = false)
          callers ->
        NoDup (map fst answers) ->
        incl (map fst answers) (map fst callers) ->
        Forall (fun a => JS.truthy (fst (fst (snd a))) = true) answers ->
        let call caller := PhonePeOAuth.Call (fst caller) (snd caller) in
        let settle a :=
          PhonePeOAuth.Settle (fst a)
            (PhonePeOAuth.answered (fst (fst (snd a))) (snd (fst (snd a))) (snd (snd a))) in
        let final := PhonePeOAuth.run env (map call callers ++ map settle answers) l in
        PhonePeOAuth.requests final
        = (PhonePeOAuth.requests l + List.length callers)%nat
        /\ PhonePeOAuth.settled final
           = (rev (map (fun a => (fst a, JS.Returned (fst (fst (snd a))))) answers)
              ++ PhonePeOAuth.settled l)%list
        /\ PhonePeOAuth.tokenCache final
           = List.last
               (map (fun a => PhonePeOAuth.stored (fst (fst (snd a))) (snd (fst (snd a)))
                                (snd (snd a))) answers)
               (PhonePeOAuth.tokenCache l)).
Proof.
  split; [| split; [| split]].
  - intros schedule. apply run_requests.
  - intros calls Hall. exact (proj1 (run_hits env calls l Hall)).
  - intros Hm schedule. apply run_unset. exact Hm.
  - intros Hm callers answers Hmiss Hnodup Hincl Htokens call settle final.
    apply orb_false_iff in Hm. destruct Hm as [Hid Hsec].
    destruct (run_calls env callers l Hid Hsec Hmiss) as (Hc & Hr & Hs & Hw).
    fold call in Hc, Hr, Hs, Hw.
    unfold final. rewrite run_app.
    destruct (run_answers env answers (PhonePeOAuth.run env (map call callers) l)
                Hnodup (fun c Hin => Hw c (Hincl c Hin)) Htokens) as (Ar & As & Ac).
    fold settle in Ar, As, Ac.
    rewrite Ar, As, Ac, Hr, Hs, Hc. repeat split.
Qed.

(** C6 on a run: three callers at the same instant on an empty cache
    send three token requests; the answers arrive in the order 2, 3, 1,
    each caller gets its own token and the cache keeps that of caller
    1. *)
Lemma getAccessToken_requests_scenario :
  let final :=
    PhonePeOAuth.run (rt := Node.runtime) (Scenario.env "1")
      [PhonePeOAuth.Call 1 1700000000000; PhonePeOAuth.Call 2 1700000000000;
       PhonePeOAuth.Call 3 1700000000000;
       PhonePeOAuth.Settle 2 (PhonePeOAuth.answered (JS.JStr "tok_b") 3600 1700000000250);
       PhonePeOAuth.Settle 3 (PhonePeOAuth.answered (JS.JStr "tok_c") 3600 1700000000260);
       PhonePeOAuth.Settle 1 (PhonePeOAuth.answered (JS.JStr "tok_a") 3600 1700000000270)]
      PhonePeOAuth.boot in
  PhonePeOAuth.requests final = 3%nat
  /\ PhonePeOAuth.settled final
     = [(1%nat, JS.Returned (JS.JStr "tok_a")); (3%nat, JS.Returned (JS.JStr "tok_c"));
        (2%nat, JS.Returned (JS.JStr "tok_b"))]
  /\ PhonePeOAuth.tokenCache final
     = PhonePeOAuth.stored (JS.JStr "tok_a") 3600 1700000000270.
Proof.
  cbv zeta.
  exact (proj2 (proj2 (proj2 (getAccessToken_requests Node.runtime (Scenario.env "1")
                                PhonePeOAuth.boot)))
           eq_refl
           [(1%nat, 1700000000000%float); (2%nat, 1700000000000%float);
            (3%nat, 1700000000000%float)]
           [(2%nat, (JS.JStr "tok_b", 3600%float, 1700000000250%float));
            (3%nat, (JS.JStr "tok_c", 3600%float, 1700000000260%float));
            (1%nat, (JS.JStr "tok_a", 3600%float, 1700000000270%float))]
           ltac:(repeat constructor)
           ltac:(repeat constructor; cbn; intuition discriminate)
           ltac:(intros c Hc; cbn in *; intuition)
           ltac:(repeat constructor)).
Defined.

(** C6 as stated fails: two callers at the same instant, both before
    any answer, send two token requests; each gets the token of its own
    request and the cache keeps the one stored last. *)
Lemma getAccessToken_not_single_flight :
  let final :=
    PhonePeOAuth.run (rt := Node.runtime) (Scenario.env "1")
      [PhonePeOAuth.Call 1 1700000000000;
       PhonePeOAuth.Call 2 1700000000000;
       PhonePeOAuth.Settle 1 (Scenario.token_reply "tok_a" 1700000000250);
       PhonePeOAuth.Settle 2 (Scenario.token_reply "tok_b" 1700000000260)]
      PhonePeOAuth.boot in
  PhonePeOAuth.requests final = 2%nat
  /\ PhonePeOAuth.settled final
     = [(2%nat, JS.Returned (JS.JStr "tok_b")); (1%nat, JS.Returned (JS.JStr "tok_a"))]
  /\ PhonePeOAuth.accessToken (PhonePeOAuth.tokenCache final) = JS.JStr "tok_b".
Proof. cbv zeta. repeat split; vm_compute; reflexivity. Qed.

(** ** Comparisons of doubles *)

Section FloatOrder.

Lemma SFcompare_antisym (a b : spec_float) :
  SFcompare b a = option_map CompOpp (SFcompare a b).
Proof.
  destruct a as [sa | sa | | sa ma ea], b as [sb | sb | | sb mb eb]; cbn;
    try reflexivity; try (destruct sa; reflexivity); try (destruct sb; reflexivity);
    try (destruct sa, sb; reflexivity).
  destruct sa, sb; cbn; try reflexivity.
  - rewrite (Z.compare_antisym ea eb).
    destruct (ea ?= eb)%Z; cbn; try reflexivity.
    f_equal. f_equal. change Eq with (CompOpp Eq) at 1.
    symmetry. apply Pos.compare_cont_antisym.
  - rewrite (Z.compare_antisym ea eb).
    destruct (ea ?= eb)%Z; cbn; try reflexivity.
    f_equal. change Eq with (CompOpp Eq) at 1.
    symmetry. apply Pos.compare_cont_antisym.
Qed.

Lemma SFcompare_refl (a : spec_float) :
  a <> S754_nan -> SFcompare a a = Some Eq.
Proof.
  destruct a as [s | s | | s m e]; cbn; intros H; try reflexivity.
  - destruct s; reflexivity.
  - contradiction.
  - rewrite Z.compare_refl. destruct s; cbn; f_equal.
    + change (CompOpp (Pos.compare_cont Eq m m) = Eq).
      rewrite Pos.compare_cont_refl. reflexivity.
    + apply Pos.compare_cont_refl.
Qed.

Lemma SFcompare_nan_r (a : spec_float) : SFcompare a S754_nan = None.
Proof. destruct a; reflexivity. Qed.

Lemma is_nan_spec (x : float) :
  PrimFloat.is_nan x = true <-> Prim2SF x = S754_nan.
Proof.
  unfold PrimFloat.is_nan. rewrite eqb_spec. unfold SFeqb. split.
  - intros H. destruct (Prim2SF x) as [s | s | | s m e] eqn:E; try reflexivity;
      rewrite SFcompare_refl in H by discriminate; discriminate H.
  - intros ->. reflexivity.
Qed.

Lemma one_spec : Prim2SF PrimFloat.one = S754_finite false 4503599627370496 (-52).
Proof. reflexivity. Qed.

Lemma zero_spec : Prim2SF PrimFloat.zero = S754_zero false.
Proof. reflexivity. Qed.

(** A number that is not NaN and not below one is at least one. *)
Lemma not_below_one (x : float) :
  PrimFloat.is_nan x = false ->
  PrimFloat.ltb x 1 = false ->
  PrimFloat.leb 1 x = true.
Proof.
  intros Hn Hl. rewrite leb_spec. rewrite ltb_spec in Hl. unfold SFleb, SFltb in *.
  rewrite SFcompare_antisym.
  destruct (SFcompare (Prim2SF x) (Prim2SF 1)) as [[| |] |] eqn:E; cbn;
    try reflexivity; try discriminate Hl.
  exfalso. assert (Prim2SF x = S754_nan) as Hx.
  { change (Prim2SF 1) with (S754_finite false 4503599627370496 (-52)) in E.
    destruct (Prim2SF x) as [s | s | | s m e]; try reflexivity;
      cbv [SFcompare] in E; discriminate E. }
  apply is_nan_spec in Hx. congruence.
Qed.

(** A number that is at least one is not NaN, not zero, not negative
    and not below one. *)
Lemma at_least_one (x : float) :
  PrimFloat.leb 1 x = true ->
  PrimFloat.is_nan x = false
  /\ PrimFloat.eqb x PrimFloat.zero = false
  /\ PrimFloat.leb x 0 = false
  /\ PrimFloat.ltb x 1 = false.
Proof.
  intros H. rewrite leb_spec in H. unfold SFleb in H.
  assert (PrimFloat.is_nan x = false) as Hn.
  { destruct (PrimFloat.is_nan x) eqn:E; [| reflexivity].
    apply is_nan_spec in E. rewrite E, SFcompare_nan_r in H. discriminate H. }
  split; [exact Hn |].
  rewrite eqb_spec, leb_spec, ltb_spec. unfold SFeqb, SFleb, SFltb.
  rewrite (SFcompare_antisym (Prim2SF 1) (Prim2SF x)).
  change (Prim2SF 0) with (S754_zero false).
  change (Prim2SF PrimFloat.zero) with (S754_zero false).
  assert (SFcompare (Prim2SF x) (S754_zero false) = Some Gt) as Hz.
  { change (Prim2SF 1) with (S754_finite false 4503599627370496 (-52)) in H.
    destruct (Prim2SF x) as [s | s | | s m e]; cbv [SFcompare] in H |- *;
      try discriminate H; destruct s; try discriminate H; reflexivity. }
  rewrite Hz.
  destruct (SFcompare (Prim2SF 1) (Prim2SF x)) as [[| |] |];
    try discriminate H; repeat split; reflexivity.
Qed.

End FloatOrder.

(** ** Conversions that throw *)

Section Conversions.
Import JS.
Local Open Scope string_scope.
Context {rt : Runtime}.

(** A conversion throws nothing but a TypeError. *)
Lemma ToString_TypeError : forall (v : value) (e : exn), ToString v = Thrown e -> e = TypeError.
Proof.
  fix IH 1. intros v e. destruct v as [ | | [ | ] | x | s | items | fields];
    cbn [ToString]; try discriminate.
  - induction items as [| x items IHitems]; [discriminate | ].
    destruct items as [| y items].
    + destruct (nullish x); [discriminate | apply IH].
    + destruct (nullish x).
      * cbn [bind]. intros H. apply IHitems.
        match type of H with
        | bind ?m _ = _ => destruct m as [t | e'] eqn:Hm; cbn [bind] in H
        end; [discriminate H | exact H].
      * destruct (ToString x) as [t | e'] eqn:Hx; cbn [bind].
        -- intros H. apply IHitems.
           match type of H with
           | bind ?m _ = _ => destruct m as [t' | e''] eqn:Hm; cbn [bind] in H
           end; [discriminate H | exact H].
        -- intros [= <-]. exact (IH x e' Hx).
  - destruct (has_own "toString" fields); [intros [= <-]; reflexivity | discriminate].
Qed.

Lemma ToNumber_TypeError (v : value) (e : exn) : ToNumber v = Thrown e -> e = TypeError.
Proof.
  destruct v as [ | | [ | ] | x | s | items | fields]; cbn [ToNumber]; try discriminate.
  - destruct (ToString (JArr items)) eqn:H; cbn [bind]; [discriminate | ].
    intros [= <-]. exact (ToString_TypeError _ _ H).
  - destruct (ToString (JObj fields)) eqn:H; cbn [bind]; [discriminate | ].
    intros [= <-]. exact (ToString_TypeError _ _ H).
Qed.

(** An object with an own [toString] property has no number. *)
Lemma ToNumber_own_toString (fields : list (string * value)) :
  has_own "toString" fields = true -> ToNumber (JObj fields) = Thrown TypeError.
Proof. intros H. cbn [ToNumber ToString]. rewrite H. reflexivity. Qed.

End Conversions.

(** ** Amount validation *)

Section ValidateAmount.
Import JS.
Local Open Scope string_scope.
Context {rt : Runtime}.

(** The validator once the amount is a number. *)
Lemma validateAmount_number (amount : value) (x : float) :
  truthy amount = true -> ToNumber amount = Returned x ->
  Validators.validateAmount amount
  = Returned
      (if PrimFloat.is_nan x || PrimFloat.leb x 0 then
         JObj [("valid", JBool false); ("error", JStr "Amount must be a positive number")]
       else if PrimFloat.ltb x 1 then
         JObj [("valid", JBool false); ("error", JStr Validators.minimum_amount_message)]
       else JObj [("valid", JBool true)]).
Proof.
  intros Ht Hx. unfold Validators.validateAmount. rewrite Ht, Hx. cbn [negb bind].
  destruct (PrimFloat.is_nan x || PrimFloat.leb x 0); [reflexivity | ].
  destruct (PrimFloat.ltb x 1); reflexivity.
Qed.

Lemma validateAmount_valid (amount : value) :
  Validators.validateAmount amount = Returned (JObj [("valid", JBool true)])
  <-> truthy amount = true
      /\ exists x, ToNumber amount = Returned x /\ PrimFloat.leb 1 x = true.
Proof.
  destruct (truthy amount) eqn:Ht.
  - destruct (ToNumber amount) as [x | e] eqn:Hx.
    + rewrite (validateAmount_number amount x Ht Hx).
      destruct (PrimFloat.is_nan x) eqn:Hn; cbn [orb].
      * split; [discriminate |].
        intros [_ (y & [= <-] & H)]. apply at_least_one in H. destruct H as [H _].
        congruence.
      * destruct (PrimFloat.leb x 0) eqn:Hz.
        -- split; [discriminate |].
           intros [_ (y & [= <-] & H)]. apply at_least_one in H.
           destruct H as (_ & _ & H & _). congruence.
        -- destruct (PrimFloat.ltb x 1) eqn:Hl.
           ++ split; [discriminate |].
              intros [_ (y & [= <-] & H)]. apply at_least_one in H.
              destruct H as (_ & _ & _ & H). congruence.
           ++ split; [| reflexivity].
              intros _. split; [reflexivity | ]. exists x.
              split; [reflexivity | apply not_below_one; assumption].
    + unfold Validators.validateAmount. rewrite Ht, Hx. cbn [negb bind].
      split; [discriminate | ]. intros [_ (y & H & _)]. discriminate H.
  - unfold Validators.validateAmount. rewrite Ht. cbn [negb].
    split; [discriminate |]. intros [H _]. discriminate H.
Qed.

Lemma validateAmount_throws (amount : value) (e : exn) :
  Validators.validateAmount amount = Thrown e
  <-> truthy amount = true /\ ToNumber amount = Thrown e.
Proof.
  unfold Validators.validateAmount. destruct (truthy amount); cbn [negb].
  - destruct (ToNumber amount) as [x | e'] eqn:Hx; cbn [bind].
    + split.
      * destruct (PrimFloat.is_nan x || PrimFloat.leb x 0); [discriminate | ].
        destruct (PrimFloat.ltb x 1); discriminate.
      * intros [_ H]. discriminate H.
    + split; [intros [= <-]; split; reflexivity | intros [_ [= <-]]; reflexivity].
  - split; [discriminate | intros [H _]; discriminate H].
Qed.

Lemma validateAmount_result (amount : value) :
  Validators.validateAmount amount = Returned (JObj [("valid", JBool true)])
  \/ (exists message,
         Validators.validateAmount amount
         = Returned (JObj [("valid", JBool false); ("error", JStr message)]))
  \/ Validators.validateAmount amount = Thrown TypeError.
Proof.
  destruct (truthy amount) eqn:Ht.
  - destruct (ToNumber amount) as [x | e] eqn:Hx.
    + rewrite (validateAmount_number amount x Ht Hx).
      destruct (PrimFloat.is_nan x || PrimFloat.leb x 0);
        [right; left; eexists; reflexivity |].
      destruct (PrimFloat.ltb x 1); [right; left; eexists; reflexivity |].
      left. reflexivity.
    + right. right. apply validateAmount_throws. split; [exact Ht | ].
      rewrite (ToNumber_TypeError amount e Hx) in Hx. exact Hx.
  - right. left. unfold Validators.validateAmount. rewrite Ht. eexists. reflexivity.
Qed.

Lemma truthy_at_least_one (x : float) :
  PrimFloat.leb 1 x = true -> truthy (JNum x) = true.
Proof.
  intros H. apply at_least_one in H. destruct H as (Hn & Hz & _).
  cbn. rewrite Hn, Hz. reflexivity.
Qed.

End ValidateAmount.

(** C10, as amended. [validateAmount] returns [{valid: true}] exactly
    when the amount is truthy and [Number(amount)] is a number that is
    at least 1. It throws, and then a TypeError, exactly when the
    amount is truthy and [Number(amount)] throws, as it does for an
    object with an own [toString] property. In every other case it
    returns [{valid: false, error}] with a message. For a number this
    means: [{valid: true}] exactly for the numbers that are at least 1,
    and a rejection for every number below 1 (zero, the numbers between
    0 and 1, the negative ones) and for NaN. Values that are not
    numbers are judged by their conversion. *)
Theorem validateAmount_accepts (rt : JS.Runtime) (amount : JS.value) :
  let accepted := JS.Returned (JS.JObj [("valid"%string, JS.JBool true)]) in
  let rejected message :=
    JS.Returned (JS.JObj [("valid", JS.JBool false); ("error", JS.JStr message)]%string) in
  (Validators.validateAmount amount = accepted
   <-> JS.truthy amount = true
       /\ exists x : float,
            JS.ToNumber amount = JS.Returned x /\ PrimFloat.leb 1 x = true)
  /\ (forall e : JS.exn,
         Validators.validateAmount amount = JS.Thrown e
         <-> JS.truthy amount = true /\ JS.ToNumber amount = JS.Thrown e)
  /\ (Validators.validateAmount amount = accepted
      \/ (exists message, Validators.validateAmount amount = rejected message)
      \/ Validators.validateAmount amount = JS.Thrown JS.TypeError)
  /\ (forall fields : list (string * JS.value),
         amount = JS.JObj fields -> JS.has_own "toString" fields = true ->
         Validators.validateAmount amount = JS.Thrown JS.TypeError)
  /\ (forall x : float,
         amount = JS.JNum x ->
         (Validators.validateAmount amount = accepted <-> PrimFloat.leb 1 x = true)
         /\ (PrimFloat.ltb x 1 = true \/ PrimFloat.is_nan x = true ->
             exists message, Validators.validateAmount amount = rejected message)).
Proof.
  intros accepted rejected.
  split; [apply validateAmount_valid |].
  split; [intros e; apply validateAmount_throws |].
  split; [apply validateAmount_result |].
  split.
  - intros fields -> Hown. apply validateAmount_throws.
    split; [reflexivity | apply ToNumber_own_toString; exact Hown].
  - intros x ->. split.
    + unfold accepted. rewrite validateAmount_valid. cbn [JS.ToNumber]. split.
      * intros [_ (y & [= <-] & H)]. exact H.
      * intros H. split; [apply truthy_at_least_one, H | ].
        exists x. split; [reflexivity | exact H].
    + intros Hlow.
      destruct (validateAmount_result (JS.JNum x)) as [Hv | [Hr | Hthrow]].
      * exfalso. apply validateAmount_valid in Hv. destruct Hv as [_ (y & [= <-] & Hv)].
        apply at_least_one in Hv. destruct Hv as (Hn & _ & _ & Hl).
        destruct Hlow; congruence.
      * exact Hr.
      * apply validateAmount_throws in Hthrow. destruct Hthrow as [_ H]. discriminate H.
Qed.

(** C10 on sample amounts: 1 and 499 are accepted; 0.5, 0, -3 and the
    text [abc] are rejected, each with its message; the object
    [{"toString": null}] makes the validator throw. *)
Lemma validateAmount_scenario :
  map (Validators.validateAmount (rt := Node.runtime)) [JS.JNum 1; JS.JNum 499]
  = [JS.Returned (JS.JObj [("valid"%string, JS.JBool true)]);
     JS.Returned (JS.JObj [("valid"%string, JS.JBool true)])]
  /\ map (Validators.validateAmount (rt := Node.runtime))
       [JS.JNum 0.5; JS.JNum 0; JS.JNum (-3); JS.JStr "abc"]
     = [JS.Returned (JS.JObj [("valid", JS.JBool false);
                              ("error", JS.JStr Validators.minimum_amount_message)]);
        JS.Returned (JS.JObj [("valid", JS.JBool false);
                              ("error", JS.JStr "Amount is required")]);
        JS.Returned (JS.JObj [("valid", JS.JBool false);
                              ("error", JS.JStr "Amount must be a positive number")]);
        JS.Returned (JS.JObj [("valid", JS.JBool false);
                              ("error", JS.JStr "Amount must be a positive number")])]%string
  /\ Validators.validateAmount (rt := Node.runtime)
       (JS.JObj [("toString"%string, JS.JNull)])
     = JS.Thrown JS.TypeError.
Proof.
  split; [ | split].
  - cbn [map].
    rewrite (proj2 (proj1 (proj2 (proj2 (proj2 (proj2
               (validateAmount_accepts Node.runtime (JS.JNum 1))))) 1%float eq_refl))
               eq_refl).
    rewrite (proj2 (proj1 (proj2 (proj2 (proj2 (proj2
               (validateAmount_accepts Node.runtime (JS.JNum 499))))) 499%float eq_refl))
               eq_refl).
    reflexivity.
  - vm_compute. reflexivity.
  - exact (proj1 (proj2 (proj2 (proj2
             (validateAmount_accepts Node.runtime (JS.JObj [("toString"%string, JS.JNull)])))))
             _ eq_refl eq_refl).
Defined.

(** C10 as stated fails on values that are not numbers and convert to
    a number that is at least 1: the boolean [true], the text [5] and
    the array [[5]] are answered with [{valid: true}]. *)
Lemma validateAmount_counterexample :
  map (Validators.validateAmount (rt := Node.runtime))
    [JS.JBool true; JS.JStr "5"; JS.JArr [JS.JNum 5]]
  = [JS.Returned (JS.JObj [("valid"%string, JS.JBool true)]);
     JS.Returned (JS.JObj [("valid"%string, JS.JBool true)]);
     JS.Returned (JS.JObj [("valid"%string, JS.JBool true)])].
Proof. vm_compute. reflexivity. Qed.

(** ** Amounts in minor units *)

Section MinorUnits.
Local Open Scope Z_scope.







End MinorUnits.




(** * Further properties of the validators, routes and requests *)

(** ** The request validators *)

Section RegExpFacts.
Import RegExp.

Lemma Matches_void (l : list Z) : Matches Void l <-> False.
Proof. split; [inversion 1 | contradiction]. Qed.

Lemma Matches_empty (l : list Z) : Matches Empty l <-> l = [].
Proof. split; [inversion 1; reflexivity | intros ->; constructor]. Qed.

Lemma Matches_class (p : Z -> bool) (l : list Z) :
  Matches (Class p) l <-> exists c, l = [c] /\ p c = true.
Proof.
  split.
  - inversion 1; subst. eexists. split; [reflexivity | assumption].
  - intros (c & -> & Hc). constructor. assumption.
Qed.

Lemma Matches_cat (r s : regex) (l : list Z) :
  Matches (Cat r s) l <-> exists u v, l = u ++ v /\ Matches r u /\ Matches s v.
Proof.
  split.
  - inversion 1; subst. do 2 eexists. repeat split; eassumption.
  - intros (u & v & -> & Hu & Hv). constructor; assumption.
Qed.

Lemma Matches_alt (r s : regex) (l : list Z) :
  Matches (Alt r s) l <-> Matches r l \/ Matches s l.
Proof.
  split.
  - inversion 1; subst; [left | right]; assumption.
  - intros [H | H]; [apply MAltL | apply MAltR]; assumption.
Qed.

Lemma nullable_Matches (r : regex) : nullable r = true <-> Matches r [].
Proof.
  induction r; cbn [nullable].
  - rewrite Matches_void. split; [discriminate | contradiction].
  - rewrite Matches_empty. split; reflexivity.
  - rewrite Matches_class. split; [discriminate | intros (c & Hc & _); discriminate].
  - rewrite andb_true_iff, IHr1, IHr2, Matches_cat. split.
    + intros [H1 H2]. exists [], []. repeat split; assumption.
    + intros (u & v & Huv & Hu & Hv). symmetry in Huv. apply app_eq_nil in Huv.
      destruct Huv; subst. split; assumption.
  - rewrite orb_true_iff, IHr1, IHr2, Matches_alt. reflexivity.
  - split; [constructor | reflexivity].
Qed.

Lemma Matches_star_cons (r : regex) (c : Z) (l : list Z) :
  Matches (Star r) (c :: l) ->
  exists u v, l = u ++ v /\ Matches r (c :: u) /\ Matches (Star r) v.
Proof.
  intros H. remember (Star r) as s eqn:Hs. remember (c :: l) as w eqn:Hw.
  revert c l Hw. induction H; intros c0 l0 Hw; try discriminate.
  injection Hs as ->.
  destruct u as [ | a u'].
  - cbn in Hw. subst v. exact (IHMatches2 eq_refl c0 l0 eq_refl).
  - cbn in Hw. injection Hw as -> <-. exists u', v. repeat split; assumption.
Qed.

Lemma Matches_cat_cons (r s : regex) (c : Z) (l : list Z) :
  Matches (Cat r s) (c :: l) <->
  (exists u v, l = u ++ v /\ Matches r (c :: u) /\ Matches s v)
  \/ (Matches r [] /\ Matches s (c :: l)).
Proof.
  rewrite Matches_cat. split.
  - intros (u & v & Huv & Hu & Hv). destruct u as [ | a u'].
    + right. cbn in Huv. subst v. split; assumption.
    + left. cbn in Huv. injection Huv as -> ->. exists u', v. repeat split; assumption.
  - intros [(u & v & -> & Hu & Hv) | [Hu Hv]].
    + exists (c :: u), v. repeat split; assumption.
    + exists [], (c :: l). repeat split; assumption.
Qed.

Lemma derive_Matches (r : regex) :
  forall (c : Z) (l : list Z), Matches (derive c r) l <-> Matches r (c :: l).
Proof.
  induction r; intros c l; cbn [derive].
  - rewrite !Matches_void. reflexivity.
  - rewrite Matches_void, Matches_empty. split; [contradiction | discriminate].
  - rewrite Matches_class. destruct (p c) eqn:Hp.
    + rewrite Matches_empty. split.
      * intros ->. exists c. split; [reflexivity | assumption].
      * intros (c' & Hc & _). injection Hc as _ ->. reflexivity.
    + rewrite Matches_void. split; [contradiction | ].
      intros (c' & Hc & Hp'). injection Hc as -> _. congruence.
  - assert (Matches (Cat (derive c r1) r2) l <->
            exists u v, l = u ++ v /\ Matches r1 (c :: u) /\ Matches r2 v) as Hcat.
    { rewrite Matches_cat. split; intros (u & v & Huv & Hu & Hv); exists u, v;
        (repeat split; [assumption | apply IHr1; assumption | assumption]). }
    rewrite Matches_cat_cons. destruct (nullable r1) eqn:Hn.
    + rewrite Matches_alt, Hcat, IHr2. apply nullable_Matches in Hn. tauto.
    + rewrite Hcat. split; [left; assumption | ].
      intros [H | [H _]]; [assumption | ].
      apply nullable_Matches in H. congruence.
  - rewrite !Matches_alt, IHr1, IHr2. reflexivity.
  - rewrite Matches_cat. split.
    + intros (u & v & -> & Hu & Hv). apply IHr in Hu. exact (MStarS r (c :: u) v Hu Hv).
    + intros H. apply Matches_star_cons in H. destruct H as (u & v & -> & Hu & Hv).
      exists u, v. repeat split; [apply IHr | ]; assumption.
Qed.

Lemma test_Matches (l : list Z) : forall r : regex, test r l = true <-> Matches r l.
Proof.
  induction l as [ | c l IH]; intros r; cbn [test].
  - apply nullable_Matches.
  - rewrite IH. apply derive_Matches.
Qed.



Lemma Matches_times_class (p : Z -> bool) (n : nat) :
  forall l : list Z,
    Matches (Times n (Class p)) l <-> List.length l = n /\ forallb p l = true.
Proof.
  induction n as [ | n IH]; intros l; cbn [Times].
  - rewrite Matches_empty. split.
    + intros ->. split; reflexivity.
    + intros [H _]. destruct l; [reflexivity | discriminate].
  - rewrite Matches_cat. split.
    + intros (u & v & -> & Hu & Hv). apply Matches_class in Hu.
      destruct Hu as (c & -> & Hc). apply IH in Hv. destruct Hv as [Hlen Hv].
      cbn. rewrite Hc, Hv, Hlen. split; reflexivity.
    + intros [Hlen H]. destruct l as [ | c l]; [discriminate | ].
      cbn in H, Hlen. apply andb_true_iff in H. destruct H as [Hc Hl].
      exists [c], l. repeat split.
      * constructor. assumption.
      * apply IH. split; [lia | assumption].
Qed.

End RegExpFacts.

Section ValidatorFacts.
Import JS RequestValidators.
Local Open Scope string_scope.

Lemma valid_not_invalid (message : string) : invalid message <> valid.
Proof. discriminate. Qed.


Lemma test_phoneRegex (l : list Z) :
  RegExp.test phoneRegex l = true <->
  exists d ds,
    l = d :: ds /\ six_to_nine d = true
    /\ List.length ds = 9%nat /\ forallb digit ds = true.
Proof.
  rewrite test_Matches. unfold phoneRegex. rewrite Matches_cat. split.
  - intros (u & ds & -> & Hu & Hds). apply Matches_class in Hu.
    destruct Hu as (d & -> & Hd). apply Matches_times_class in Hds.
    exists d, ds. repeat split; tauto.
  - intros (d & ds & -> & Hd & Hlen & Hds). exists [d], ds. repeat split.
    + constructor. assumption.
    + apply Matches_times_class. split; assumption.
Qed.

End ValidatorFacts.

Section EmailFacts.
Import JS RequestValidators.


End EmailFacts.



(** X2. [validatePhone] answers [{ valid: true }] exactly for a truthy
    value whose [toString()] is ten decimal digits, the first of them
    6, 7, 8 or 9. *)
Theorem validatePhone_accepts (rt : JS.Runtime) (phone : JS.value) :
  RequestValidators.validatePhone phone = JS.Returned RequestValidators.valid
  <-> JS.truthy phone = true
      /\ exists (text : string) (d : Z) (ds : list Z),
           RequestValidators.toString phone = JS.Returned text
           /\ Unicode.of_string text = d :: ds
           /\ (54 <= d <= 57)%Z
           /\ List.length ds = 9%nat
           /\ Forall (fun c => 48 <= c <= 57)%Z ds.
Proof.
  assert (forall ds, forallb RequestValidators.digit ds = true
                     <-> Forall (fun c => 48 <= c <= 57)%Z ds) as Hdigits.
  { intros ds. rewrite forallb_forall, Forall_forall. unfold RequestValidators.digit.
    split; intros H c Hc; specialize (H c Hc); lia. }
  unfold RequestValidators.validatePhone.
  destruct (JS.truthy phone); cbn [negb].
  - destruct (RequestValidators.toString phone) as [text | e]; cbn [JS.bind].
    + destruct (RegExp.test RequestValidators.phoneRegex (Unicode.of_string text)) eqn:Hm;
        cbn [negb]; split.
      * intros _. split; [reflexivity | ].
        apply test_phoneRegex in Hm. destruct Hm as (d & ds & Hl & Hd & Hlen & Hds).
        exists text, d, ds. unfold RequestValidators.six_to_nine in Hd.
        repeat split; try assumption; try lia. apply Hdigits. assumption.
      * reflexivity.
      * discriminate.
      * intros [_ (t & d & ds & Ht & Hl & Hd & Hlen & Hds)]. injection Ht as <-.
        assert (RegExp.test RequestValidators.phoneRegex (Unicode.of_string text) = true)
          as Hyes.
        { apply test_phoneRegex. exists d, ds. unfold RequestValidators.six_to_nine.
          repeat split; try assumption; try lia. apply Hdigits. assumption. }
        congruence.
    + split; [discriminate | ]. intros [_ (t & d & ds & Ht & _)]. discriminate.
  - split; [discriminate | ]. intros [H _]. discriminate.
Qed.

(** X2 on samples: the text [9876543210] is accepted, and so is the
    number 9876543210, whose [toString()] is that text; a number that
    starts with 5 is rejected. *)
Lemma validatePhone_scenario :
  RequestValidators.validatePhone (rt := Node.runtime) (JS.JStr "9876543210")
  = JS.Returned RequestValidators.valid
  /\ RequestValidators.validatePhone (rt := Node.runtime) (JS.JNum 9876543210)
     = JS.Returned RequestValidators.valid
  /\ RequestValidators.validatePhone (rt := Node.runtime) (JS.JStr "5876543210")
     = JS.Returned
         (RequestValidators.invalid "Invalid phone number (must be 10 digits starting with 6-9)").
Proof.
  split; [ | split; vm_compute; reflexivity].
  apply (proj2 (validatePhone_accepts Node.runtime (JS.JStr "9876543210"))).
  split; [reflexivity | ].
  exists "9876543210"%string, 57%Z, [56; 55; 54; 53; 52; 51; 50; 49; 48]%Z.
  split; [reflexivity | ]. split; [reflexivity | ]. split; [lia | ].
  split; [reflexivity | ]. repeat constructor; lia.
Defined.

Section CustomerFacts.
Import JS RequestValidators.
Context {rt : Runtime}.

(** The three shapes of a validator's answer. *)
Lemma validateEmail_result (email : value) :
  validateEmail email = Returned valid
  \/ (exists message, validateEmail email = Returned (invalid message))
  \/ exists e, validateEmail email = Thrown e.
Proof.
  unfold validateEmail. destruct (truthy email); cbn [negb].
  - destruct (JS.ToString email) as [text | e]; cbn [bind].
    + destruct (RegExp.test emailRegex (Unicode.of_string text)); cbn [negb].
      * left. reflexivity.
      * right. left. eexists. reflexivity.
    + right. right. eexists. reflexivity.
  - right. left. eexists. reflexivity.
Qed.

Lemma validatePhone_result (phone : value) :
  validatePhone phone = Returned valid
  \/ (exists message, validatePhone phone = Returned (invalid message))
  \/ exists e, validatePhone phone = Thrown e.
Proof.
  unfold validatePhone. destruct (truthy phone); cbn [negb].
  - destruct (toString phone) as [text | e]; cbn [bind].
    + destruct (RegExp.test phoneRegex (Unicode.of_string text)); cbn [negb].
      * left. reflexivity.
      * right. left. eexists. reflexivity.
    + right. right. eexists. reflexivity.
  - right. left. eexists. reflexivity.
Qed.

Lemma validateCustomer_named (customer : value) :
  truthy customer = true -> typeof_object customer = true ->
  truthy (get_opt customer "name") = true -> blank (get_opt customer "name") = false ->
  validateCustomer customer
  = bind (validateEmail (get_opt customer "email"))
      (fun emailValidation =>
         if negb (truthy (get_opt emailValidation "valid")) then Returned emailValidation
         else
           bind (validatePhone (get_opt customer "phone"))
             (fun phoneValidation =>
                if negb (truthy (get_opt phoneValidation "valid"))
                then Returned phoneValidation else Returned valid)).
Proof.
  intros Ht Ho Hn Hb. unfold validateCustomer. rewrite Ht, Ho. cbn [negb orb].
  destruct customer; try discriminate; cbn [get get_opt bind] in *;
    rewrite Hn, Hb; reflexivity.
Qed.

End CustomerFacts.

(** X3. [validateCustomer] checks in the order object, name, email,
    phone and answers with the first failure: a value that is not an
    object, then a name that is not a string holding something other
    than white space, then whatever [validateEmail] answers or throws,
    then whatever [validatePhone] answers or throws. It answers
    [{ valid: true }] exactly when the name is such a string and both
    validators accept. *)
Theorem validateCustomer_first_failure (rt : JS.Runtime) (customer : JS.value) :
  let name := JS.get_opt customer "name" in
  let email := JS.get_opt customer "email" in
  let phone := JS.get_opt customer "phone" in
  let named := JS.truthy name && negb (RequestValidators.blank name) in
  (JS.truthy customer && RequestValidators.typeof_object customer = false ->
   RequestValidators.validateCustomer customer
   = JS.Returned (RequestValidators.invalid "Customer object is required"))
  /\ (JS.truthy customer && RequestValidators.typeof_object customer = true ->
      named = false ->
      RequestValidators.validateCustomer customer
      = JS.Returned (RequestValidators.invalid "Customer name is required"))
  /\ (named = true ->
      RequestValidators.validateEmail email <> JS.Returned RequestValidators.valid ->
      RequestValidators.validateCustomer customer = RequestValidators.validateEmail email)
  /\ (named = true ->
      RequestValidators.validateEmail email = JS.Returned RequestValidators.valid ->
      RequestValidators.validateCustomer customer = RequestValidators.validatePhone phone)
  /\ (RequestValidators.validateCustomer customer = JS.Returned RequestValidators.valid
      <-> named = true
          /\ RequestValidators.validateEmail email = JS.Returned RequestValidators.valid
          /\ RequestValidators.validatePhone phone = JS.Returned RequestValidators.valid).
Proof.
  intros name email phone named.
  assert (named = true ->
          JS.truthy customer = true /\ RequestValidators.typeof_object customer = true
          /\ JS.truthy name = true /\ RequestValidators.blank name = false) as Hnamed.
  { unfold named, name. intros H. apply andb_true_iff in H. destruct H as [Hn Hb].
    apply negb_true_iff in Hb.
    destruct customer; cbn in Hn; try discriminate Hn; repeat split; assumption. }
  assert (named = true ->
          RequestValidators.validateEmail email <> JS.Returned RequestValidators.valid ->
          RequestValidators.validateCustomer customer = RequestValidators.validateEmail email)
    as Hemail.
  { intros H Hne. destruct (Hnamed H) as (Ht & Ho & Hn & Hb).
    rewrite (validateCustomer_named customer Ht Ho Hn Hb). fold email.
    destruct (validateEmail_result email) as [Hv | [(m & Hv) | (e & Hv)]];
      [contradiction | | ]; rewrite Hv; reflexivity. }
  assert (named = true ->
          RequestValidators.validateEmail email = JS.Returned RequestValidators.valid ->
          RequestValidators.validateCustomer customer = RequestValidators.validatePhone phone)
    as Hphone.
  { intros H Hv. destruct (Hnamed H) as (Ht & Ho & Hn & Hb).
    rewrite (validateCustomer_named customer Ht Ho Hn Hb). fold email phone. rewrite Hv.
    cbn [JS.bind RequestValidators.valid JS.get_opt JS.lookup String.eqb Ascii.eqb
         Bool.eqb JS.truthy negb].
    destruct (validatePhone_result phone) as [Hp | [(m & Hp) | (e & Hp)]];
      rewrite Hp; reflexivity. }
  assert (JS.truthy customer && RequestValidators.typeof_object customer = true ->
          named = false ->
          RequestValidators.validateCustomer customer
          = JS.Returned (RequestValidators.invalid "Customer name is required")) as Hname.
  { intros H Hn. apply andb_true_iff in H. destruct H as [Ht Ho].
    unfold RequestValidators.validateCustomer. rewrite Ht, Ho. cbn [negb orb].
    unfold named, name in Hn.
    destruct customer; cbn in Ht, Ho; try discriminate;
      cbn [JS.get JS.get_opt JS.bind] in *.
    - reflexivity.
    - apply andb_false_iff in Hn. destruct Hn as [Hn | Hn].
      + rewrite Hn. reflexivity.
      + apply negb_false_iff in Hn. rewrite Hn. rewrite orb_true_r. reflexivity. }
  assert (JS.truthy customer && RequestValidators.typeof_object customer = false ->
          RequestValidators.validateCustomer customer
          = JS.Returned (RequestValidators.invalid "Customer object is required")) as Hobject.
  { intros H. unfold RequestValidators.validateCustomer.
    apply andb_false_iff in H. destruct H as [-> | ->];
      [reflexivity | rewrite orb_true_r; reflexivity]. }
  split; [exact Hobject | ]. split; [exact Hname | ].
  split; [exact Hemail | ]. split; [exact Hphone | ]. split.
  - intros H.
    assert (named = true) as Hn.
    { destruct named; [reflexivity | ].
      destruct (JS.truthy customer && RequestValidators.typeof_object customer) eqn:Ho.
      - rewrite (Hname eq_refl eq_refl) in H. discriminate H.
      - rewrite (Hobject eq_refl) in H. discriminate H. }
    split; [assumption | ].
    destruct (validateEmail_result email) as [Hv | [(m & Hv) | (e & Hv)]].
    + split; [assumption | ]. rewrite <- (Hphone Hn Hv). assumption.
    + rewrite (Hemail Hn) in H; rewrite Hv in *; discriminate.
    + rewrite (Hemail Hn) in H; rewrite Hv in *; discriminate.
  - intros (Hn & Hv & Hp). rewrite (Hphone Hn Hv). assumption.
Qed.

(** X3 on a sample: a customer with a name and a malformed address is
    answered with what [validateEmail] says of the address, and the
    phone is not looked at. *)
Lemma validateCustomer_scenario :
  RequestValidators.validateCustomer (rt := Node.runtime)
    (JS.JObj [("name", JS.JStr "Asha"); ("email", JS.JStr "asha.example.com");
              ("phone", JS.JObj [("toString", JS.JNull)])]%string)
  = JS.Returned (RequestValidators.invalid "Invalid email format").
Proof.
  pose proof (proj1 (proj2 (proj2 (validateCustomer_first_failure Node.runtime
                (JS.JObj [("name", JS.JStr "Asha"); ("email", JS.JStr "asha.example.com");
                          ("phone", JS.JObj [("toString", JS.JNull)])]%string))))) as H.
  cbv zeta in H. side_condition H ltac:(vm_compute; reflexivity).
  side_condition H ltac:(vm_compute; discriminate).
  rewrite H. vm_compute. reflexivity.
Defined.

Section GatewayFacts.
Import JS RequestValidators.
Local Open Scope Z_scope.

Lemma byte_of_ascii_range (c : ascii) : 0 <= Bytes.byte_of_ascii c < 256.
Proof.
  unfold Bytes.byte_of_ascii. pose proof (N_ascii_bounded c) as H. lia.
Qed.

Lemma ascii_of_byte_of_ascii (c : ascii) : Bytes.ascii_of_byte (Bytes.byte_of_ascii c) = c.
Proof.
  unfold Bytes.ascii_of_byte, Bytes.byte_of_ascii.
  pose proof (N_ascii_bounded c) as H.
  rewrite Z.mod_small by lia. rewrite N2Z.id. apply ascii_N_embedding.
Qed.

Lemma byte_of_ascii_of_byte (b : Z) :
  0 <= b < 256 -> Bytes.byte_of_ascii (Bytes.ascii_of_byte b) = b.
Proof.
  intros H. unfold Bytes.ascii_of_byte, Bytes.byte_of_ascii.
  rewrite Z.mod_small by lia. rewrite N_ascii_embedding by lia. lia.
Qed.

Lemma byte_of_ascii_inj (c d : ascii) :
  Bytes.byte_of_ascii c = Bytes.byte_of_ascii d -> c = d.
Proof.
  intros H. rewrite <- (ascii_of_byte_of_ascii c), <- (ascii_of_byte_of_ascii d), H.
  reflexivity.
Qed.

Lemma toLowerCase_spells (w : string) :
  lowercase_word w = true ->
  forall s : string, toLowerCase s = w <-> spells s w = true.
Proof.
  induction w as [ | d w IH]; cbn [lowercase_word]; intros Hw s.
  - destruct s; cbn [toLowerCase spells]; split; try reflexivity; discriminate.
  - apply andb_true_iff in Hw. destruct Hw as [Hd Hw]. specialize (IH Hw).
    destruct s as [ | c s]; cbn [toLowerCase spells]; [split; discriminate | ].
    pose proof (byte_of_ascii_range c) as Hc.
    rewrite andb_true_iff, <- IH. split.
    + intros H. injection H as Hh Ht. split; [ | assumption].
      destruct ((65 <=? Bytes.byte_of_ascii c) && (Bytes.byte_of_ascii c <=? 90)) eqn:Hup.
      * apply (f_equal Bytes.byte_of_ascii) in Hh.
        rewrite byte_of_ascii_of_byte in Hh by lia. lia.
      * subst d. rewrite Z.eqb_refl. reflexivity.
    + intros [Hh Ht]. f_equal; [ | assumption].
      destruct ((65 <=? Bytes.byte_of_ascii c) && (Bytes.byte_of_ascii c <=? 90)) eqn:Hup.
      * apply byte_of_ascii_inj. rewrite byte_of_ascii_of_byte by lia. lia.
      * apply byte_of_ascii_inj. lia.
Qed.

End GatewayFacts.

(** X4. [validateGateway] asks for a gateway when the value is falsy,
    throws a TypeError for any other value that is not a string, and
    accepts a string exactly when it spells [razorpay], [phonepe] or
    [cashfree] with each letter in either case; every other string is
    answered with the list of the supported gateways. *)
Theorem validateGateway_accepts (gateway : JS.value) :
  (JS.truthy gateway = false ->
   RequestValidators.validateGateway gateway
   = JS.Returned (RequestValidators.invalid "Gateway is required"))
  /\ (JS.truthy gateway = true -> (forall s, gateway <> JS.JStr s) ->
      RequestValidators.validateGateway gateway = JS.Thrown JS.TypeError)
  /\ (forall s : string,
        gateway = JS.JStr s -> JS.truthy gateway = true ->
        let named :=
          RequestValidators.spells s "razorpay" || RequestValidators.spells s "phonepe"
          || RequestValidators.spells s "cashfree" in
        RequestValidators.validateGateway gateway
        = JS.Returned
            (if named then RequestValidators.valid
             else RequestValidators.invalid
                    "Invalid gateway. Supported: razorpay, phonepe, cashfree")).
Proof.
  split; [ | split].
  - intros H. unfold RequestValidators.validateGateway. rewrite H. reflexivity.
  - intros H Hs. unfold RequestValidators.validateGateway. rewrite H. cbn [negb].
    destruct gateway; try reflexivity. elim (Hs s). reflexivity.
  - intros s -> H named. unfold RequestValidators.validateGateway. rewrite H. cbn [negb].
    assert (RequestValidators.includes RequestValidators.validGateways
              (RequestValidators.toLowerCase s) = named) as ->.
    { unfold RequestValidators.includes, RequestValidators.validGateways, named.
      cbn [existsb]. rewrite orb_false_r, orb_assoc.
      assert (forall w, RequestValidators.lowercase_word w = true ->
                        String.eqb (RequestValidators.toLowerCase s) w
                        = RequestValidators.spells s w) as Hw.
      { intros w Hl. apply eq_true_iff_eq. rewrite String.eqb_eq.
        apply toLowerCase_spells. assumption. }
      rewrite !Hw by reflexivity. reflexivity. }
    destruct named; reflexivity.
Qed.

(** X4 on samples: [RazorPay] is accepted, [stripe] is not, and the
    number 1 makes the validator throw. *)
Lemma validateGateway_scenario :
  RequestValidators.validateGateway (JS.JStr "RazorPay") = JS.Returned RequestValidators.valid
  /\ RequestValidators.validateGateway (JS.JStr "stripe")
     = JS.Returned
         (RequestValidators.invalid "Invalid gateway. Supported: razorpay, phonepe, cashfree")
  /\ RequestValidators.validateGateway (JS.JNum 1) = JS.Thrown JS.TypeError.
Proof.
  split; [ | split].
  - exact (proj2 (proj2 (validateGateway_accepts (JS.JStr "RazorPay"))) _ eq_refl eq_refl).
  - exact (proj2 (proj2 (validateGateway_accepts (JS.JStr "stripe"))) _ eq_refl eq_refl).
  - apply (proj1 (proj2 (validateGateway_accepts (JS.JNum 1)))).
    + vm_compute. reflexivity.
    + discriminate.
Defined.

(** ** What the Razorpay webhook handler accepts *)

Section RazorpayAccepts.
Import JS.
Local Open Scope string_scope.
Context {rt : Runtime} (env : Process.Env).

Lemma handleRazorpayWebhook_no_text (body signature : value) :
  JSON_stringify body = None ->
  Razorpay.handleRazorpayWebhook env body signature = Thrown TypeError.
Proof.
  intros H. unfold Razorpay.handleRazorpayWebhook, Crypto.createHmac_sha256_hex.
  rewrite H. destruct body; cbn [get bind rethrow]; try reflexivity;
    destruct (Process.RAZORPAY_KEY_SECRET env); reflexivity.
Qed.

(** A result of the handler is the rejection, or carries [valid: true]
    and was computed for a body signed with the configured secret. *)
Lemma handleRazorpayWebhook_returned (body signature result : value) :
  Razorpay.handleRazorpayWebhook env body signature = Returned result ->
  result = JObj [("valid", JBool false); ("message", JStr "Invalid signature")]
  \/ (get_opt result "valid" = JBool true
      /\ exists secret text,
           Process.RAZORPAY_KEY_SECRET env = Some secret
           /\ JSON_stringify body = Some text
           /\ signature = JStr (SHA256.hmac_sha256_hex secret text)).
Proof.
  intros H.
  destruct (nullish body) eqn:Hb.
  { rewrite (handleRazorpayWebhook_nullish env body signature Hb) in H. discriminate H. }
  destruct (Process.RAZORPAY_KEY_SECRET env) as [secret | ] eqn:Hs.
  2: { rewrite (handleRazorpayWebhook_unconfigured env body signature Hs) in H.
       discriminate H. }
  destruct (JSON_stringify body) as [text | ] eqn:Ht.
  2: { rewrite (handleRazorpayWebhook_no_text body signature Ht) in H. discriminate H. }
  rewrite (handleRazorpayWebhook_digest env secret body signature text Hs Hb Ht) in H.
  destruct (is_string signature (SHA256.hmac_sha256_hex secret text)) eqn:Hd; cbn [negb] in H.
  - right. apply is_string_true in Hd.
    split; [ | exists secret, text; repeat split; assumption ].
    repeat match type of H with
           | context [if ?c then _ else _] => destruct c
           | context [path ?v ?ks] => destruct (path v ks); cbn [bind] in H
           end; try discriminate H; injection H as <-; reflexivity.
  - left. injection H as <-. reflexivity.
Qed.

End RazorpayAccepts.

(** X5. The Razorpay checks fail closed. Without a configured secret
    [verifyRazorpaySignature] and [handleRazorpayWebhook] throw a
    TypeError for every input; and whatever the configuration, a result
    of [handleRazorpayWebhook] with [valid: true] means that a secret is
    configured and the signature is the HMAC-SHA256 digest of the JSON
    text of the body under that secret. *)
Theorem razorpay_fails_closed (rt : JS.Runtime) (env : Process.Env) :
  (Process.RAZORPAY_KEY_SECRET env = None ->
   (forall params : JS.value,
       Razorpay.verifyRazorpaySignature env params = JS.Thrown JS.TypeError)
   /\ (forall body signature : JS.value,
          Razorpay.handleRazorpayWebhook env body signature = JS.Thrown JS.TypeError))
  /\ (forall body signature result : JS.value,
         Razorpay.handleRazorpayWebhook env body signature = JS.Returned result ->
         JS.truthy (JS.get_opt result "valid") = true ->
         exists secret text : string,
           Process.RAZORPAY_KEY_SECRET env = Some secret
           /\ JS.JSON_stringify body = Some text
           /\ signature = JS.JStr (SHA256.hmac_sha256_hex secret text)).
Proof.
  split.
  - intros Hs. split.
    + intros params. unfold Razorpay.verifyRazorpaySignature, Crypto.createHmac_sha256_hex.
      rewrite Hs. destruct (JS.nullish params) eqn:Hn.
      * rewrite (get_nullish params "orderId" Hn). reflexivity.
      * rewrite !(get_not_nullish params _ Hn). cbn [JS.bind].
        destruct (JS.ToString (JS.get_opt params "orderId")) as [o | e] eqn:Ho;
          cbn [JS.bind]; [ | rewrite (ToString_TypeError _ _ Ho); reflexivity].
        destruct (JS.ToString (JS.get_opt params "paymentId")) as [p | e] eqn:Hp;
          cbn [JS.bind]; [reflexivity | rewrite (ToString_TypeError _ _ Hp); reflexivity].
    + intros body signature. apply handleRazorpayWebhook_unconfigured. assumption.
  - intros body signature result H Hv.
    destruct (handleRazorpayWebhook_returned env body signature result H) as [-> | [_ Hsig]].
    + discriminate Hv.
    + exact Hsig.
Qed.

(** X5 on samples: without a secret a captured payment with any
    signature header makes the handler throw. *)
Lemma razorpay_fails_closed_scenario :
  Razorpay.handleRazorpayWebhook (rt := Node.runtime) Scenario.unset
    (Scenario.razorpay_event "payment.captured")
    (Scenario.razorpay_signature (Scenario.razorpay_event "payment.captured"))
  = JS.Thrown JS.TypeError
  /\ Razorpay.verifyRazorpaySignature (rt := Node.runtime) Scenario.unset
       (JS.JObj [("orderId", JS.JStr "order_abc"); ("paymentId", JS.JStr "pay_xyz");
                 ("signature", JS.JStr "0000")]%string)
     = JS.Thrown JS.TypeError.
Proof.
  destruct (proj1 (razorpay_fails_closed Node.runtime Scenario.unset) eq_refl) as [Hv Hh].
  split; [apply Hh | apply Hv].
Defined.

Section RazorpayRoute.
Import JS WebhookRoutes.
Local Open Scope string_scope.
Context {rt : Runtime} (env : Process.Env).

Lemma post_razorpay_no_body (body : value) (sig : option string) :
  nullish body = true -> post_razorpay env body sig = Failed 200 TypeError.
Proof.
  intros H. unfold post_razorpay. rewrite (get_nullish body "event" H). reflexivity.
Qed.

Lemma post_razorpay_handled (body : value) (sig : option string) :
  nullish body = false -> truthy (header sig) = true ->
  post_razorpay env body sig
  = match Razorpay.handleRazorpayWebhook env body (header sig) with
    | Returned result =>
        if negb (truthy (get_opt result "valid")) then
          Json 400 (JObj [("error", get_opt result "message")])
        else
          Json 200 (JObj [("success", JBool true); ("message", JStr "Webhook received");
                          ("data", result)])
    | Thrown e => Failed 200 e
    end.
Proof.
  intros Hb Hs. unfold post_razorpay. rewrite (get_not_nullish body "event" Hb), Hs.
  cbn [bind negb].
  destruct (Razorpay.handleRazorpayWebhook env body (header sig)) as [result | e] eqn:Hh;
    cbn [bind]; [ | reflexivity].
  destruct (handleRazorpayWebhook_returned env body (header sig) result Hh)
    as [-> | [Hv _]].
  - reflexivity.
  - assert (nullish result = false) as Hn
        by (destruct result; try reflexivity; discriminate Hv).
    rewrite !(get_not_nullish result _ Hn). cbn [bind]. rewrite Hv. reflexivity.
Qed.

End RazorpayRoute.

(** X6. The route [POST /api/webhook/razorpay] answers 200 or 400. A
    body that is [null] or [undefined] is answered 200 with
    [success: false], before the signature header is looked at. Any other
    body without a signature header, or with an empty one, is answered
    400 [Missing signature] and the handler is not run. A
    reply 200 with [success: true] is given only when the header is the
    HMAC-SHA256 digest of the JSON text of the body under the configured
    secret; with a secret configured, any other header is answered 400
    [Invalid signature]. *)
Theorem post_razorpay_replies
  (rt : JS.Runtime) (env : Process.Env) (body : JS.value) (sig : option string) :
  let reply := WebhookRoutes.post_razorpay env body sig in
  (WebhookRoutes.status_of reply = 200 \/ WebhookRoutes.status_of reply = 400)%Z
  /\ (JS.nullish body = true -> reply = WebhookRoutes.Failed 200 JS.TypeError)
  /\ (JS.nullish body = false -> sig = None \/ sig = Some ""%string ->
      reply = WebhookRoutes.Json 400 (JS.JObj [("error", JS.JStr "Missing signature")]%string))
  /\ (forall b : JS.value,
         reply = WebhookRoutes.Json 200 b ->
         exists (result : JS.value) (secret text : string),
           b = JS.JObj [("success", JS.JBool true);
                        ("message", JS.JStr "Webhook received");
                        ("data", result)]%string
           /\ Razorpay.handleRazorpayWebhook env body (WebhookRoutes.header sig)
              = JS.Returned result
           /\ Process.RAZORPAY_KEY_SECRET env = Some secret
           /\ JS.JSON_stringify body = Some text
           /\ sig = Some (SHA256.hmac_sha256_hex secret text))
  /\ (forall secret text signature : string,
         Process.RAZORPAY_KEY_SECRET env = Some secret ->
         JS.nullish body = false ->
         JS.JSON_stringify body = Some text ->
         sig = Some signature -> signature <> ""%string ->
         signature <> SHA256.hmac_sha256_hex secret text ->
         reply = WebhookRoutes.Json 400 (JS.JObj [("error", JS.JStr "Invalid signature")]%string)).
Proof.
  intros reply.
  assert (JS.nullish body = false -> sig = None \/ sig = Some ""%string ->
          reply = WebhookRoutes.Json 400
                    (JS.JObj [("error", JS.JStr "Missing signature")]%string)) as Hmissing.
  { intros Hb Hs. unfold reply, WebhookRoutes.post_razorpay.
    rewrite (get_not_nullish body "event" Hb). destruct Hs as [-> | ->]; reflexivity. }
  assert (forall signature, sig = Some signature -> signature <> ""%string ->
                            JS.truthy (WebhookRoutes.header sig) = true) as Hpresent.
  { intros signature -> Hne. destruct signature; [contradiction | reflexivity]. }
  assert (JS.nullish body = true \/
          (JS.nullish body = false /\ (sig = None \/ sig = Some ""%string)) \/
          (JS.nullish body = false /\ exists signature,
              sig = Some signature /\ signature <> ""%string)) as Hcases.
  { destruct (JS.nullish body); [left; reflexivity | right].
    destruct sig as [[ | c s] | ].
    - left. split; [reflexivity | right; reflexivity].
    - right. split; [reflexivity | ]. eexists. split; [reflexivity | discriminate].
    - left. split; [reflexivity | left; reflexivity]. }
  split; [ | split; [ | split; [ | split]]].
  - destruct Hcases as [Hb | [[Hb Hs] | [Hb (signature & Hs & Hne)]]].
    + unfold reply. rewrite (post_razorpay_no_body env body sig Hb). left. reflexivity.
    + rewrite (Hmissing Hb Hs). right. reflexivity.
    + unfold reply. rewrite (post_razorpay_handled env body sig Hb (Hpresent _ Hs Hne)).
      destruct (Razorpay.handleRazorpayWebhook env body (WebhookRoutes.header sig));
        [ | left; reflexivity].
      destruct (negb (JS.truthy (JS.get_opt a "valid"))); [right | left]; reflexivity.
  - intros Hb. apply post_razorpay_no_body. assumption.
  - exact Hmissing.
  - intros b Hreply.
    destruct Hcases as [Hb | [[Hb Hs] | [Hb (signature & Hs & Hne)]]].
    + unfold reply in Hreply. rewrite (post_razorpay_no_body env body sig Hb) in Hreply.
      discriminate Hreply.
    + rewrite (Hmissing Hb Hs) in Hreply. discriminate Hreply.
    + unfold reply in Hreply.
      rewrite (post_razorpay_handled env body sig Hb (Hpresent _ Hs Hne)) in Hreply.
      destruct (Razorpay.handleRazorpayWebhook env body (WebhookRoutes.header sig))
        as [result | e] eqn:Hh; [ | discriminate Hreply].
      destruct (handleRazorpayWebhook_returned env body _ result Hh)
        as [-> | [Hv (secret & text & Hsec & Htext & Hsig)]].
      * discriminate Hreply.
      * rewrite Hv in Hreply. cbn [JS.truthy negb] in Hreply. injection Hreply as <-.
        exists result, secret, text. repeat split; try assumption.
        rewrite Hs in Hsig |- *. cbn [WebhookRoutes.header] in Hsig.
        injection Hsig as ->. reflexivity.
  - intros secret text signature Hsec Hb Htext Hs Hne Hdiff.
    unfold reply. rewrite (post_razorpay_handled env body sig Hb (Hpresent _ Hs Hne)).
    rewrite (handleRazorpayWebhook_mismatch env secret body (WebhookRoutes.header sig) text
               Hsec Hb Htext).
    + reflexivity.
    + rewrite Hs. cbn [WebhookRoutes.header]. intros [= H]. contradiction.
Qed.

(** X6 on samples: no body at all is answered 200 with the error; a
    body without the signature header is answered 400. *)
Lemma post_razorpay_scenario :
  WebhookRoutes.post_razorpay (rt := Node.runtime) (Scenario.env "1") JS.JUndefined None
  = WebhookRoutes.Failed 200 JS.TypeError
  /\ WebhookRoutes.post_razorpay (rt := Node.runtime) (Scenario.env "1")
       (Scenario.razorpay_event "payment.captured") None
     = WebhookRoutes.Json 400 (JS.JObj [("error", JS.JStr "Missing signature")]%string).
Proof.
  split.
  - exact (proj1 (proj2 (post_razorpay_replies Node.runtime (Scenario.env "1")
                           JS.JUndefined None)) eq_refl).
  - exact (proj1 (proj2 (proj2 (post_razorpay_replies Node.runtime (Scenario.env "1")
                                  (Scenario.razorpay_event "payment.captured") None)))
             eq_refl (or_introl eq_refl)).
Defined.

(** X7. The route [POST /api/webhook/phonepe] answers every body with
    200 and [success: true]: the handler of the OAuth adapter never
    throws, so the [catch] of the route is never entered, and a body
    the handler does not accept is reported inside [data] as
    [processed: false]. *)
Theorem post_phonepe_replies (body : JS.value) :
  exists result : JS.value,
    PhonePeOAuth.handlePhonePeWebhook body = JS.Returned result
    /\ WebhookRoutes.post_phonepe body
       = WebhookRoutes.Json 200 (JS.JObj [("success", JS.JBool true); ("data", result)]%string)
    /\ JS.get_opt result "processed"
       = JS.JBool (JS.truthy body && JS.truthy (JS.get_opt body "data")).
Proof.
  unfold WebhookRoutes.post_phonepe. rewrite handlePhonePeWebhook_truthy.
  eexists. split; [reflexivity | ]. split; [reflexivity | ].
  destruct (JS.truthy body && JS.truthy (JS.get_opt body "data")); reflexivity.
Qed.

(** X7 on a sample: a request without a body is answered 200 with
    [success: true] and [processed: false] inside. *)
Lemma post_phonepe_scenario :
  WebhookRoutes.post_phonepe JS.JUndefined
  = WebhookRoutes.Json 200
      (JS.JObj [("success", JS.JBool true);
                ("data", JS.JObj [("processed", JS.JBool false);
                                  ("message", JS.JStr "Invalid webhook format")])]%string).
Proof.
  destruct (post_phonepe_replies JS.JUndefined) as (result & Hh & Hr & _).
  rewrite Hr. injection Hh as <-. reflexivity.
Defined.

(** ** The requests of the OAuth PhonePe adapter *)

Section OAuthRequests.
Import JS PhonePeOAuth PhonePeOAuthRequests.
Local Open Scope string_scope.
Context {rt : Runtime} (env : Process.Env) (api : Http.Gateway).

Lemma getAccessToken_at_most_one (now : float) (net : Network) (tokenCache : TokenCache) :
  (snd (getAccessToken env now net tokenCache) <= 1)%nat.
Proof.
  unfold getAccessToken. destruct (getAccessToken_start env tokenCache now); cbn; try lia.
  destruct (getAccessToken_finish net tokenCache). cbn. lia.
Qed.


End OAuthRequests.

(** X8. The three request functions of the OAuth adapter,
    [createPhonePeOrder], [checkPhonePeTransactionStatus] and
    [refundPhonePePayment]. Whatever they throw is the object literal
    with their own message. Each asks for at most one token, and for
    none while the cached token is valid, in which case the cache is
    left as it is. Each sends at most one API request and throws when it
    sends none; a request that is sent carries [Authorization: Bearer]
    followed by the token [getAccessToken] returned, and its answer, or
    its failure under the function's message, is the outcome. *)
Theorem oauth_requests_carry_token
  (rt : JS.Runtime) (env : Process.Env) (api : Http.Gateway)
  (now : float) (net : PhonePeOAuth.Network) (w : PhonePeOAuthRequests.World)
  (params orderId : JS.value) (stamp : float)
  (run : Effect.M (W := PhonePeOAuthRequests.World) JS.value) (message : string) :
  In (run, message)
    [(PhonePeOAuthRequests.createPhonePeOrder env api params now net,
      "Failed to create PhonePe order"%string);
     (PhonePeOAuthRequests.checkPhonePeTransactionStatus env api orderId now net,
      "Failed to check PhonePe transaction status"%string);
     (PhonePeOAuthRequests.refundPhonePePayment env api params now net stamp,
      "Failed to refund PhonePe payment"%string)] ->
  let got := PhonePeOAuth.getAccessToken env now net (PhonePeOAuthRequests.cache w) in
  let out := fst (run w) in
  let w' := snd (run w) in
  (forall e : JS.exn, out = JS.Thrown e -> exists cause : JS.exn, e = JS.Failure message cause)
  /\ (PhonePeOAuthRequests.token_requests w'
      <= PhonePeOAuthRequests.token_requests w + 1)%nat
  /\ (PhonePeOAuth.valid (PhonePeOAuthRequests.cache w) now = true ->
      PhonePeOAuthRequests.token_requests w' = PhonePeOAuthRequests.token_requests w
      /\ PhonePeOAuthRequests.cache w' = PhonePeOAuthRequests.cache w)
  /\ ((PhonePeOAuthRequests.sent w' = PhonePeOAuthRequests.sent w
       /\ exists e : JS.exn, out = JS.Thrown e)
      \/ exists (q : Http.Request) (token : JS.value) (bearer : string),
           PhonePeOAuthRequests.sent w' = (PhonePeOAuthRequests.sent w ++ [q])%list
           /\ fst (fst got) = JS.Returned token
           /\ JS.ToString token = JS.Returned bearer
           /\ Http.headers q
              = [("Authorization", "Bearer " ++ bearer);
                 ("X-Client-Version", PhonePeOAuth.PHONEPE_CLIENT_VERSION env);
                 ("Content-Type", "application/json")]%string
           /\ out = match api q with
                    | JS.Returned data => JS.Returned data
                    | JS.Thrown e => JS.Thrown (JS.Failure message e)
                    end).
Proof.
  intros Hin got out w'.
  pose proof (getAccessToken_at_most_one env now net (PhonePeOAuthRequests.cache w)) as Hle.
  pose proof (getAccessToken_hit env (PhonePeOAuthRequests.cache w) now net) as Hhit.
  assert (forall (c : PhonePeOAuth.TokenCache) (n : nat) (r : JS.outcome JS.value),
             PhonePeOAuth.getAccessToken env now net (PhonePeOAuthRequests.cache w)
             = (r, c, n) ->
             (n <= 1)%nat
             /\ (PhonePeOAuth.valid (PhonePeOAuthRequests.cache w) now = true ->
                 (PhonePeOAuthRequests.token_requests w + n)%nat
                 = PhonePeOAuthRequests.token_requests w
                 /\ c = PhonePeOAuthRequests.cache w)) as Htoken.
  { intros c n r Hg. rewrite Hg in Hle, Hhit. split; [exact Hle | ].
    intros Hv. specialize (Hhit Hv). injection Hhit as _ -> ->. split; [lia | reflexivity]. }
  clear Hle Hhit.
  cbn [In] in Hin. destruct Hin as [Hin | [Hin | [Hin | []]]];
    injection Hin as <- <-; subst out w' got;
    unfold PhonePeOAuthRequests.createPhonePeOrder,
      PhonePeOAuthRequests.checkPhonePeTransactionStatus,
      PhonePeOAuthRequests.refundPhonePePayment, Effect.catch_as, Effect.bind,
      Effect.lift, Effect.ret, PhonePeOAuthRequests.token, PhonePeOAuthRequests.request,
      PhonePeOAuthRequests.headers;
    repeat
      (match goal with
       | |- context [JS.get ?v ?k] => destruct (JS.get v k) as [? | ?]
       | |- context [PhonePeOAuth.getAccessToken ?e ?t ?n ?c] =>
           let Hg := fresh "Hg" in
           destruct (PhonePeOAuth.getAccessToken e t n c) as [[[? | ?] ?] ?] eqn:Hg;
           destruct (Htoken _ _ _ eq_refl) as [Hle Hkeep]
       | |- context [PhonePeOAuth.amountInPaise ?a] =>
           destruct (PhonePeOAuth.amountInPaise a) as [? | ?]
       | |- context [PhonePeOAuth.refund_amountInPaise ?a] =>
           destruct (PhonePeOAuth.refund_amountInPaise a) as [? | ?]
       | |- context [JS.ToString ?v] =>
           let Hb := fresh "Hb" in destruct (JS.ToString v) as [? | ?] eqn:Hb
       end;
       cbn [fst snd JS.bind PhonePeOAuthRequests.token_requests PhonePeOAuthRequests.cache
            PhonePeOAuthRequests.sent]);
    try (split; [intros ? [= <-]; eexists; reflexivity | ];
         split; [lia | ];
         split; [first [exact Hkeep | intros _; split; reflexivity] | ];
         left; split; [reflexivity | eexists; reflexivity]);
    match goal with |- context [api ?q] => set (request := q) end;
    (split; [destruct (api request); intros ? [= <-]; eexists; reflexivity | ]);
    (split; [destruct (api request); cbn; lia | ]);
    (split; [destruct (api request); exact Hkeep | ]);
    destruct (api request) eqn:Ha; right; exists request; do 2 eexists;
    (split; [reflexivity | ]); (split; [reflexivity | ]); (split; [eassumption | ]);
    (split; [reflexivity | ]); rewrite Ha; reflexivity.
Qed.

(** X8 on a sample: an order for 499 rupees on an empty cache. The
    token request is answered with [tok_1]; one API request is sent,
    with that token as bearer and 49900 paise as amount. *)
Lemma oauth_requests_scenario :
  let run :=
    PhonePeOAuthRequests.createPhonePeOrder (rt := Node.runtime) (Scenario.env "1")
      Sandbox.accepting Sandbox.order 1700000000000
      (Scenario.token_reply "tok_1" 1700000000250) in
  exists q : Http.Request,
    PhonePeOAuthRequests.sent (snd (run (PhonePeOAuthRequests.start PhonePeOAuth.initial)))
    = [q]
    /\ Http.headers q
       = [("Authorization", "Bearer tok_1"); ("X-Client-Version", "1");
          ("Content-Type", "application/json")]%string
    /\ JS.get_opt (Http.data q) "amount" = JS.JNum 49900.
Proof.
  cbv zeta.
  destruct (proj2 (proj2 (proj2
              (oauth_requests_carry_token Node.runtime (Scenario.env "1") Sandbox.accepting
                 1700000000000 (Scenario.token_reply "tok_1" 1700000000250)
                 (PhonePeOAuthRequests.start PhonePeOAuth.initial)
                 Sandbox.order JS.JUndefined 0 _ _ (or_introl eq_refl)))))
    as [[Hs _] | (q & token & bearer & Hs & Hg & Hb & Hh & _)].
  - vm_compute in Hs. discriminate Hs.
  - exists q. vm_compute in Hg. injection Hg as <-.
    vm_compute in Hb. injection Hb as <-.
    split; [ | split].
    + rewrite Hs. reflexivity.
    + rewrite Hh. vm_compute. reflexivity.
    + vm_compute in Hs. injection Hs as <-. vm_compute. reflexivity.
Defined.



(** X10. The three request functions of the salt-based adapter,
    [createPhonePeOrder], [checkPhonePeTransactionStatus] and
    [refundPhonePePayment]. Each sends at most one request and throws
    when it sends none. A request that is sent is signed: its [X-VERIFY]
    header is accepted by [verifyPhonePeSignature] for the base64 text
    of the JSON payload, the payload names the configured merchant, and
    a POST carries that base64 text as [request]. The function throws
    exactly when the request fails. *)
Theorem salt_requests_are_signed
  (rt : JS.Runtime) (env : Process.Env) (api_url : option string) (api : Http.Gateway)
  (params transactionId : JS.value) (now stamp : float) (sent : list Http.Request)
  (run : Effect.M (W := list Http.Request) JS.value) :
  In run
    [PhonePeSaltRequests.createPhonePeOrder env api_url api params now;
     PhonePeSaltRequests.checkPhonePeTransactionStatus env api_url api transactionId;
     PhonePeSaltRequests.refundPhonePePayment env api_url api params stamp] ->
  let out := fst (run sent) in
  let sent' := snd (run sent) in
  (sent' = sent /\ exists e : JS.exn, out = JS.Thrown e)
  \/ exists (q : Http.Request) (payloadData : JS.value) (json xVerify : string),
       sent' = (sent ++ [q])%list
       /\ JS.JSON_stringify payloadData = Some json
       /\ JS.get_opt payloadData "merchantId"
          = PhonePeSaltRequests.optional (Process.PHONEPE_MERCHANT_ID env)
       /\ Http.headers q
          = [("Content-Type", "application/json"); ("X-VERIFY", xVerify)]%string
       /\ PhonePeSalt.verifyPhonePeSignature env (Some (Base64.encode json))
            (JS.JStr xVerify)
          = JS.Returned true
       /\ (Http.method q = "POST"%string
           /\ Http.data q = JS.JObj [("request"%string, JS.JStr (Base64.encode json))]
           \/ Http.method q = "GET"%string /\ Http.data q = JS.JUndefined)
       /\ ((exists e : JS.exn, api q = JS.Thrown e)
           <-> exists e : JS.exn, out = JS.Thrown e).
Proof.
  intros Hin out sent'.
  cbn [In] in Hin. destruct Hin as [Hin | [Hin | [Hin | []]]]; subst run out sent';
    unfold PhonePeSaltRequests.createPhonePeOrder,
      PhonePeSaltRequests.checkPhonePeTransactionStatus,
      PhonePeSaltRequests.refundPhonePePayment, Effect.catch_as, Effect.catch_rethrow,
      Effect.bind, Effect.lift, Effect.ret, PhonePeSaltRequests.request,
      PhonePeSaltRequests.headers, PhonePeSaltRequests.encode,
      PhonePeSaltRequests.orderPayload, PhonePeSaltRequests.PHONEPE_MERCHANT_ID;
    repeat
      (match goal with
       | |- context [JS.get ?v ?k] => destruct (JS.get v k) as [? | ?]
       | |- context [PhonePeSalt.amountInPaise ?a] =>
           destruct (PhonePeSalt.amountInPaise a) as [? | ?]
       | |- context [PhonePeSalt.refund_amount ?a] =>
           destruct (PhonePeSalt.refund_amount a) as [? | ?]
       | |- context [PhonePeSaltRequests.merchantUserId ?e] =>
           destruct (PhonePeSaltRequests.merchantUserId e) as [? | ?]
       | |- context [JS.JSON_stringify ?p] =>
           let Hj := fresh "Hj" in destruct (JS.JSON_stringify p) as [? | ] eqn:Hj
       | |- context [PhonePeSalt.generatePhonePeSignature env (Some ?p)] =>
           rewrite (generatePhonePeSignature_text env (Some p)
                      (or_introl (fun H => eq_ind (Some p)
                                             (fun o => match o with Some _ => True | None => False end)
                                             I None H)))
       | |- context [JS.ToString ?v] => destruct (JS.ToString v) as [? | ?]
       end;
       cbn [fst snd JS.bind]);
    try (left; split; [reflexivity | eexists; reflexivity]);
    match goal with |- context [api ?q] => set (request := q) end;
    match type of Hj with JS.JSON_stringify ?p = Some ?j =>
      right; exists request, p, j; eexists
    end;
    (split; [destruct (api request); reflexivity | ]);
    (split; [exact Hj | ]);
    (split; [reflexivity | ]);
    (split; [reflexivity | ]);
    (split; [unfold PhonePeSalt.verifyPhonePeSignature;
             match goal with |- context [PhonePeSalt.generatePhonePeSignature env (Some ?p)] =>
               rewrite (generatePhonePeSignature_text env (Some p)
                      (or_introl (fun H => eq_ind (Some p)
                                             (fun o => match o with Some _ => True | None => False end)
                                             I None H)))
             end;
             cbn [JS.bind]; apply f_equal; apply is_string_true; reflexivity | ]);
    (split; [first [left; split; reflexivity | right; split; reflexivity] | ]);
    destruct (api request) eqn:Ha; cbn [fst];
    (split; [intros [? H]; first [discriminate H | eexists; reflexivity]
            | intros [? H]; first [discriminate H | eexists; reflexivity]]).
Qed.

(** X10 on a sample: the same order through the salt-based adapter
    with salt [SALT1] and index 1. One POST is sent, and its [X-VERIFY]
    is the SHA-256 of the base64 payload followed by the salt, then
    [###1]. *)
Lemma salt_requests_scenario :
  let run :=
    PhonePeSaltRequests.createPhonePeOrder (rt := Node.runtime) (Scenario.env "1") None
      Sandbox.accepting Sandbox.order 1700000000000 in
  exists (q : Http.Request) (json : string),
    snd (run []) = [q]
    /\ Http.url q = "https://api.phonepe.com/apis/hermes/pg/v1/pay"%string
    /\ Http.data q = JS.JObj [("request"%string, JS.JStr (Base64.encode json))]
    /\ Http.headers q
       = [("Content-Type", "application/json");
          ("X-VERIFY", SHA256.sha256_hex (Base64.encode json ++ "SALT1") ++ "###1")]%string.
Proof.
  cbv zeta.
  destruct (salt_requests_are_signed Node.runtime (Scenario.env "1") None Sandbox.accepting
              Sandbox.order JS.JUndefined 1700000000000 0 [] _ (or_introl eq_refl))
    as [[Hs _] | (q & payloadData & json & xVerify & Hs & _ & _ & Hh & Hv & Hm & _)].
  - vm_compute in Hs. discriminate Hs.
  - exists q, json.
    assert (Http.method q = "POST"%string
            /\ Http.url q = "https://api.phonepe.com/apis/hermes/pg/v1/pay"%string)
      as [Hpost Hurl].
    { pose proof Hs as Hq. vm_compute in Hq. injection Hq as <-. split; reflexivity. }
    destruct Hm as [[_ Hd] | [Hget _]]; [ | rewrite Hpost in Hget; discriminate Hget].
    unfold PhonePeSalt.verifyPhonePeSignature in Hv.
    rewrite (generatePhonePeSignature_text (Scenario.env "1") (Some (Base64.encode json))
               (or_intror (fun H : Some "SALT1"%string = None =>
                             eq_ind (Some "SALT1"%string)
                               (fun o => match o with Some _ => True | None => False end)
                               I None H))) in Hv.
    cbn [JS.bind] in Hv.
    apply (f_equal (fun o => match o with JS.Returned b => b | JS.Thrown _ => false end))
      in Hv.
    apply is_string_true in Hv.
    apply (f_equal (fun v => match v with JS.JStr s => s | _ => EmptyString end)) in Hv.
    rewrite Hv in Hh.
    split; [exact Hs | ]. split; [exact Hurl | ].
    split; [exact Hd | ]. rewrite Hh. reflexivity.
Defined.


